(** * CaroAI (app.py): a shallow embedding and its verified properties

    The program is a Streamlit script: it parses an uploaded resume, asks a
    generative model for skills, a career roadmap, a skill-gap analysis and
    course links, and renders the answers.  The embedding below follows
    [app.py] function by function.

    - Python [str] values are lists of Unicode code points.
    - Values whose type is only known at run time (whatever [json.loads]
      returns) are [pyval]s.
    - Side effects (calls of the generative service, Streamlit output, QR
      encoding) are recorded, in order, in a trace; exceptions are explicit
      outcomes of a small state-and-exception monad [M]. *)

From Stdlib Require Import ZArith NArith List String Ascii Bool Lia.
From stdpp Require Import base option list gmap.

Local Open Scope N_scope.

(* ================================================================== *)
(** ** Python strings *)
(* ================================================================== *)

(** A Python [str]: a sequence of code points. *)
Definition str : Type := list N.

(** [lit "abc"] is the Python literal ['abc'] (ASCII literals only). *)
Definition lit (s : string) : str :=
  List.map N_of_ascii (list_ascii_of_string s).

(** Source literals that contain a double quote are written with a single
    quote in its place: [dq "{'a': 1}"] is the text [{"a": 1}]. *)
Definition dq (s : string) : str :=
  List.map (fun c => if c =? 39 then 34 else c) (lit s).

(** The one-character string of a line feed. *)
Definition lit_nl : str := [10].

Definition str_eqb (a b : str) : bool := bool_decide (a = b).

(** [bool(s)] for a string. *)
Definition nonempty {A} (l : list A) : bool :=
  match l with [] => false | _ :: _ => true end.

(** [str.isspace] on one code point: the characters [str.strip()] removes. *)
Definition isspace (c : N) : bool :=
  ((9 <=? c) && (c <=? 13)) || ((28 <=? c) && (c <=? 32))
  || (c =? 133) || (c =? 160) || (c =? 5760)
  || ((8192 <=? c) && (c <=? 8202))
  || (c =? 8232) || (c =? 8233) || (c =? 8239) || (c =? 8287) || (c =? 12288).

Fixpoint lstrip (s : str) : str :=
  match s with
  | [] => []
  | c :: s' => if isspace c then lstrip s' else s
  end.

Definition rstrip (s : str) : str := reverse (lstrip (reverse s)).

(** [s.strip()] *)
Definition strip (s : str) : str := rstrip (lstrip s).

(** [s.split(sep)] for a one-character separator: n separators give n+1
    pieces, and the empty string gives [['']]. *)
Fixpoint split (sep : N) (s : str) : list str :=
  match s with
  | [] => [[]]
  | c :: s' =>
      if c =? sep then [] :: split sep s'
      else match split sep s' with
           | t :: ts => (c :: t) :: ts
           | [] => [[c]]
           end
  end.

(** [sep.join(l)] for a list of strings. *)
Fixpoint join (sep : str) (l : list str) : str :=
  match l with
  | [] => []
  | [x] => x
  | x :: l' => x ++ sep ++ join sep l'
  end.

(** [s.startswith(p)], returning what follows the prefix. *)
Fixpoint strip_prefix (p s : str) : option str :=
  match p, s with
  | [], _ => Some s
  | _ :: _, [] => None
  | a :: p', b :: s' => if a =? b then strip_prefix p' s' else None
  end.

(** [needle in hay] *)
Fixpoint str_in (needle hay : str) : bool :=
  match strip_prefix needle hay with
  | Some _ => true
  | None => match hay with
            | [] => false
            | _ :: hay' => str_in needle hay'
            end
  end.

(* ================================================================== *)
(** ** Regular expressions (the fragment of [re] that app.py uses) *)
(* ================================================================== *)

Module Re.

(** Patterns: literals, character classes, sequence, ordered alternation,
    greedy option, and greedy [+] over a character class. *)
Inductive regex : Type :=
| Lit (l : str)
| Cls (p : N -> bool)
| Seq (r1 r2 : regex)
| Alt (r1 r2 : regex)
| Opt (r : regex)
| Plus (p : N -> bool).

(** One or more characters of class [p], longest run first. *)
Fixpoint plus_k {T} (p : N -> bool) (s : str) (k : str -> option T) : option T :=
  match s with
  | [] => None
  | c :: s' =>
      if p c then
        match plus_k p s' k with
        | Some t => Some t
        | None => k s'
        end
      else None
  end.

(** The backtracking matcher: [matchk r s k] matches [r] at the start of [s]
    and hands what is left to [k]; the first success, in the order the [re]
    engine tries the alternatives, wins. *)
Fixpoint matchk {T} (r : regex) (s : str) (k : str -> option T) : option T :=
  match r with
  | Lit l => match strip_prefix l s with
             | Some s' => k s'
             | None => None
             end
  | Cls p => match s with
             | c :: s' => if p c then k s' else None
             | [] => None
             end
  | Seq r1 r2 => matchk r1 s (fun s' => matchk r2 s' k)
  | Alt r1 r2 => match matchk r1 s k with
                 | Some t => Some t
                 | None => matchk r2 s k
                 end
  | Opt r' => match matchk r' s k with
              | Some t => Some t
              | None => k s
              end
  | Plus p => plus_k p s k
  end.

(** [pattern.match(s)]: what is left of [s] after the match at position 0. *)
Definition match_prefix (r : regex) (s : str) : option str := matchk r s Some.

(** [re.findall(r, s)] for a pattern whose single group is the whole
    pattern: the non-overlapping matches, leftmost first.  [skip] counts the
    characters of the current match still to be passed over. *)
Fixpoint findall_from (r : regex) (skip : nat) (s : str) : list str :=
  match skip, s with
  | S n, _ :: s' => findall_from r n s'
  | S _, [] => []
  | O, [] => match match_prefix r s with
             | Some _ => [[]]
             | None => []
             end
  | O, _ :: s' =>
      match match_prefix r s with
      | Some rest =>
          let n := (length s - length rest)%nat in
          take n s :: findall_from r (n - 1) s'
      | None => findall_from r 0 s'
      end
  end.

Definition findall (r : regex) (s : str) : list str := findall_from r 0 s.

(** [re.sub(r, "", s)]: every non-overlapping match removed. *)
Fixpoint sub_empty_from (r : regex) (skip : nat) (s : str) : str :=
  match skip, s with
  | S n, _ :: s' => sub_empty_from r n s'
  | S _, [] => []
  | O, [] => []
  | O, c :: s' =>
      match match_prefix r s with
      | Some rest =>
          match (length s - length rest)%nat with
          | O => c :: sub_empty_from r 0 s'
          | S n => sub_empty_from r n s'
          end
      | None => c :: sub_empty_from r 0 s'
      end
  end.

Definition sub_empty (r : regex) (s : str) : str := sub_empty_from r 0 s.

(** The language of a pattern, independently of any matching strategy. *)
Inductive Matches : regex -> str -> Prop :=
| M_Lit l : Matches (Lit l) l
| M_Cls (p : N -> bool) c : p c = true -> Matches (Cls p) [c]
| M_Seq r1 r2 u1 u2 : Matches r1 u1 -> Matches r2 u2 -> Matches (Seq r1 r2) (u1 ++ u2)
| M_AltL r1 r2 u : Matches r1 u -> Matches (Alt r1 r2) u
| M_AltR r1 r2 u : Matches r2 u -> Matches (Alt r1 r2) u
| M_OptNone r : Matches (Opt r) []
| M_OptSome r u : Matches r u -> Matches (Opt r) u
| M_Plus (p : N -> bool) c u : p c = true -> Forall (fun x => p x = true) u -> Matches (Plus p) (c :: u).

End Re.

Infix "⋅" := Re.Seq (at level 41, right associativity).


(* ================================================================== *)
(** ** Python values *)
(* ================================================================== *)

(** A Python [float] obtained from a JSON number: the double nearest to
    [(-1)^negative * mantissa * 10^exp10], or one of the constants the
    [json] module also accepts. *)
Inductive pyfloat : Type :=
| FNan
| FInf (negative : bool)
| FDec (negative : bool) (mantissa : N) (exp10 : Z).

(** The values [json.loads] can return. A [dict] keeps its keys in insertion
    order, each key once. *)
#[warnings="-register-all"]
Inductive pyval : Type :=
| PyNone
| PyBool (b : bool)
| PyInt (z : Z)
| PyFloat (f : pyfloat)
| PyStr (s : str)
| PyList (l : list pyval)
| PyDict (d : list (str * pyval)).

(** [d[k] = v] *)
Fixpoint dict_set (k : str) (v : pyval) (d : list (str * pyval)) : list (str * pyval) :=
  match d with
  | [] => [(k, v)]
  | (k', v') :: d' =>
      if str_eqb k k' then (k, v) :: d' else (k', v') :: dict_set k v d'
  end.

Fixpoint dict_lookup (k : str) (d : list (str * pyval)) : option pyval :=
  match d with
  | [] => None
  | (k', v) :: d' => if str_eqb k k' then Some v else dict_lookup k d'
  end.

(** [d.get(k, default)] on a dict. *)
Definition dict_get (k : str) (default : pyval) (d : list (str * pyval)) : pyval :=
  match dict_lookup k d with
  | Some v => v
  | None => default
  end.

(** A decimal rounds to the double [0.0] exactly when its magnitude is at
    most [2^-1075], half the least positive double (ties go to even). *)
Definition rounds_to_zero (mantissa : N) (exp10 : Z) : bool :=
  if (0 <=? exp10)%Z then mantissa =? 0
  else (Z.of_N mantissa * 2 ^ 1075 <=? 10 ^ (- exp10))%Z.

(** [bool(v)]: Python truthiness. *)
Definition truthy (v : pyval) : bool :=
  match v with
  | PyNone => false
  | PyBool b => b
  | PyInt z => negb (z =? 0)%Z
  | PyFloat FNan => true
  | PyFloat (FInf _) => true
  | PyFloat (FDec _ m e) => negb (rounds_to_zero m e)
  | PyStr s => nonempty s
  | PyList l => nonempty l
  | PyDict d => nonempty d
  end.

(** [isinstance(v, str)] *)
Definition is_str (v : pyval) : bool :=
  match v with PyStr _ => true | _ => false end.

(* ================================================================== *)
(** ** [json.loads] *)
(* ================================================================== *)

Module Json.

Definition is_ws (c : N) : bool :=
  (c =? 32) || (c =? 9) || (c =? 10) || (c =? 13).

Fixpoint skip_ws (s : str) : str :=
  match s with
  | [] => []
  | c :: s' => if is_ws c then skip_ws s' else s
  end.

Definition is_digit (c : N) : bool := (48 <=? c) && (c <=? 57).

Definition hex_val (c : N) : option N :=
  if (48 <=? c) && (c <=? 57) then Some (c - 48)
  else if (97 <=? c) && (c <=? 102) then Some (c - 87)
  else if (65 <=? c) && (c <=? 70) then Some (c - 55)
  else None.

(** The four hex digits of a [\uXXXX] escape. *)
Definition hex4 (a b c d : N) : option N :=
  match hex_val a, hex_val b, hex_val c, hex_val d with
  | Some x, Some y, Some z, Some w => Some (((x * 16 + y) * 16 + z) * 16 + w)
  | _, _, _, _ => None
  end.

(** The one-character escapes. *)
Definition backslash (e : N) : option N :=
  if e =? 34 then Some 34          (* quote *)
  else if e =? 92 then Some 92     (* backslash *)
  else if e =? 47 then Some 47     (* slash *)
  else if e =? 98 then Some 8      (* b: backspace *)
  else if e =? 102 then Some 12    (* f: form feed *)
  else if e =? 110 then Some 10    (* n: line feed *)
  else if e =? 114 then Some 13    (* r: carriage return *)
  else if e =? 116 then Some 9     (* t: tab *)
  else None.

Definition is_high_surrogate (u : N) : bool := (55296 <=? u) && (u <=? 56319).
Definition is_low_surrogate (u : N) : bool := (56320 <=? u) && (u <=? 57343).
Definition join_surrogates (hi lo : N) : N :=
  65536 + (hi - 55296) * 1024 + (lo - 56320).

(** Reading a string after its opening quote: the decoded text and what
    follows the closing quote.  Control characters are refused (strict
    mode), and a high surrogate escape directly followed by a low one is
    joined into one code point. *)
Fixpoint scanstring (s : str) : option (str * str) :=
  match s with
  | [] => None
  | c :: s1 =>
      if c =? 34 then Some ([], s1)
      else if c =? 92 then
        match s1 with
        | [] => None
        | e :: s2 =>
            if e =? 117 then
              match s2 with
              | a :: b :: c' :: d :: s6 =>
                  match hex4 a b c' d with
                  | None => None
                  | Some u =>
                      let single :=
                        match scanstring s6 with
                        | Some (t, r) => Some (u :: t, r)
                        | None => None
                        end in
                      if is_high_surrogate u then
                        match s6 with
                        | b1 :: u1 :: a2 :: b2 :: c2 :: d2 :: s12 =>
                            if (b1 =? 92) && (u1 =? 117) then
                              match hex4 a2 b2 c2 d2 with
                              | None => None
                              | Some u2 =>
                                  if is_low_surrogate u2 then
                                    match scanstring s12 with
                                    | Some (t, r) => Some (join_surrogates u u2 :: t, r)
                                    | None => None
                                    end
                                  else single
                              end
                            else single
                        | _ => single
                        end
                      else single
                  end
              | _ => None
              end
            else
              match backslash e with
              | None => None
              | Some ch =>
                  match scanstring s2 with
                  | Some (t, r) => Some (ch :: t, r)
                  | None => None
                  end
              end
        end
      else if c <=? 31 then None
      else
        match scanstring s1 with
        | Some (t, r) => Some (c :: t, r)
        | None => None
        end
  end.

(** A maximal run of decimal digits: its digits, their value, and the rest. *)
Fixpoint digits (s : str) (n : nat) (acc : N) : nat * N * str :=
  match s with
  | c :: s' => if is_digit c then digits s' (S n) (acc * 10 + (c - 48)) else (n, acc, s)
  | [] => (n, acc, s)
  end.

(** The integer part of a number: [0], or a non-zero digit and more digits. *)
Definition int_part (s : str) : option (N * str) :=
  match s with
  | c :: s' =>
      if c =? 48 then Some (0, s')
      else if is_digit c then
        let '(_, v, r) := digits s' 0%nat (c - 48) in Some (v, r)
      else None
  | [] => None
  end.

(** An optional fraction [.ddd]: the mantissa with the fraction digits
    appended, how many there were, and the rest. *)
Definition frac_part (m : N) (s : str) : option (N * nat * str) :=
  match s with
  | dot :: c :: s' =>
      if (dot =? 46) && is_digit c then
        let '(n, v, r) := digits (c :: s') 0%nat m in Some (v, n, r)
      else None
  | _ => None
  end.

(** An optional exponent [e+dd], [E-dd], ...: its value and the rest. *)
Definition exp_part (s : str) : option (Z * str) :=
  match s with
  | e :: s1 =>
      if (e =? 101) || (e =? 69) then
        let '(neg, s2) :=
          match s1 with
          | sg :: s2 => if sg =? 45 then (true, s2)
                        else if sg =? 43 then (false, s2) else (false, s1)
          | [] => (false, s1)
          end in
        match digits s2 0%nat 0 with
        | (O, _, _) => None
        | (S _, v, r) => Some (if neg then (- Z.of_N v)%Z else Z.of_N v, r)
        end
      else None
  | [] => None
  end.

(** A JSON number: an [int] when it has neither fraction nor exponent, a
    [float] otherwise. *)
Definition number (s : str) : option (pyval * str) :=
  let '(neg, s0) :=
    match s with
    | c :: s' => if c =? 45 then (true, s') else (false, s)
    | [] => (false, s)
    end in
  match int_part s0 with
  | None => None
  | Some (i, r1) =>
      match frac_part i r1, exp_part r1 with
      | None, None => Some (PyInt (if neg then (- Z.of_N i)%Z else Z.of_N i), r1)
      | None, Some (e, r3) => Some (PyFloat (FDec neg i e), r3)
      | Some (m, n, r2), _ =>
          match exp_part r2 with
          | None => Some (PyFloat (FDec neg m (- Z.of_nat n)%Z), r2)
          | Some (e, r3) => Some (PyFloat (FDec neg m (e - Z.of_nat n)%Z), r3)
          end
      end
  end.

(** The keywords, tried in the scanner's order. *)
Definition keyword (s : str) : option (pyval * str) :=
  match strip_prefix (lit "null") s with Some r => Some (PyNone, r) | None =>
  match strip_prefix (lit "true") s with Some r => Some (PyBool true, r) | None =>
  match strip_prefix (lit "false") s with Some r => Some (PyBool false, r) | None =>
  match strip_prefix (lit "NaN") s with Some r => Some (PyFloat FNan, r) | None =>
  match strip_prefix (lit "Infinity") s with Some r => Some (PyFloat (FInf false), r) | None =>
  match strip_prefix (lit "-Infinity") s with Some r => Some (PyFloat (FInf true), r) | None =>
  None end end end end end end.

(** One JSON value at the start of [s], and what follows it.  The fuel
    bounds the recursion; [2 * length s] is always enough, since every
    second recursive call has consumed a character. *)
Fixpoint scan_once (fuel : nat) (s : str) : option (pyval * str) :=
  match fuel with
  | O => None
  | S fuel' =>
      match s with
      | [] => None
      | c :: s' =>
          if c =? 34 then
            match scanstring s' with
            | Some (t, r) => Some (PyStr t, r)
            | None => None
            end
          else if c =? 123 then
            match skip_ws s' with
            | c2 :: r' => if c2 =? 125 then Some (PyDict [], r')
                          else parse_members fuel' (c2 :: r') []
            | [] => None
            end
          else if c =? 91 then
            match skip_ws s' with
            | c2 :: r' => if c2 =? 93 then Some (PyList [], r')
                          else parse_items fuel' (c2 :: r') []
            | [] => None
            end
          else
            match keyword s with
            | Some res => Some res
            | None => number s
            end
      end
  end

(** The elements of an array, after [[] or a comma. *)
with parse_items (fuel : nat) (s : str) (acc : list pyval) : option (pyval * str) :=
  match fuel with
  | O => None
  | S fuel' =>
      match scan_once fuel' s with
      | None => None
      | Some (v, r) =>
          match skip_ws r with
          | c :: r' =>
              if c =? 93 then Some (PyList (acc ++ [v]), r')
              else if c =? 44 then parse_items fuel' (skip_ws r') (acc ++ [v])
              else None
          | [] => None
          end
      end
  end

(** The members of an object, after [{] or a comma. *)
with parse_members (fuel : nat) (s : str) (acc : list (str * pyval)) : option (pyval * str) :=
  match fuel with
  | O => None
  | S fuel' =>
      match s with
      | q :: s1 =>
          if q =? 34 then
            match scanstring s1 with
            | None => None
            | Some (key, r1) =>
                match skip_ws r1 with
                | colon :: r2 =>
                    if colon =? 58 then
                      match scan_once fuel' (skip_ws r2) with
                      | None => None
                      | Some (v, r3) =>
                          match skip_ws r3 with
                          | c :: r4 =>
                              if c =? 125 then Some (PyDict (dict_set key v acc), r4)
                              else if c =? 44 then
                                parse_members fuel' (skip_ws r4) (dict_set key v acc)
                              else None
                          | [] => None
                          end
                      end
                    else None
                | [] => None
                end
            end
          else None
      | [] => None
      end
  end.

(** [json.loads(s)]: [None] stands for the [JSONDecodeError] it raises.
    Limits of the interpreter (recursion depth, digits of an integer) are
    not part of the model. *)
Definition loads (s : str) : option pyval :=
  let s0 := skip_ws s in
  match scan_once (2 * length s0) s0 with
  | Some (v, r) =>
      match skip_ws r with
      | [] => Some v
      | _ :: _ => None
      end
  | None => None
  end.

End Json.


(* ================================================================== *)
(** ** Effects: the generative service, Streamlit, exceptions *)
(* ================================================================== *)

(** The exceptions that occur in a run. All but [StopException] derive from
    Python's [Exception]; [st.stop()] raises [StopException], which an
    [except Exception] clause does not catch. *)
Inductive exn : Type :=
| ServiceError          (* raised by [model.generate_content] *)
| JSONDecodeError       (* raised by [json.loads] *)
| AttributeError        (* [.get] on a value that has no such method *)
| TypeError             (* joining or iterating a value of the wrong type *)
| UnboundLocalError     (* reading a local variable never assigned *)
| ExtractionError       (* raised by [pdfplumber] or [docx2txt] *)
| ValueError            (* raised by [qrcode.make]: the data fit no QR code *)
| FileNotFoundError     (* raised by [st.secrets]: there is no secrets file *)
| StopException.

Definition is_Exception (e : exn) : bool :=
  match e with StopException => false | _ => true end.

Inductive outcome (A : Type) : Type :=
| Ret (a : A)
| Raise (e : exn).
Arguments Ret {A} a.
Arguments Raise {A} e.

(** The six sliders of the sidebar. *)
Record psychometric_profile : Type := {
  analytical : Z; creativity : Z; communication : Z;
  problem_solving : Z; adaptability : Z; leadership : Z }.

(** The four prompt templates, with what is interpolated into each. *)
Inductive prompt : Type :=
| PromptSkills (resume_text : str)
| PromptRoadmap (name : str) (age : Z) (domain : str) (skills : str)
                (psychometric : psychometric_profile)
| PromptGap (skills : str) (domain : str)
| PromptCourses (domain : str).

(** What one call of [model.generate_content] does: it raises, or it
    returns a response with some text.  A response whose [.text] cannot be
    read (a blocked prompt) is no reply of this model: what is stated about
    the four call sites is stated about calls that raise or give a text. *)
Inductive reply : Type :=
| Raises
| Text (text : str).

(** The generative service: the reply to the [k]-th call of a run (counting
    from 0), which may depend on the prompt. *)
Definition service : Type := nat -> prompt -> reply.

(** The fixed texts the script shows; the exception and the raw response
    are what the f-strings interpolate. *)
Inductive message : Type :=
| Msg_api_key_missing
| Msg_pdf_parsing_failed (e : exn)
| Msg_docx_parsing_failed (e : exn)
| Msg_unexpected_format
| Msg_skill_extraction_failed (e : exn) (raw_response : str)
| Msg_roadmap_failed (e : exn) (response : option str)
| Msg_skill_gap_failed (e : exn) (response : option str)
| Msg_courses_failed (e : exn) (response : option str)
| Msg_retrying (attempt total : Z)
| Msg_no_courses
| Msg_resume_parsed
| Msg_enter_skills_manually
| Msg_extracted_skills (skills : str)
| Msg_could_not_parse
| Msg_provide_skills
| Msg_advice_not_available
| Msg_visual_roadmap_not_available
| Msg_no_missing_skills
| Msg_no_priority_skills
| Msg_unable_gap_analysis
| Msg_searching_opportunities
| Msg_demo_action
| Msg_fill_in_name_domain
| Msg_get_started.

(** The bytes of the PNG image of the QR code of a text. *)
Inductive png : Type := Qr_png (data : str).

(** What a run does to the outside, in order. *)
Inductive event : Type :=
| Generate (p : prompt)                 (* [model.generate_content(prompt)] *)
| St_error (m : message)
| St_warning (m : message)
| St_info (m : message)
| St_success (m : message)
| St_text_area (text : str)             (* the preview of the parsed resume *)
| St_subheader_courses
| St_markdown_course (idx : nat) (url : str)
| Qr_make (data : str)                  (* [qrcode.make(data)], saved as PNG *)
| St_image (image : png) (width : Z)
| St_download_button (data : png) (file_name mime : str)
| St_markdown_advice (career_advice : pyval)
| St_html_roadmap (roadmap_svg : pyval)
| St_markdown_missing_header
| St_markdown_priority_header
| St_markdown_skill (skill : pyval).

Definition trace : Type := list event.

Definition is_generate (ev : event) : bool :=
  match ev with Generate _ => true | _ => false end.

(** The number of service calls made so far. *)
Definition calls (t : trace) : nat := length (List.filter is_generate t).

(** Computations: they extend the trace and return or raise. *)
Definition M (A : Type) : Type := trace -> trace * outcome A.

#[global] Instance M_ret : MRet M := fun A a t => (t, Ret a).

#[global] Instance M_bind : MBind M := fun A B k m t =>
  match m t with
  | (t', Ret a) => k a t'
  | (t', Raise e) => (t', Raise e)
  end.

Definition raise {A} (e : exn) : M A := fun t => (t, Raise e).

Definition emit (ev : event) : M unit := fun t => (t ++ [ev], Ret tt).

(** [try: x = m; k x   except Exception as e: h x e], where the handler
    sees [x] only if the assignment was reached ([None]: [x] is unbound). *)
Definition try_assign {A B} (m : M A) (k : A -> M B)
    (h : option A -> exn -> M B) : M B := fun t =>
  match m t with
  | (t1, Raise e) => if is_Exception e then h None e t1 else (t1, Raise e)
  | (t1, Ret x) =>
      match k x t1 with
      | (t2, Raise e) => if is_Exception e then h (Some x) e t2 else (t2, Raise e)
      | (t2, Ret b) => (t2, Ret b)
      end
  end.

(** [response = model.generate_content(prompt)], then [response.text]. *)
Definition generate_content (model : service) (p : prompt) : M str := fun t =>
  (t ++ [Generate p],
   match model (calls t) p with
   | Raises => Raise ServiceError
   | Text text => Ret text
   end).

Definition json_loads (text : str) : M pyval :=
  match Json.loads text with
  | Some v => mret v
  | None => raise JSONDecodeError
  end.

(** [v.get(k, default)]: only a dict has the method. *)
Definition py_get (v : pyval) (k : str) (default : pyval) : M pyval :=
  match v with
  | PyDict d => mret (dict_get k default d)
  | _ => raise AttributeError
  end.

(** [iter(v)]: the elements of a list, the characters of a string, the keys
    of a dict; other values are not iterable. *)
Definition py_iter (v : pyval) : M (list pyval) :=
  match v with
  | PyList l => mret l
  | PyStr s => mret (List.map (fun c => PyStr [c]) s)
  | PyDict d => mret (List.map (fun kv => PyStr (fst kv)) d)
  | _ => raise TypeError
  end.

Definition str_of (v : pyval) : str :=
  match v with PyStr s => s | _ => [] end.

(** [sep.join(v)]: every element must be a string. *)
Definition py_join (sep : str) (v : pyval) : M str :=
  items ← py_iter v;
  if forallb is_str items then mret (join sep (List.map str_of items))
  else raise TypeError.

(** [isinstance(v, list) and all(isinstance(s, str) for s in v)] *)
Definition is_list_of_str (v : pyval) : bool :=
  match v with
  | PyList l => forallb is_str l
  | _ => false
  end.

(** [list(set(l))]: the distinct elements of [l]. Python leaves the order
    of a set unspecified; the model takes the order of [elements]. *)
Definition list_of_set (l : list str) : list str :=
  elements (list_to_set l : gset str).

(** [re.sub(r"```json|```", "", text)] uses this pattern. *)
Definition fence_re : Re.regex :=
  Re.Alt (Re.Lit (lit "```json")) (Re.Lit (lit "```")).

(** [text.strip()] and then the Markdown fences removed and stripped again. *)
Definition clean_json_text (response_text : str) : str :=
  let text := strip response_text in
  strip (Re.sub_empty fence_re text).

(* ================================================================== *)
(** ** app.py *)
(* ================================================================== *)

(** An uploaded file: its declared media type, and what [pdfplumber] and
    [docx2txt] make of its bytes. *)
Inductive page : Type :=
| PageRaises                          (* [page.extract_text()] raises *)
| PageText (page_text : option str).  (* it returns [None] or a string *)

Inductive pdf_document : Type :=
| PdfOpenRaises                       (* [pdfplumber.open(file)] raises *)
| PdfPages (pages : list page).

Inductive docx_document : Type :=
| DocxRaises                          (* [docx2txt.process(file)] raises *)
| DocxText (text : str).

Record uploaded_file : Type := {
  file_type : str;
  as_pdf : pdf_document;
  as_docx : docx_document }.

Definition mime_pdf : str := lit "application/pdf".
Definition mime_docx : str :=
  lit "application/vnd.openxmlformats-officedocument.wordprocessingml.document".
Definition mime_doc : str := lit "application/msword".

(** The loop over [pdf.pages]: the text accumulated when the loop ends or
    when a page raises. *)
Fixpoint read_pages (pages : list page) (text : str) : str * outcome unit :=
  match pages with
  | [] => (text, Ret tt)
  | PageRaises :: _ => (text, Raise ExtractionError)
  | PageText page_text :: pages' =>
      match page_text with
      | Some (c :: pt) => read_pages pages' (text ++ (c :: pt) ++ lit_nl)
      | _ => read_pages pages' text
      end
  end.

(** [st.warning], [st.info], [st.error], [st.success] *)
Definition st_warning (m : message) : M unit := emit (St_warning m).
Definition st_info (m : message) : M unit := emit (St_info m).
Definition st_error (m : message) : M unit := emit (St_error m).
Definition st_success (m : message) : M unit := emit (St_success m).

(** [st.stop()] *)
Definition st_stop {A} : M A := raise StopException.

(** [except Exception as e: st.warning(...)] around an extraction whose
    local variable [text] holds [text] when the exception [e] is raised. *)
Definition except_warn (warning : exn -> message) (text : str) (e : exn) : M str :=
  if is_Exception e then st_warning (warning e);; mret text else raise e.

Definition parse_resume (file : uploaded_file) : M str :=
  let text := [] in
  if str_eqb (file_type file) mime_pdf then
    match as_pdf file with
    | PdfOpenRaises => except_warn Msg_pdf_parsing_failed text ExtractionError
    | PdfPages pages =>
        match read_pages pages text with
        | (text, Ret _) => mret text
        | (text, Raise e) => except_warn Msg_pdf_parsing_failed text e
        end
    end
  else if str_eqb (file_type file) mime_docx || str_eqb (file_type file) mime_doc then
    match as_docx file with
    | DocxText document_text => mret document_text
    | DocxRaises => except_warn Msg_docx_parsing_failed text ExtractionError
    end
  else mret text.

Definition extract_skills (model : service) (resume_text : str) : M pyval :=
  try_assign (generate_content model (PromptSkills resume_text))
    (fun response =>
       let text := clean_json_text response in
       skills ← json_loads text;
       if is_list_of_str skills then mret skills
       else st_warning Msg_unexpected_format;; mret (PyList []))
    (fun response e =>
       (* the message reads [response.text] without checking that
          [response] was assigned *)
       raw ← match response with
             | Some text => mret text
             | None => raise UnboundLocalError
             end;
       st_warning (Msg_skill_extraction_failed e raw);;
       mret (PyList [])).

Definition generate_roadmap (model : service) (name : str) (age : Z)
    (domain : str) (skills : pyval) (psychometric : psychometric_profile)
    : M (pyval * pyval) :=
  joined ← py_join (lit ", ") skills;
  try_assign (generate_content model (PromptRoadmap name age domain joined psychometric))
    (fun response =>
       let text := clean_json_text response in
       data ← json_loads text;
       career_advice ← py_get data (lit "career_advice") (PyStr []);
       roadmap_svg ← py_get data (lit "roadmap_svg") (PyStr []);
       mret (career_advice, roadmap_svg))
    (fun response e =>
       st_warning (Msg_roadmap_failed e response);;
       mret (PyStr [], PyStr [])).

(** The body of [for attempt in range(retries + 1)], for the [n] values of
    [attempt] still to come. *)
Fixpoint roadmap_attempts (model : service) (name : str) (age : Z)
    (domain : str) (skills : pyval) (psychometric : psychometric_profile)
    (retries : Z) (attempt : Z) (n : nat) : M (pyval * pyval) :=
  match n with
  | O => mret (PyStr [], PyStr [])
  | S n' =>
      '(career_advice, roadmap_svg) ←
         generate_roadmap model name age domain skills psychometric;
      if truthy career_advice then mret (career_advice, roadmap_svg)
      else
        st_info (Msg_retrying (attempt + 1) (retries + 1));;
        roadmap_attempts model name age domain skills psychometric
          retries (attempt + 1) n'
  end.

Definition generate_roadmap_with_retry (model : service) (name : str) (age : Z)
    (domain : str) (skills : pyval) (psychometric : psychometric_profile)
    (retries : Z) : M (pyval * pyval) :=
  roadmap_attempts model name age domain skills psychometric
    retries 0 (Z.to_nat (retries + 1)).

Definition skill_gap_analysis (model : service) (domain : str) (skills : pyval)
    : M pyval :=
  joined ← py_join (lit ", ") skills;
  try_assign (generate_content model (PromptGap joined domain))
    (fun response =>
       let text := clean_json_text response in
       json_loads text)
    (fun response e =>
       st_warning (Msg_skill_gap_failed e response);;
       mret (PyDict [])).

Section Courses.

(** [str.isalnum] on the code points from 128 on: a table of the
    interpreter's Unicode database, which the script does not fix. *)
Variable isalnum_nonascii : N -> bool.

(** The class [\w] of a [str] pattern. *)
Definition is_word (c : N) : bool :=
  if c <? 128 then
    ((48 <=? c) && (c <=? 57)) || ((65 <=? c) && (c <=? 90))
    || ((97 <=? c) && (c <=? 122)) || (c =? 95)
  else isalnum_nonascii c.

(** The class [[\w-]]. *)
Definition is_word_or_dash (c : N) : bool := is_word c || (c =? 45).

(** [https?://(?:www\.)?(?:youtube\.com|youtu\.be)/(?:watch\?v=|playlist\?list=)[\w-]+] *)
Definition url_re : Re.regex :=
  Re.Lit (lit "http") ⋅ Re.Opt (Re.Lit (lit "s")) ⋅ Re.Lit (lit "://")
  ⋅ Re.Opt (Re.Lit (lit "www."))
  ⋅ Re.Alt (Re.Lit (lit "youtube.com")) (Re.Lit (lit "youtu.be"))
  ⋅ Re.Lit (lit "/")
  ⋅ Re.Alt (Re.Lit (lit "watch?v=")) (Re.Lit (lit "playlist?list="))
  ⋅ Re.Plus is_word_or_dash.

(** [u for u in urls if "youtube.com" in u or "youtu.be" in u] *)
Definition is_youtube (u : str) : bool :=
  str_in (lit "youtube.com") u || str_in (lit "youtu.be") u.

Definition recommend_courses (model : service) (domain : str) : M (list str) :=
  try_assign (generate_content model (PromptCourses domain))
    (fun response =>
       let urls := Re.findall url_re response in
       mret (list_of_set (List.filter is_youtube urls)))
    (fun response e =>
       st_warning (Msg_courses_failed e response);;
       mret []).

End Courses.

(** [for idx, url in enumerate(video_links, idx): st.markdown(...)] *)
Fixpoint list_courses (idx : nat) (video_links : list str) : M unit :=
  match video_links with
  | [] => mret tt
  | url :: rest => emit (St_markdown_course idx url);; list_courses (S idx) rest
  end.

(** [qrcode.make(data)], saved as PNG.  A QR code holds a bounded amount of
    data: the library raises when [data] exceeds what the largest code
    (version 40) holds.  Which texts fit is the library's matter and a
    parameter here, [qrcode_fits]. *)
Definition qrcode_make (qrcode_fits : str -> bool) (data : str) : M png :=
  if qrcode_fits data then emit (Qr_make data);; mret (Qr_png data)
  else raise ValueError.

Definition display_courses_with_qr (qrcode_fits : str -> bool)
    (video_links : list str) : M unit :=
  if negb (nonempty video_links) then
    st_info Msg_no_courses
  else
    emit St_subheader_courses;;
    list_courses 1 video_links;;
    let merged := join lit_nl video_links in
    if nonempty merged then
      buf ← qrcode_make qrcode_fits merged;
      emit (St_image buf 150);;
      emit (St_download_button buf (lit "courses_qr.png") (lit "image/png"))
    else mret tt.

(** [st.secrets]: the secrets file may be missing; when it is there it may
    hold the key. *)
Inductive secrets : Type :=
| NoSecretsFile
| SecretsFile (gemini_api_key : option str).

(** The state of the widgets and of the environment when the script runs:
    a run of [main] re-reads all of it. *)
Record session : Type := {
  st_secrets : secrets;
  gemini : service;                    (* [genai.GenerativeModel(...)] *)
  qrcode_fits : str -> bool;           (* what [qrcode.make] can encode *)
  name_input : str;
  age_input : Z;
  domain_select : str;
  other_domain_input : str;
  sliders : psychometric_profile;
  file_uploader : option uploaded_file;
  manual_skills_input : str;
  plan_button : bool;      (* "Generate My Personalized Career Plan" *)
  explore_button : bool }. (* "Explore Matching Internships" *)

(** The key that the secrets hold, if there are secrets and a key in them. *)
Definition secret_gemini_api_key (s : session) : option str :=
  match st_secrets s with
  | SecretsFile gemini_api_key => gemini_api_key
  | NoSecretsFile => None
  end.

(** [st.secrets.get("GEMINI_API_KEY")] reads the secrets file: without one
    it raises, and [.get] turns only a missing key into [None].  Neither
    [st.error] nor [st.stop] of the function is reached then. *)
Definition load_api_key (s : session) : M str :=
  match st_secrets s with
  | NoSecretsFile => raise FileNotFoundError
  | SecretsFile api_key =>
      match api_key with
      | Some (c :: key) => mret (c :: key)
      | _ => st_error Msg_api_key_missing;; st_stop
      end
  end.

(** [[s.strip() for s in manual_skills_input.split(',') if s.strip()]] *)
Definition manual_skills (manual_skills_input : str) : list str :=
  List.map strip
    (List.filter (fun s => nonempty (strip s)) (split 44 manual_skills_input)).

(** The sidebar's domain: the selection, or the free text for "Other". *)
Definition domain_of (s : session) : str :=
  if str_eqb (domain_select s) (lit "Other") then other_domain_input s
  else domain_select s.

(** [bool(uploaded_file)] *)
Definition has_file (s : session) : bool :=
  match file_uploader s with Some _ => true | None => false end.

(** The upload section of [main]: the value of [skills] when the script
    reaches the plan button. *)
Definition main_upload (s : session) : M pyval :=
  let skills := PyList [] in
  match file_uploader s with
  | Some uploaded =>
      resume_text ← parse_resume uploaded;
      if nonempty resume_text then
        st_success Msg_resume_parsed;;
        emit (St_text_area resume_text);;
        skills ← extract_skills (gemini s) resume_text;
        if negb (truthy skills) then
          st_warning Msg_enter_skills_manually;;
          mret (PyList (List.map PyStr (manual_skills (manual_skills_input s))))
        else
          joined ← py_join (lit ", ") skills;
          st_info (Msg_extracted_skills joined);;
          mret skills
      else
        st_error Msg_could_not_parse;;
        mret skills
  | None => mret skills
  end.

(** [for skill in v: st.markdown(f"- {skill}")] *)
Definition markdown_skills (v : pyval) : M unit :=
  items ← py_iter v;
  foldr (fun skill rest => emit (St_markdown_skill skill);; rest) (mret tt) items.

(** One half of the "Skill Progress" tab: the list under [key], or a note. *)
Definition gap_section (gap_analysis_result : pyval) (key : str)
    (header : event) (none_identified : message) : M unit :=
  emit header;;
  listed ← py_get gap_analysis_result key PyNone;
  if truthy listed then markdown_skills listed
  else st_info none_identified.

Section Main.

Variable isalnum_nonascii : N -> bool.

(** Behind the plan button, lines 237-268: the check of the skills, the
    three calls of the plan and the first two tabs.  The value is the skill
    gap, which the third tab shows. *)
Definition main_plan_first (s : session) (skills : pyval) : M pyval :=
  let model := gemini s in
  let name := name_input s in
  let age := age_input s in
  let domain := domain_of s in
  let psychometric := sliders s in
  (if negb (truthy skills) then st_warning Msg_provide_skills;; st_stop
   else mret tt);;
  '(career_advice, roadmap_svg) ←
     generate_roadmap_with_retry model name age domain skills psychometric 2;
  gap_analysis_result ← skill_gap_analysis model domain skills;
  video_links ← recommend_courses isalnum_nonascii model domain;
  (* tab 0: career plan *)
  (if truthy career_advice then emit (St_markdown_advice career_advice)
   else st_info Msg_advice_not_available);;
  (if truthy roadmap_svg then emit (St_html_roadmap roadmap_svg)
   else st_info Msg_visual_roadmap_not_available);;
  (* tab 1: courses *)
  display_courses_with_qr (qrcode_fits s) video_links;;
  mret gap_analysis_result.

(** Lines 270-294: the last two tabs. *)
Definition main_plan_last (s : session) (gap_analysis_result : pyval) : M unit :=
  (* tab 2: skill progress *)
  (if truthy gap_analysis_result then
     gap_section gap_analysis_result (lit "missing_skills")
       St_markdown_missing_header Msg_no_missing_skills;;
     gap_section gap_analysis_result (lit "priority_skills")
       St_markdown_priority_header Msg_no_priority_skills
   else st_info Msg_unable_gap_analysis);;
  (* tab 3: internships (a demo) *)
  if explore_button s then
    st_success Msg_searching_opportunities;; st_info Msg_demo_action
  else mret tt.

(** The rest of [main], from the plan button on. *)
Definition main_plan (s : session) (skills : pyval) : M unit :=
  let name := name_input s in
  let domain := domain_of s in
  if plan_button s && nonempty name && nonempty domain && truthy skills then
    gap_analysis_result ← main_plan_first s skills;
    main_plan_last s gap_analysis_result
  else if has_file s && (negb (nonempty name) || negb (nonempty domain)) then
    st_warning Msg_fill_in_name_domain
  else if negb (has_file s) then
    st_info Msg_get_started
  else mret tt.

Definition main (s : session) : M unit :=
  api_key ← load_api_key s;
  skills ← main_upload s;
  main_plan s skills.

End Main.

(* ================================================================== *)
(** ** Notions used in the statements *)
(* ================================================================== *)

Arguments lit s : simpl never.
Arguments dq s : simpl never.
Arguments clean_json_text response_text : simpl never.
Arguments Json.loads s : simpl never.

(** The prompt [generate_roadmap] sends for a list of skills. *)
Definition roadmap_prompt (name : str) (age : Z) (domain : str)
    (skills : list pyval) (psychometric : psychometric_profile) : prompt :=
  PromptRoadmap name age domain (join (lit ", ") (List.map str_of skills)) psychometric.

(** What [generate_roadmap] returns when the service answers [r]: the two
    fields of the parsed object, or the fallback pair. *)
Definition roadmap_of_reply (r : reply) : pyval * pyval :=
  match r with
  | Raises => (PyStr [], PyStr [])
  | Text response =>
      match Json.loads (clean_json_text response) with
      | Some (PyDict d) =>
          (dict_get (lit "career_advice") (PyStr []) d,
           dict_get (lit "roadmap_svg") (PyStr []) d)
      | _ => (PyStr [], PyStr [])
      end
  end.

(** A Python list all of whose elements are strings. *)
Definition ListOfStrings (v : pyval) : Prop :=
  exists ss : list str, v = PyList (List.map PyStr ss).

(** The calls of the plan: roadmap, skill gap, courses. *)
Definition is_plan_call (ev : event) : bool :=
  match ev with
  | Generate (PromptSkills _) => false
  | Generate _ => true
  | _ => false
  end.

Definition plan_calls (t : trace) : nat := length (List.filter is_plan_call t).


(** The text of the pages read without an exception: each non-empty page
    text followed by a line feed. *)
Definition pages_text (pages : list page) : str :=
  concat (List.map (fun p => match p with
                             | PageText (Some (c :: pt)) => (c :: pt) ++ lit_nl
                             | _ => []
                             end) pages).

Definition page_ok (p : page) : Prop :=
  match p with PageRaises => False | PageText _ => True end.

(** [t'] is [t] without the whitespace at its two ends. *)
Definition Trimmed (t t' : str) : Prop :=
  exists a b : str,
    t = a ++ t' ++ b
    /\ Forall (fun c => isspace c = true) a
    /\ Forall (fun c => isspace c = true) b
    /\ (forall c, head t' = Some c -> isspace c = false)
    /\ (forall c, last t' = Some c -> isspace c = false).

(** The shape of a course link: scheme, optional [www.], host, [/], one of
    the two paths, and a non-empty identifier of word characters and dashes. *)
Definition UrlShape (isalnum_nonascii : N -> bool) (u : str) : Prop :=
  exists scheme www host path id : str,
    u = scheme ++ www ++ host ++ lit "/" ++ path ++ id
    /\ (scheme = lit "http://" \/ scheme = lit "https://")
    /\ (www = [] \/ www = lit "www.")
    /\ (host = lit "youtube.com" \/ host = lit "youtu.be")
    /\ (path = lit "watch?v=" \/ path = lit "playlist?list=")
    /\ id <> []
    /\ Forall (fun c => is_word_or_dash isalnum_nonascii c = true) id.

(** A computation that adds no call of the plan to the trace. *)
Definition plan_free {A} (m : M A) : Prop :=
  forall t t' o, m t = (t', o) -> plan_calls t' = plan_calls t.

(** The fuel [f] is more than a scanner needs on every input it accepts
    with it: it consumes at least one character, and any fuel from twice
    the number of characters consumed gives the same result. *)
Definition enough (A : Type) (run : nat -> str -> A -> option (pyval * str))
    (f : nat) : Prop :=
  forall s a v r,
    run f s a = Some (v, r) ->
    (length r < length s)%nat
    /\ forall g, (2 * (length s - length r) <= g)%nat -> run g s a = Some (v, r).

(** The prompt [skill_gap_analysis] sends for a list of skills. *)
Definition gap_prompt (domain : str) (skills : list pyval) : prompt :=
  PromptGap (join (lit ", ") (List.map str_of skills)) domain.

(** What [skill_gap_analysis] returns when the service answers [r]: the
    parsed value, whatever it is, or the empty dict. *)
Definition gap_of_reply (r : reply) : pyval :=
  match r with
  | Raises => PyDict []
  | Text response =>
      match Json.loads (clean_json_text response) with
      | Some v => v
      | None => PyDict []
      end
  end.

(** The skills that [extract_skills] makes of a reply's text. *)
Definition skills_of_response (response : str) : list str :=
  match Json.loads (clean_json_text response) with
  | Some (PyList l) => if forallb is_str l then List.map str_of l else []
  | _ => []
  end.

(** What the "Internship" tab adds to the page. *)
Definition explore_events (s : session) : list event :=
  if explore_button s
  then [St_success Msg_searching_opportunities; St_info Msg_demo_action]
  else [].

(** The [st.info] events about retries. *)
Definition is_retrying (ev : event) : bool :=
  match ev with St_info (Msg_retrying _ _) => true | _ => false end.

(** The messages "Attempt a+1/total", ..., "Attempt a+n/total". *)
Definition retrying_messages (total : Z) (a : Z) (n : nat) : list event :=
  List.map (fun i => St_info (Msg_retrying (a + Z.of_nat i + 1) total)) (seq 0 n).

(** A skill as the page shows it: not empty, without a comma, and without
    white space at its ends. *)
Definition SkillToken (s : str) : Prop :=
  (s <> [])
  /\ (44 ∉ s)
  /\ (forall c, head s = Some c -> isspace c = false)
  /\ (forall c, last s = Some c -> isspace c = false).

(** How a computation can end: with a value, or with one of the exceptions
    that [allowed] lists. *)
Definition ends_with {A} (allowed : list exn) (o : outcome A) : Prop :=
  match o with
  | Ret _ => True
  | Raise e => e ∈ allowed
  end.

(** The calls of one kind. *)
Definition is_skills_call (ev : event) : bool :=
  match ev with Generate (PromptSkills _) => true | _ => false end.

Definition is_roadmap_call (ev : event) : bool :=
  match ev with Generate (PromptRoadmap _ _ _ _ _) => true | _ => false end.

Definition is_gap_call (ev : event) : bool :=
  match ev with Generate (PromptGap _ _) => true | _ => false end.

Definition is_courses_call (ev : event) : bool :=
  match ev with Generate (PromptCourses _) => true | _ => false end.

(** The number of events of a trace that satisfy [p]. *)
Definition count (p : event -> bool) (t : trace) : nat := length (List.filter p t).

(** A weight for each kind of service call and for the warning that asks
    for skills; every other event weighs nothing. *)
Definition weight (ws wr wg wc wp : nat) (ev : event) : nat :=
  match ev with
  | Generate (PromptSkills _) => ws
  | Generate (PromptRoadmap _ _ _ _ _) => wr
  | Generate (PromptGap _ _) => wg
  | Generate (PromptCourses _) => wc
  | St_warning Msg_provide_skills => wp
  | _ => 0%nat
  end.

(** The total weight of a trace. *)
Definition cost (mu : event -> nat) (t : trace) : nat :=
  sum_list_with mu t.

(** A computation that adds at most [n] to the weight of the trace. *)
Definition costs_le {A} (mu : event -> nat) (n : nat) (m : M A) : Prop :=
  forall t t' o, m t = (t', o) -> (cost mu t' <= cost mu t + n)%nat.

(** A table under which no character from 128 on is alphanumeric; it is
    used to run examples whose texts are ASCII. *)
Definition ascii_only : N -> bool := fun _ => false.

(** Inputs of the examples. *)
Definition ex_profile : psychometric_profile :=
  {| analytical := 5; creativity := 5; communication := 5;
     problem_solving := 5; adaptability := 5; leadership := 5 |}.

Definition ex_skills : list pyval := [PyStr (lit "Python"); PyStr (lit "SQL")].

(** A service whose first answer has no advice and whose later answers
    have advice and an empty diagram. *)
Definition ex_service_second_try : service := fun k _ =>
  match k with
  | O => Text (dq "{'roadmap_svg': '<svg/>'}")
  | S _ => Text (dq "```json {'career_advice': 'Learn SQL', 'roadmap_svg': ''} ```")
  end.

(** A reply with one course link given twice and a bare short link. *)
Definition ex_courses_reply : str :=
  lit "1. https://www.youtube.com/watch?v=abc_-1 and https://youtu.be/xyz, https://www.youtube.com/watch?v=abc_-1".

(** What fits into a QR code, for texts that need one byte per character:
    the largest code holds 2331 bytes at the error correction that
    [qrcode.make] uses. *)
Definition ex_qrcode_fits : str -> bool := fun data => (length data <=? 2331)%nat.

(** A course link of 2432 characters. *)
Definition ex_long_link : str :=
  lit "https://www.youtube.com/watch?v=" ++ repeat 97 2400.

(** A session with a Word resume, a service that answers in prose, no
    manual skills, and the plan button pressed. *)
Definition ex_session : session :=
  {| st_secrets := SecretsFile (Some (lit "key"));
     gemini := fun _ _ => Text (lit "I could not find any skills.");
     qrcode_fits := ex_qrcode_fits;
     name_input := lit "Asha";
     age_input := 25;
     domain_select := lit "Data Science";
     other_domain_input := [];
     sliders := ex_profile;
     file_uploader := Some {| file_type := mime_docx;
                              as_pdf := PdfOpenRaises;
                              as_docx := DocxText (lit "Python developer") |};
     manual_skills_input := [];
     plan_button := true;
     explore_button := false |}.

(** A service that answers each of the four prompts with what it asks for. *)
Definition ex_service_valid : service := fun _ p =>
  match p with
  | PromptSkills _ => Text (dq "['Python', 'SQL']")
  | PromptRoadmap _ _ _ _ _ =>
      Text (dq "{'career_advice': '# Plan', 'roadmap_svg': '<svg/>'}")
  | PromptGap _ _ =>
      Text (dq "{'missing_skills': ['Spark'], 'priority_skills': ['Statistics']}")
  | PromptCourses _ => Text (lit "https://www.youtube.com/watch?v=abc_-1")
  end.

(** The same session with that service. *)
Definition ex_session_valid : session :=
  {| st_secrets := st_secrets ex_session;
     gemini := ex_service_valid;
     qrcode_fits := ex_qrcode_fits;
     name_input := name_input ex_session;
     age_input := age_input ex_session;
     domain_select := domain_select ex_session;
     other_domain_input := other_domain_input ex_session;
     sliders := sliders ex_session;
     file_uploader := file_uploader ex_session;
     manual_skills_input := manual_skills_input ex_session;
     plan_button := true;
     explore_button := false |}.

(** A session with the plan button pressed. *)
Definition ex_session_of (key : option str) (model : service)
    (file : option uploaded_file) (manual : str) : session :=
  {| st_secrets := SecretsFile key;
     gemini := model;
     qrcode_fits := ex_qrcode_fits;
     name_input := name_input ex_session;
     age_input := age_input ex_session;
     domain_select := domain_select ex_session;
     other_domain_input := other_domain_input ex_session;
     sliders := sliders ex_session;
     file_uploader := file;
     manual_skills_input := manual;
     plan_button := true;
     explore_button := false |}.

(** A service that knows skills and nothing else. *)
Definition ex_service_skills_only : service := fun _ p =>
  match p with
  | PromptSkills _ => Text (dq "['Python', 'SQL']")
  | _ => Raises
  end.

(** A service that answers the skill-gap prompt with [r] and the other
    prompts with what they ask for. *)
Definition ex_service_gap (r : reply) : service := fun k p =>
  match p with
  | PromptGap _ _ => r
  | _ => ex_service_valid k p
  end.

(** A Word file that cannot be read. *)
Definition ex_unreadable : uploaded_file :=
  {| file_type := mime_docx; as_pdf := PdfOpenRaises; as_docx := DocxRaises |}.

(** Two course links. *)
Definition ex_links : list str :=
  [lit "https://www.youtube.com/watch?v=abc_-1"; lit "http://youtu.be/playlist?list=PL1"].

(* ================================================================== *)
(** ** Running computations *)
(* ================================================================== *)

Ltac mrun :=
  unfold mbind, M_bind, mret, M_ret, st_warning, st_info, st_error, st_success,
    st_stop, emit, raise, json_loads, py_get in *; cbn.

Lemma calls_app t1 t2 : calls (t1 ++ t2) = (calls t1 + calls t2)%nat.
Proof. unfold calls. rewrite List.filter_app, length_app. reflexivity. Qed.

Lemma bind_ret {A B} (m : M A) (k : A -> M B) t t' a :
  m t = (t', Ret a) -> (m ≫= k) t = k a t'.
Proof. intros H. unfold mbind, M_bind. rewrite H. reflexivity. Qed.

Lemma bind_raise {A B} (m : M A) (k : A -> M B) t t' e :
  m t = (t', Raise e) -> (m ≫= k) t = (t', Raise e).
Proof. intros H. unfold mbind, M_bind. rewrite H. reflexivity. Qed.

Lemma py_join_list sep l t :
  forallb is_str l = true ->
  py_join sep (PyList l) t = (t, Ret (join sep (List.map str_of l))).
Proof.
  intros H. unfold py_join, py_iter, mbind, M_bind, mret, M_ret.
  rewrite H. reflexivity.
Qed.

(* ================================================================== *)
(** ** Strings *)
(* ================================================================== *)

Lemma strip_prefix_Some (p : str) : forall s r,
  strip_prefix p s = Some r <-> s = p ++ r.
Proof.
  induction p as [|a p IH]; intros s r; cbn.
  - destruct s; split; congruence.
  - destruct s as [|b s]; [split; discriminate|].
    destruct (a =? b) eqn:Hab.
    + apply N.eqb_eq in Hab. subst b. rewrite IH. split; congruence.
    + apply N.eqb_neq in Hab. split; [discriminate | congruence].
Qed.

(* ================================================================== *)
(** ** [json.loads]: the scanner has fuel enough *)
(* ================================================================== *)

Section JsonFuel.

Import Json.

Lemma skip_ws_le (s : str) : (length (skip_ws s) <= length s)%nat.
Proof.
  induction s as [|c s IH]; cbn; [lia|]. destruct (is_ws c); cbn; lia.
Qed.

Lemma keyword_lt s v r : keyword s = Some (v, r) -> (length r < length s)%nat.
Proof.
  unfold keyword. intros H.
  repeat match type of H with
         | context [strip_prefix ?p s] =>
             let E := fresh "E" in
             destruct (strip_prefix p s) eqn:E;
             [ apply strip_prefix_Some in E; injection H as <- <-; subst s;
               rewrite length_app;
               match goal with
               | |- context [length (lit ?x)] =>
                   let n := eval vm_compute in (length (lit x)) in
                   change (length (lit x)) with n
               end; lia | ]
         end.
  discriminate.
Qed.

Lemma digits_le (s : str) : forall n acc n' v r,
  digits s n acc = (n', v, r) -> (length r <= length s)%nat.
Proof.
  induction s as [|c s IH]; intros n acc n' v r H; cbn in H.
  - injection H as <- <- <-. lia.
  - destruct (is_digit c).
    + apply IH in H. cbn. lia.
    + injection H as <- <- <-. cbn. lia.
Qed.

Lemma int_part_lt s i r : int_part s = Some (i, r) -> (length r < length s)%nat.
Proof.
  unfold int_part. destruct s as [|c s]; [discriminate|]. cbn [length].
  destruct (c =? 48); [intros [= <- <-]; lia|].
  destruct (is_digit c); [|discriminate].
  destruct (digits s 0 (c - 48)) as [[n v] r'] eqn:Hd. intros [= <- <-].
  apply digits_le in Hd. lia.
Qed.

Lemma frac_part_le m s v n r : frac_part m s = Some (v, n, r) -> (length r <= length s)%nat.
Proof.
  unfold frac_part. destruct s as [|dot [|c s]]; try discriminate.
  destruct ((dot =? 46) && is_digit c); [|discriminate].
  destruct (digits (c :: s) 0 m) as [[n' v'] r'] eqn:Hd. intros [= <- <- <-].
  apply digits_le in Hd. cbn [length] in *. lia.
Qed.

Lemma exp_part_le s e r : exp_part s = Some (e, r) -> (length r <= length s)%nat.
Proof.
  unfold exp_part. destruct s as [|c s1]; [discriminate|]. cbn [length].
  destruct ((c =? 101) || (c =? 69)); [|discriminate].
  destruct (match s1 with
            | [] => (false, s1)
            | sg :: s2 => if sg =? 45 then (true, s2)
                          else if sg =? 43 then (false, s2) else (false, s1)
            end) as [neg s2] eqn:Hsign.
  assert (Hs2 : (length s2 <= length s1)%nat).
  { destruct s1 as [|sg s1']; [injection Hsign as _ <-; lia|].
    destruct (sg =? 45); [injection Hsign as _ <-; cbn; lia|].
    destruct (sg =? 43); injection Hsign as _ <-; cbn; lia. }
  destruct (digits s2 0 0) as [[[|n] v] r'] eqn:Hd; [discriminate|].
  intros [= <- <-]. apply digits_le in Hd. lia.
Qed.

Lemma number_lt s v r : number s = Some (v, r) -> (length r < length s)%nat.
Proof.
  unfold number.
  destruct (match s with
            | [] => (false, s)
            | c :: s' => if c =? 45 then (true, s') else (false, s)
            end) as [neg s0] eqn:Hsign.
  assert (Hs0 : (length s0 <= length s)%nat).
  { destruct s as [|c s']; [injection Hsign as _ <-; lia|].
    destruct (c =? 45); injection Hsign as _ <-; cbn; lia. }
  destruct (int_part s0) as [[i r1]|] eqn:Hi; [|discriminate].
  apply int_part_lt in Hi.
  destruct (frac_part i r1) as [[[m n] r2]|] eqn:Hf.
  - apply frac_part_le in Hf.
    destruct (exp_part r2) as [[e r3]|] eqn:He.
    + apply exp_part_le in He. intros [= <- <-]. lia.
    + intros [= <- <-]. lia.
  - destruct (exp_part r1) as [[e r3]|] eqn:He.
    + apply exp_part_le in He. intros [= <- <-]. lia.
    + intros [= <- <-]. lia.
Qed.

Lemma scanstring_lt_aux (n : nat) : forall s t r,
  (length s <= n)%nat -> scanstring s = Some (t, r) -> (length r < length s)%nat.
Proof.
  induction n as [|n IH]; intros s t r Hn H.
  - destruct s; [discriminate | cbn in Hn; lia].
  - destruct s as [|c s1]; [discriminate|]. cbn [scanstring] in H. cbn [length] in *.
    destruct (c =? 34); [injection H as <- <-; lia|].
    assert (Hrec : forall s' (t' : str -> str), (length s' <= n)%nat ->
               match scanstring s' with Some (t0, r0) => Some (t' t0, r0) | None => None end
               = Some (t, r) -> (length r < length s')%nat).
    { intros s' t' Hs' H'. destruct (scanstring s') as [[t0 r0]|] eqn:E; [|discriminate].
      injection H' as _ <-. eapply IH; eassumption. }
    destruct (c =? 92).
    + destruct s1 as [|e s2]; [discriminate|]. cbn [length] in *.
      destruct (e =? 117).
      * destruct s2 as [|a [|b [|c' [|d s6]]]]; try discriminate. cbn [length] in *.
        destruct (hex4 a b c' d) as [u|]; [|discriminate].
        assert (Hsingle : match scanstring s6 with
                          | Some (t0, r0) => Some (u :: t0, r0) | None => None end
                          = Some (t, r) -> (length r < S (S (S (S (S (S (length s6)))))))%nat).
        { intros H'. apply (Hrec s6 (cons u)) in H'; lia. }
        destruct (is_high_surrogate u); [|auto].
        destruct s6 as [|b1 [|u1 [|a2 [|b2 [|c2 [|d2 s12]]]]]]; auto.
        destruct ((b1 =? 92) && (u1 =? 117)); [|auto].
        destruct (hex4 a2 b2 c2 d2) as [u2|]; [|discriminate].
        destruct (is_low_surrogate u2); [|auto].
        apply (Hrec s12 (cons (join_surrogates u u2))) in H; cbn [length] in *; lia.
      * destruct (backslash e) as [ch|]; [|discriminate].
        apply (Hrec s2 (cons ch)) in H; lia.
    + destruct (c <=? 31); [discriminate|].
      apply (Hrec s1 (cons c)) in H; lia.
Qed.

Lemma scanstring_lt s t r : scanstring s = Some (t, r) -> (length r < length s)%nat.
Proof. apply (scanstring_lt_aux (length s)). lia. Qed.

Lemma scan_enough (f : nat) :
  enough unit (fun f s _ => scan_once f s) f
  /\ enough (list pyval) parse_items f
  /\ enough (list (str * pyval)) parse_members f.
Proof.
  induction f as [|f (IHscan & IHitems & IHmembers)].
  { repeat split; discriminate. }
  split; [|split].
  - (* scan_once *)
    intros s [] v r H. destruct s as [|c s']; [discriminate|].
    cbn [scan_once] in H. cbn [length].
    destruct (c =? 34) eqn:E34.
    { destruct (scanstring s') as [[t r0]|] eqn:Hs; [|discriminate].
      injection H as <- <-. apply scanstring_lt in Hs as Hlt.
      split; [lia|]. intros [|g] Hg; [lia|]. cbn [scan_once]. rewrite E34, Hs. reflexivity. }
    destruct (c =? 123) eqn:E123.
    { pose proof (skip_ws_le s') as Hws.
      destruct (skip_ws s') as [|c2 r'] eqn:Hsk; [discriminate|]. cbn [length] in Hws.
      destruct (c2 =? 125) eqn:E125.
      - injection H as <- <-. split; [lia|].
        intros [|g] Hg; [lia|]. cbn [scan_once]. rewrite E34, E123, Hsk, E125. reflexivity.
      - apply IHmembers in H as [Hlt Hg']. cbn [length] in *. split; [lia|].
        intros [|g] Hg; [lia|]. cbn [scan_once]. rewrite E34, E123, Hsk, E125.
        apply Hg'. cbn [length]. lia. }
    destruct (c =? 91) eqn:E91.
    { pose proof (skip_ws_le s') as Hws.
      destruct (skip_ws s') as [|c2 r'] eqn:Hsk; [discriminate|]. cbn [length] in Hws.
      destruct (c2 =? 93) eqn:E93.
      - injection H as <- <-. split; [lia|].
        intros [|g] Hg; [lia|]. cbn [scan_once]. rewrite E34, E123, E91, Hsk, E93. reflexivity.
      - apply IHitems in H as [Hlt Hg']. cbn [length] in *. split; [lia|].
        intros [|g] Hg; [lia|]. cbn [scan_once]. rewrite E34, E123, E91, Hsk, E93.
        apply Hg'. cbn [length]. lia. }
    assert (Hlt : (length r < S (length s'))%nat).
    { destruct (keyword (c :: s')) as [[v0 r0]|] eqn:Hk.
      - injection H as <- <-. apply keyword_lt in Hk. exact Hk.
      - apply number_lt in H. exact H. }
    split; [exact Hlt|].
    intros [|g] Hg; [lia|]. cbn [scan_once]. rewrite E34, E123, E91. exact H.
  - (* parse_items *)
    intros s acc v r H. cbn [parse_items] in H.
    destruct (scan_once f s) as [[v1 r1]|] eqn:Hscan; [|discriminate].
    apply (IHscan s tt) in Hscan as [Hlt1 Hg1].
    pose proof (skip_ws_le r1) as Hws.
    destruct (skip_ws r1) as [|c r'] eqn:Hsk; [discriminate|]. cbn [length] in Hws.
    destruct (c =? 93) eqn:E93.
    { injection H as <- <-. split; [lia|].
      intros [|g] Hg; [lia|]. cbn [parse_items].
      rewrite (Hg1 g) by lia. rewrite Hsk, E93. reflexivity. }
    destruct (c =? 44) eqn:E44; [|discriminate].
    pose proof (skip_ws_le r') as Hws'.
    apply IHitems in H as [Hlt Hg']. split; [lia|].
    intros [|g] Hg; [lia|]. cbn [parse_items].
    rewrite (Hg1 g) by lia. rewrite Hsk, E93, E44. apply Hg'. lia.
  - (* parse_members *)
    intros s acc v r H. cbn [parse_members] in H.
    destruct s as [|q s1]; [discriminate|]. cbn [length].
    destruct (q =? 34) eqn:E34; [|discriminate].
    destruct (scanstring s1) as [[key r1]|] eqn:Hkey; [|discriminate].
    apply scanstring_lt in Hkey as Hlt1.
    pose proof (skip_ws_le r1) as Hws1.
    destruct (skip_ws r1) as [|colon r2] eqn:Hsk1; [discriminate|]. cbn [length] in Hws1.
    destruct (colon =? 58) eqn:E58; [|discriminate].
    pose proof (skip_ws_le r2) as Hws2.
    destruct (scan_once f (skip_ws r2)) as [[v1 r3]|] eqn:Hscan; [|discriminate].
    apply (IHscan _ tt) in Hscan as [Hlt3 Hg3].
    pose proof (skip_ws_le r3) as Hws3.
    destruct (skip_ws r3) as [|c r4] eqn:Hsk3; [discriminate|]. cbn [length] in Hws3.
    destruct (c =? 125) eqn:E125.
    { injection H as <- <-. split; [lia|].
      intros [|g] Hg; [lia|]. cbn [parse_members].
      rewrite E34, Hkey, Hsk1, E58. rewrite (Hg3 g) by lia.
      rewrite Hsk3, E125. reflexivity. }
    destruct (c =? 44) eqn:E44; [|discriminate].
    pose proof (skip_ws_le r4) as Hws4.
    apply IHmembers in H as [Hlt Hg']. split; [lia|].
    intros [|g] Hg; [lia|]. cbn [parse_members].
    rewrite E34, Hkey, Hsk1, E58. rewrite (Hg3 g) by lia.
    rewrite Hsk3, E125, E44. apply Hg'. lia.
Qed.

(** More fuel than [loads] gives the scanner changes nothing. *)
Lemma scan_once_fuel (s : str) (f : nat) :
  (2 * length s <= f)%nat -> scan_once f s = scan_once (2 * length s) s.
Proof.
  intros Hf.
  destruct (scan_once (2 * length s) s) as [[v r]|] eqn:H2.
  - destruct (scan_enough (2 * length s)) as (Hscan & _).
    apply (Hscan s tt) in H2 as [_ Hg]. apply Hg. lia.
  - destruct (scan_once f s) as [[v r]|] eqn:Hf'; [|reflexivity].
    destruct (scan_enough f) as (Hscan & _).
    apply (Hscan s tt) in Hf' as [_ Hg]. rewrite Hg in H2 by lia. discriminate.
Qed.

End JsonFuel.

Example ex_loads_nested :
  Json.loads (dq " [[[]], {'k': [1.5e3, -2, true, null]}] ")
  = Some (PyList [PyList [PyList []];
                  PyDict [(lit "k", PyList [PyFloat (FDec false 15 2); PyInt (-2);
                                            PyBool true; PyNone])]]).
Proof. vm_compute. reflexivity. Qed.

Example ex_loads_duplicate_key :
  Json.loads (dq "{'a': 1, 'b': 2, 'a': 3}")
  = Some (PyDict [(lit "a", PyInt 3); (lit "b", PyInt 2)]).
Proof. vm_compute. reflexivity. Qed.

Example ex_loads_escapes :
  Json.loads (dq "'a\n\u00e9\ud83d\ude00'")
  = Some (PyStr [97; 10; 233; 128512]).
Proof. vm_compute. reflexivity. Qed.

Example ex_loads_rejected :
  List.map (fun text => Json.loads (dq text))
    [""; "[1,]"; "{'a':1,}"; "01"; "1."; ".5"; "[1 2]"; "[] x"; "{'a' 1}"; "'open"]%string
  = [None; None; None; None; None; None; None; None; None; None].
Proof. vm_compute. reflexivity. Qed.

Example ex_truthy_numbers :
  List.map (fun text => option_map truthy (Json.loads (lit text)))
    ["0"; "-0"; "0.0"; "1e-400"; "5e-324"; "NaN"; "7"]%string
  = [Some false; Some false; Some false; Some false; Some true; Some true; Some true].
Proof. vm_compute. reflexivity. Qed.

(* ================================================================== *)
(** ** Roadmap generation and its retry wrapper *)
(* ================================================================== *)

(** One call of [generate_roadmap] with skills that are strings makes one
    service call, never raises, and returns [roadmap_of_reply] of the
    service's reply; what it adds to the trace besides is a warning. *)
Lemma generate_roadmap_run model name age domain l psy t :
  forallb is_str l = true ->
  let p := roadmap_prompt name age domain l psy in
  exists w,
    generate_roadmap model name age domain (PyList l) psy t
    = (t ++ Generate p :: w, Ret (roadmap_of_reply (model (calls t) p)))
    /\ calls w = 0%nat.
Proof.
  intros Hl p. unfold generate_roadmap.
  erewrite bind_ret by (apply py_join_list; exact Hl).
  unfold try_assign, generate_content.
  fold (roadmap_prompt name age domain l psy). fold p.
  destruct (model (calls t) p) as [|response]; simpl roadmap_of_reply.
  - mrun. eexists. split; [rewrite <- app_assoc; reflexivity | reflexivity].
  - mrun. destruct (Json.loads (clean_json_text response)) as [[| | | | | |d]|].
    all: mrun; try (exists []; split; reflexivity).
    all: eexists; (split; [rewrite <- app_assoc; reflexivity | reflexivity]).
Qed.

Section Retry.

Variables (model : service) (name : str) (age : Z) (domain : str)
  (l : list pyval) (psy : psychometric_profile) (retries : Z).
Hypothesis Hl : forallb is_str l = true.

Local Abbreviation p := (roadmap_prompt name age domain l psy).

(** The loop, for [n] attempts to come: it stops after the first result
    with truthy advice, or runs all [n] attempts. *)
Lemma roadmap_attempts_run n : forall attempt t,
  let result i := roadmap_of_reply (model (calls t + i)%nat p) in
  exists t' m out,
    roadmap_attempts model name age domain (PyList l) psy retries attempt n t
    = (t', Ret out)
    /\ calls t' = (calls t + m)%nat
    /\ ((exists i, m = S i /\ (i < n)%nat
                   /\ truthy (fst (result i)) = true
                   /\ (forall j, (j < i)%nat -> truthy (fst (result j)) = false)
                   /\ out = result i)
        \/ (m = n
            /\ (forall j, (j < n)%nat -> truthy (fst (result j)) = false)
            /\ out = (PyStr [], PyStr []))).
Proof.
  induction n as [|n IH]; intros attempt t result.
  - exists t, 0%nat, (PyStr [], PyStr []). split; [reflexivity|].
    split; [lia|]. right. split; [reflexivity|]. split; [lia | reflexivity].
  - destruct (generate_roadmap_run model name age domain l psy t Hl)
      as (w & Hrun & Hw).
    fold p in Hrun.
    cbn [roadmap_attempts]. erewrite bind_ret by exact Hrun.
    assert (Hc : calls (t ++ Generate p :: w) = S (calls t)).
    { rewrite calls_app. unfold calls in *. cbn. rewrite Hw. lia. }
    destruct (roadmap_of_reply (model (calls t) p))
      as [career_advice roadmap_svg] eqn:Hres.
    destruct (truthy career_advice) eqn:Htr.
    + exists (t ++ Generate p :: w), 1%nat, (career_advice, roadmap_svg).
      split; [reflexivity|]. split; [lia|]. left. exists 0%nat.
      subst result. cbn beta. rewrite Nat.add_0_r, Hres.
      repeat split; [lia | exact Htr | lia].
    + erewrite bind_ret by reflexivity.
      set (info := St_info (Msg_retrying (attempt + 1) (retries + 1))).
      destruct (IH (attempt + 1)%Z ((t ++ Generate p :: w) ++ [info]))
        as (t' & m & out & Hrun' & Hcalls & Hcase).
      exists t', (S m), out. split; [exact Hrun'|].
      assert (Hc' : calls ((t ++ Generate p :: w) ++ [info]) = S (calls t)).
      { rewrite calls_app, Hc. cbn. lia. }
      rewrite Hc' in Hcalls, Hcase. split; [lia|].
      assert (Hshift : forall j,
                 result (S j) = roadmap_of_reply (model (S (calls t) + j)%nat p)).
      { intros j. subst result. cbn beta. f_equal. f_equal. lia. }
      assert (H0 : truthy (fst (result 0%nat)) = false).
      { subst result. cbn beta. rewrite Nat.add_0_r, Hres. exact Htr. }
      destruct Hcase as [(i & -> & Hi & Hti & Hlt & ->) | (-> & Hall & ->)].
      * left. exists (S i). rewrite Hshift. repeat split; try lia; try assumption.
        intros [|j] Hj; [exact H0|]. rewrite Hshift. apply Hlt. lia.
      * right. repeat split.
        intros [|j] Hj; [exact H0|]. rewrite Hshift. apply Hall. lia.
Qed.

End Retry.

(** C1. The retry wrapper around roadmap generation.  [result i] is what
    the [i]-th call of [generate_roadmap] returns ([generate_roadmap_run]:
    each such call is one call of the service), and "non-empty" is Python
    truthiness, as in [if career_advice:].  For skills that are strings and
    [retries >= -1], the wrapper returns, having made [n <= retries + 1]
    calls; either the [n]-th call is the first whose advice is non-empty,
    and its pair is returned as it is, or all [retries + 1] calls returned
    empty advice, [n = retries + 1], and the result is [("", "")]. *)
Theorem generate_roadmap_with_retry_first_nonempty
    (model : service) (name : str) (age : Z) (domain : str) (l : list pyval)
    (psy : psychometric_profile) (retries : Z) (t : trace) :
  forallb is_str l = true ->
  (-1 <= retries)%Z ->
  let result i :=
    roadmap_of_reply (model (calls t + i)%nat (roadmap_prompt name age domain l psy)) in
  exists (t' : trace) (n : nat) (out : pyval * pyval),
    generate_roadmap_with_retry model name age domain (PyList l) psy retries t
    = (t', Ret out)
    /\ calls t' = (calls t + n)%nat
    /\ (Z.of_nat n <= retries + 1)%Z
    /\ ((exists i, n = S i
                   /\ truthy (fst (result i)) = true
                   /\ (forall j, (j < i)%nat -> truthy (fst (result j)) = false)
                   /\ out = result i)
        \/ (Z.of_nat n = (retries + 1)%Z
            /\ (forall j, (j < n)%nat -> truthy (fst (result j)) = false)
            /\ out = (PyStr [], PyStr []))).
Proof.
  intros Hl Hretries result. unfold generate_roadmap_with_retry.
  destruct (roadmap_attempts_run model name age domain l psy retries Hl
              (Z.to_nat (retries + 1)) 0%Z t)
    as (t' & m & out & Hrun & Hcalls & Hcase).
  exists t', m, out. split; [exact Hrun|]. split; [exact Hcalls|].
  destruct Hcase as [(i & -> & Hi & Hti & Hlt & ->) | (-> & Hall & ->)].
  - split; [lia|]. left. exists i. repeat split; assumption.
  - split; [lia|]. right. repeat split; [lia | exact Hall].
Qed.

(** The theorem at [retries = 2] with a service whose second answer is the
    first with advice: two calls, and the second pair is returned with its
    empty diagram. *)
Lemma generate_roadmap_with_retry_first_nonempty_witness :
  forallb is_str ex_skills = true
  /\ (-1 <= 2)%Z
  /\ exists (t' : trace) (n : nat) (out : pyval * pyval),
       let result i :=
         roadmap_of_reply
           (ex_service_second_try (calls [] + i)%nat
              (roadmap_prompt (lit "Asha") 25 (lit "Data Science") ex_skills ex_profile)) in
       generate_roadmap_with_retry ex_service_second_try (lit "Asha") 25
         (lit "Data Science") (PyList ex_skills) ex_profile 2 []
       = (t', Ret out)
       /\ calls t' = (calls [] + n)%nat
       /\ (Z.of_nat n <= 2 + 1)%Z
       /\ ((exists i, n = S i
                      /\ truthy (fst (result i)) = true
                      /\ (forall j, (j < i)%nat -> truthy (fst (result j)) = false)
                      /\ out = result i)
           \/ (Z.of_nat n = (2 + 1)%Z
               /\ (forall j, (j < n)%nat -> truthy (fst (result j)) = false)
               /\ out = (PyStr [], PyStr []))).
Proof.
  split; [reflexivity|]. split; [lia|].
  apply (generate_roadmap_with_retry_first_nonempty ex_service_second_try
           (lit "Asha") 25 (lit "Data Science") ex_skills ex_profile 2 []);
    [reflexivity | lia].
Defined.

Example ex_retry_run :
  exists t,
    generate_roadmap_with_retry ex_service_second_try (lit "Asha") 25
      (lit "Data Science") (PyList ex_skills) ex_profile 2 []
    = (t, Ret (PyStr (lit "Learn SQL"), PyStr [])) /\ calls t = 2%nat.
Proof. eexists. split; vm_compute; reflexivity. Qed.

(** C9. A reply that parses, after the fences are stripped, as a JSON
    object makes [generate_roadmap] return the values under
    [career_advice] and [roadmap_svg], the empty string standing in for an
    absent key, and nothing but the service call is added to the trace (no
    warning); a reply that parses as another JSON value (an array, say)
    gives a warning and the fallback [("", "")]. *)
Theorem generate_roadmap_object_fields
    (model : service) (name : str) (age : Z) (domain : str) (l : list pyval)
    (psy : psychometric_profile) (t : trace) (response : str) (v : pyval) :
  forallb is_str l = true ->
  model (calls t) (roadmap_prompt name age domain l psy) = Text response ->
  Json.loads (clean_json_text response) = Some v ->
  let field (k : string) (d : list (str * pyval)) :=
    match dict_lookup (lit k) d with Some x => x | None => PyStr [] end in
  let run := generate_roadmap model name age domain (PyList l) psy t in
  let call := Generate (roadmap_prompt name age domain l psy) in
  (forall d, v = PyDict d ->
     run = (t ++ [call], Ret (field "career_advice"%string d, field "roadmap_svg"%string d)))
  /\ ((forall d, v <> PyDict d) ->
      run = (t ++ [call; St_warning (Msg_roadmap_failed AttributeError (Some response))],
             Ret (PyStr [], PyStr []))).
Proof.
  intros Hl Hreply Hjson field run call. subst run.
  unfold generate_roadmap.
  erewrite bind_ret by (apply py_join_list; exact Hl).
  unfold try_assign, generate_content.
  fold (roadmap_prompt name age domain l psy). rewrite Hreply.
  unfold json_loads. rewrite Hjson.
  split.
  - intros d ->. reflexivity.
  - intros Hnot. destruct v; try (mrun; rewrite <- app_assoc; reflexivity).
    exfalso. eapply Hnot. reflexivity.
Qed.

(** The theorem on an object that has advice and no diagram. *)
Lemma generate_roadmap_object_fields_witness :
  let model : service := fun _ _ => Text (dq "```json {'career_advice': 'Learn SQL'} ```") in
  let v := PyDict [(lit "career_advice", PyStr (lit "Learn SQL"))] in
  forallb is_str ex_skills = true
  /\ Json.loads (clean_json_text (dq "```json {'career_advice': 'Learn SQL'} ```")) = Some v
  /\ generate_roadmap model (lit "Asha") 25 (lit "Data Science") (PyList ex_skills) ex_profile []
     = ([Generate (roadmap_prompt (lit "Asha") 25 (lit "Data Science") ex_skills ex_profile)],
        Ret (PyStr (lit "Learn SQL"), PyStr [])).
Proof.
  intros model v.
  assert (Hl : forallb is_str ex_skills = true) by reflexivity.
  assert (Hj : Json.loads (clean_json_text (dq "```json {'career_advice': 'Learn SQL'} ```")) = Some v)
    by (vm_compute; reflexivity).
  split; [exact Hl|]. split; [exact Hj|].
  exact (proj1 (generate_roadmap_object_fields model (lit "Asha") 25
                  (lit "Data Science") ex_skills ex_profile [] _ v Hl eq_refl Hj)
               _ eq_refl).
Defined.

(* ================================================================== *)
(** ** Skill extraction *)
(* ================================================================== *)

Lemma forallb_is_str_map (ss : list str) : forallb is_str (List.map PyStr ss) = true.
Proof. induction ss as [|s ss IH]; [reflexivity | exact IH]. Qed.

Lemma forallb_is_str_inv (l : list pyval) :
  forallb is_str l = true -> exists ss, l = List.map PyStr ss.
Proof.
  induction l as [|v l IH]; intros H.
  - exists []. reflexivity.
  - cbn in H. apply andb_prop in H. destruct H as [Hv Hl].
    destruct (IH Hl) as [ss ->]. destruct v; try discriminate.
    exists (s :: ss). reflexivity.
Qed.

(** The check of [extract_skills] decides [ListOfStrings]. *)
Lemma is_list_of_str_spec (v : pyval) :
  is_list_of_str v = true <-> ListOfStrings v.
Proof.
  split.
  - destruct v; try discriminate. intros H.
    destruct (forallb_is_str_inv _ H) as [ss ->]. exists ss. reflexivity.
  - intros [ss ->]. apply forallb_is_str_map.
Qed.

(** C3. Given a textual reply, skill extraction returns a list of strings
    (possibly empty) and nothing else: the parsed value itself when it is a
    list of strings; the empty list, with the warning about the format,
    when the reply parses as JSON of another shape; the empty list, with
    the warning about the failure, when it does not parse. *)
Theorem extract_skills_list_of_strings
    (model : service) (resume_text : str) (t : trace) (response : str) :
  model (calls t) (PromptSkills resume_text) = Text response ->
  let call := Generate (PromptSkills resume_text) in
  exists (t' : trace) (out : pyval),
    extract_skills model resume_text t = (t', Ret out)
    /\ ListOfStrings out
    /\ (forall v, Json.loads (clean_json_text response) = Some v ->
          ~ ListOfStrings v ->
          out = PyList [] /\ t' = t ++ [call; St_warning Msg_unexpected_format])
    /\ (forall v, Json.loads (clean_json_text response) = Some v ->
          ListOfStrings v ->
          out = v /\ t' = t ++ [call])
    /\ (Json.loads (clean_json_text response) = None ->
          out = PyList []
          /\ t' = t ++ [call; St_warning (Msg_skill_extraction_failed JSONDecodeError response)]).
Proof.
  intros Hreply call. unfold extract_skills, try_assign, generate_content.
  rewrite Hreply. unfold json_loads.
  destruct (Json.loads (clean_json_text response)) as [v|] eqn:Hjson.
  - destruct (is_list_of_str v) eqn:Hshape.
    + apply is_list_of_str_spec in Hshape as Hv.
      exists (t ++ [call]), v. mrun. rewrite Hshape.
      split; [reflexivity|]. split; [exact Hv|].
      split; [|split].
      * intros v' [= <-] Hnot. contradiction.
      * intros v' [= <-] _. split; reflexivity.
      * discriminate.
    + assert (Hv : ~ ListOfStrings v).
      { intros Hv. apply is_list_of_str_spec in Hv. congruence. }
      exists (t ++ [call; St_warning Msg_unexpected_format]), (PyList []).
      mrun. rewrite Hshape. cbn. rewrite <- app_assoc.
      split; [reflexivity|]. split; [exists []; reflexivity|].
      split; [|split].
      * intros _ _ _. split; reflexivity.
      * intros v' [= <-] Hyes. contradiction.
      * discriminate.
  - exists (t ++ [call; St_warning (Msg_skill_extraction_failed JSONDecodeError response)]),
      (PyList []).
    mrun. rewrite <- app_assoc.
    split; [reflexivity|]. split; [exists []; reflexivity|].
    split; [|split].
    * discriminate.
    * discriminate.
    * intros _. split; reflexivity.
Qed.

(** The theorem on a reply that is a JSON array of two numbers: a warning
    and the empty list. *)
Lemma extract_skills_list_of_strings_witness :
  let model : service := fun _ _ => Text (dq "```json [1, 2] ```") in
  exists (t' : trace) (out : pyval),
    extract_skills model (lit "Python developer") [] = (t', Ret out)
    /\ ListOfStrings out.
Proof.
  intros model.
  destruct (extract_skills_list_of_strings model (lit "Python developer") []
              (dq "```json [1, 2] ```") eq_refl)
    as (t' & out & Hrun & Hshape & _).
  exists t', out. split; [exact Hrun | exact Hshape].
Defined.

Example ex_extract_skills_numbers :
  extract_skills (fun _ _ => Text (dq "```json [1, 2] ```")) (lit "Python developer") []
  = ([Generate (PromptSkills (lit "Python developer")); St_warning Msg_unexpected_format],
     Ret (PyList [])).
Proof. vm_compute. reflexivity. Qed.

Example ex_extract_skills_strings :
  extract_skills (fun _ _ => Text (dq "```json
['Python', 'SQL']
```")) (lit "Python developer") []
  = ([Generate (PromptSkills (lit "Python developer"))], Ret (PyList ex_skills)).
Proof. vm_compute. reflexivity. Qed.

(** When the service call itself raises, the handler of [extract_skills]
    reads [response.text] although [response] was never assigned, and the
    [UnboundLocalError] leaves the function. *)
Lemma extract_skills_service_raises (model : service) (resume_text : str) (t : trace) :
  model (calls t) (PromptSkills resume_text) = Raises ->
  extract_skills model resume_text t
  = (t ++ [Generate (PromptSkills resume_text)], Raise UnboundLocalError).
Proof.
  intros Hreply. unfold extract_skills, try_assign, generate_content.
  rewrite Hreply. reflexivity.
Qed.

(** C2 (the code at the failing input). With a service whose call raises,
    skill extraction does not return its fallback: an exception escapes. *)
Theorem extract_skills_exception_escapes :
  extract_skills (fun _ _ => Raises) (lit "Python developer") []
  = ([Generate (PromptSkills (lit "Python developer"))], Raise UnboundLocalError).
Proof. apply extract_skills_service_raises. reflexivity. Qed.

(** The other three call sites guard the same read, and return their
    fallback whatever the service does. *)
Lemma generate_roadmap_returns model name age domain l psy t :
  forallb is_str l = true ->
  exists t' out,
    generate_roadmap model name age domain (PyList l) psy t = (t', Ret out).
Proof.
  intros Hl.
  destruct (generate_roadmap_run model name age domain l psy t Hl) as (w & Hrun & _).
  eauto.
Qed.

Lemma skill_gap_analysis_returns model domain l t :
  forallb is_str l = true ->
  exists t' out,
    skill_gap_analysis model domain (PyList l) t = (t', Ret out)
    /\ calls t' = S (calls t)
    /\ (model (calls t) (PromptGap (join (lit ", ") (List.map str_of l)) domain) = Raises ->
        out = PyDict []).
Proof.
  intros Hl. unfold skill_gap_analysis.
  erewrite bind_ret by (apply py_join_list; exact Hl).
  unfold try_assign, generate_content.
  destruct (model (calls t) _) as [|response].
  - mrun. eexists _, _. split; [reflexivity|]. split; [|reflexivity].
    rewrite !calls_app. cbn. lia.
  - unfold json_loads. destruct (Json.loads (clean_json_text response)) as [v|].
    + mrun. eexists _, _. split; [reflexivity|]. split; [|discriminate].
      rewrite !calls_app. cbn. lia.
    + mrun. eexists _, _. split; [reflexivity|]. split; [|discriminate].
      rewrite !calls_app. cbn. lia.
Qed.

Lemma recommend_courses_returns isalnum_nonascii model domain t :
  exists t' out,
    recommend_courses isalnum_nonascii model domain t = (t', Ret out)
    /\ calls t' = S (calls t)
    /\ (model (calls t) (PromptCourses domain) = Raises -> out = []).
Proof.
  unfold recommend_courses, try_assign, generate_content.
  destruct (model (calls t) _) as [|response].
  - mrun. eexists _, _. split; [reflexivity|]. split; [|reflexivity].
    rewrite !calls_app. cbn. lia.
  - mrun. eexists _, _. split; [reflexivity|]. split; [|discriminate].
    rewrite !calls_app. cbn. lia.
Qed.

(* ================================================================== *)
(** ** Resume extraction *)
(* ================================================================== *)

Lemma read_pages_ok (pages : list page) : forall text,
  Forall page_ok pages ->
  read_pages pages text = (text ++ pages_text pages, Ret tt).
Proof.
  induction pages as [|pg pages IH]; intros text Hok.
  - cbn. rewrite app_nil_r. reflexivity.
  - inversion Hok as [|? ? Hpg Hrest]; subst.
    destruct pg as [|[[|c pt]|]]; [destruct Hpg | | |]; cbn [read_pages].
    + rewrite (IH _ Hrest). reflexivity.
    + rewrite (IH _ Hrest). unfold pages_text. cbn [List.map concat].
      rewrite !app_assoc. reflexivity.
    + rewrite (IH _ Hrest). reflexivity.
Qed.

Lemma read_pages_raises (good rest : list page) : forall text,
  Forall page_ok good ->
  read_pages (good ++ PageRaises :: rest) text
  = (text ++ pages_text good, Raise ExtractionError).
Proof.
  induction good as [|pg good IH]; intros text Hok.
  - cbn. rewrite app_nil_r. reflexivity.
  - inversion Hok as [|? ? Hpg Hrest]; subst.
    rewrite <- app_comm_cons.
    destruct pg as [|[[|c pt]|]]; [destruct Hpg | | |]; cbn [read_pages].
    + rewrite (IH _ Hrest). reflexivity.
    + rewrite (IH _ Hrest). unfold pages_text. cbn [List.map concat].
      rewrite !app_assoc. reflexivity.
    + rewrite (IH _ Hrest). reflexivity.
Qed.

Lemma read_pages_exception (pages : list page) : forall text text' e,
  read_pages pages text = (text', Raise e) -> e = ExtractionError.
Proof.
  induction pages as [|pg pages IH]; intros text text' e H.
  - discriminate.
  - destruct pg as [|[[|c pt]|]]; cbn in H.
    + congruence.
    + eapply IH; exact H.
    + eapply IH; exact H.
    + eapply IH; exact H.
Qed.

(** C7. The resume extractor never raises: every file gives a text.  A
    file whose declared type is neither PDF nor one of the two Word types
    gives the empty text and no output.  When the extraction raises (on
    opening the PDF, on one of its pages, or in the Word extraction) there
    is a warning and the result is the text accumulated so far: the text of
    the pages before the failing one, or the empty text. *)
Theorem parse_resume_never_raises (file : uploaded_file) (t : trace) :
  (exists (t' : trace) (text : str), parse_resume file t = (t', Ret text))
  /\ (file_type file <> mime_pdf -> file_type file <> mime_docx ->
      file_type file <> mime_doc ->
      parse_resume file t = (t, Ret []))
  /\ (file_type file = mime_pdf -> as_pdf file = PdfOpenRaises ->
      parse_resume file t
      = (t ++ [St_warning (Msg_pdf_parsing_failed ExtractionError)], Ret []))
  /\ (forall good rest,
      file_type file = mime_pdf ->
      as_pdf file = PdfPages (good ++ PageRaises :: rest) ->
      Forall page_ok good ->
      parse_resume file t
      = (t ++ [St_warning (Msg_pdf_parsing_failed ExtractionError)],
         Ret (pages_text good)))
  /\ (file_type file = mime_docx \/ file_type file = mime_doc ->
      as_docx file = DocxRaises ->
      parse_resume file t
      = (t ++ [St_warning (Msg_docx_parsing_failed ExtractionError)], Ret [])).
Proof.
  unfold parse_resume, str_eqb.
  repeat split.
  - (* never raises *)
    case_bool_decide.
    + destruct (as_pdf file) as [|pages]; [eexists _, _; reflexivity|].
      destruct (read_pages pages []) as [text [[]|e]] eqn:Hread.
      * eexists _, _; reflexivity.
      * apply read_pages_exception in Hread. subst e. eexists _, _; reflexivity.
    + destruct (bool_decide (file_type file = mime_docx)
                || bool_decide (file_type file = mime_doc)).
      * destruct (as_docx file); eexists _, _; reflexivity.
      * eexists _, _; reflexivity.
  - (* another type *)
    intros Hpdf Hdocx Hdoc.
    rewrite !bool_decide_eq_false_2 by assumption. reflexivity.
  - (* the PDF cannot be opened *)
    intros Hpdf Hopen. rewrite bool_decide_eq_true_2 by assumption.
    rewrite Hopen. reflexivity.
  - (* a page raises *)
    intros good rest Hpdf Hpages Hgood.
    rewrite bool_decide_eq_true_2 by assumption.
    rewrite Hpages, (read_pages_raises good rest [] Hgood). reflexivity.
  - (* the Word extraction raises *)
    intros Hword Hdocx.
    assert (Hnot : file_type file <> mime_pdf).
    { intros Heq. rewrite Heq in Hword. destruct Hword; discriminate. }
    rewrite bool_decide_eq_false_2 by assumption.
    assert (Hor : bool_decide (file_type file = mime_docx)
                  || bool_decide (file_type file = mime_doc) = true).
    { destruct Hword as [H|H]; rewrite (bool_decide_eq_true_2 _ H);
        [reflexivity | apply orb_true_r]. }
    rewrite Hor, Hdocx. reflexivity.
Qed.

(** The theorem on a PDF whose third page raises after two pages, one of
    them empty: the text of the first page comes back, with a warning. *)
Lemma parse_resume_never_raises_witness :
  let file := {| file_type := mime_pdf;
                 as_pdf := PdfPages [PageText (Some (lit "Python")); PageText None;
                                     PageRaises; PageText (Some (lit "SQL"))];
                 as_docx := DocxRaises |} in
  parse_resume file []
  = ([St_warning (Msg_pdf_parsing_failed ExtractionError)],
     Ret (lit "Python" ++ lit_nl)).
Proof.
  intros file.
  exact (proj1 (proj2 (proj2 (proj2 (parse_resume_never_raises file []))))
           [PageText (Some (lit "Python")); PageText None] [PageText (Some (lit "SQL"))]
           eq_refl eq_refl
           ltac:(repeat constructor)).
Defined.

Example ex_parse_resume_other_type :
  parse_resume {| file_type := lit "text/plain";
                  as_pdf := PdfOpenRaises; as_docx := DocxRaises |} []
  = ([], Ret []).
Proof. vm_compute. reflexivity. Qed.

(* ================================================================== *)
(** ** Manual skills: split and strip *)
(* ================================================================== *)

(** [lstrip] removes a run of whitespace from the front, all of it. *)
Lemma lstrip_spec (s : str) :
  exists a, s = a ++ lstrip s
    /\ Forall (fun c => isspace c = true) a
    /\ (forall c, head (lstrip s) = Some c -> isspace c = false).
Proof.
  induction s as [|c s (a & Hs & Ha & Hh)].
  - exists []. repeat split; [constructor | discriminate].
  - cbn [lstrip]. destruct (isspace c) eqn:Hc.
    + exists (c :: a). split; [cbn; congruence|]. split; [constructor; assumption | exact Hh].
    + exists []. split; [reflexivity|]. split; [constructor|].
      intros c' [= <-]. exact Hc.
Qed.

Lemma rstrip_spec (s : str) :
  exists b, s = rstrip s ++ b
    /\ Forall (fun c => isspace c = true) b
    /\ (forall c, last (rstrip s) = Some c -> isspace c = false).
Proof.
  destruct (lstrip_spec (reverse s)) as (a & Hs & Ha & Hh).
  exists (reverse a). unfold rstrip. split; [|split].
  - rewrite <- reverse_app, <- Hs, reverse_involutive. reflexivity.
  - apply Forall_reverse. exact Ha.
  - intros c. rewrite last_reverse. apply Hh.
Qed.

Lemma strip_Trimmed (s : str) : Trimmed s (strip s).
Proof.
  destruct (lstrip_spec s) as (a & Hs & Ha & Hh).
  destruct (rstrip_spec (lstrip s)) as (b & Hu & Hb & Hl).
  exists a, b. unfold strip. repeat split; try assumption.
  - rewrite <- Hu. exact Hs.
  - intros c Hc. apply Hh. rewrite Hu.
    destruct (rstrip (lstrip s)); [discriminate | exact Hc].
Qed.

Lemma split_nonempty sep s : split sep s <> [].
Proof.
  destruct s as [|c s]; cbn; [discriminate|].
  destruct (c =? sep); [discriminate|]. destruct (split sep s); discriminate.
Qed.

Lemma join_cons sep x y l : join sep (x :: y :: l) = x ++ sep ++ join sep (y :: l).
Proof. reflexivity. Qed.

(** Joining the pieces of a split gives the string back, and no piece
    contains the separator. *)
Lemma join_split sep s : join [sep] (split sep s) = s.
Proof.
  induction s as [|c s IH]; [reflexivity|].
  cbn [split]. destruct (c =? sep) eqn:Hc.
  - apply N.eqb_eq in Hc. subst c.
    pose proof (split_nonempty sep s) as Hne.
    destruct (split sep s) as [|y l]; [contradiction|].
    rewrite join_cons, IH. reflexivity.
  - destruct (split sep s) as [|y l] eqn:Hsp; [exfalso; eapply split_nonempty; eassumption|].
    destruct l as [|z l].
    + cbn in *. congruence.
    + rewrite join_cons. rewrite join_cons in IH. rewrite <- IH. reflexivity.
Qed.

Lemma split_no_sep sep s : Forall (fun tok => sep ∉ tok) (split sep s).
Proof.
  induction s as [|c s IH]; cbn [split].
  - constructor; [|constructor]. apply not_elem_of_nil.
  - destruct (c =? sep) eqn:Hc.
    + constructor; [apply not_elem_of_nil | exact IH].
    + apply N.eqb_neq in Hc.
      destruct (split sep s) as [|y l].
      * constructor; [|constructor]. intros Hin. apply list_elem_of_singleton in Hin. congruence.
      * inversion IH as [|? ? Hy Hl]; subst. constructor; [|exact Hl].
        intros Hin. apply elem_of_cons in Hin. destruct Hin; [congruence | contradiction].
Qed.

Lemma filter_map_comm {A B} (f : A -> B) (p : B -> bool) (l : list A) :
  List.map f (List.filter (fun x => p (f x)) l) = List.filter p (List.map f l).
Proof.
  induction l as [|x l IH]; [reflexivity|]. cbn.
  destruct (p (f x)); cbn; rewrite IH; reflexivity.
Qed.

(** C8. The manual skills are the comma-separated tokens of the input,
    each trimmed of the whitespace at its ends, without those that are empty
    once trimmed, in the order of the input: the input is its tokens joined
    by commas, no token contains a comma, and the result is the list of the
    trimmed tokens with the empty ones filtered out. *)
Theorem manual_skills_tokens (input : str) :
  exists tokens trimmed : list str,
    join (lit ",") tokens = input
    /\ tokens <> []
    /\ Forall (fun tok => 44 ∉ tok) tokens
    /\ Forall2 Trimmed tokens trimmed
    /\ manual_skills input = List.filter (fun s => nonempty s) trimmed.
Proof.
  exists (split 44 input), (List.map strip (split 44 input)).
  split; [apply join_split|]. split; [apply split_nonempty|].
  split; [apply split_no_sep|]. split.
  - apply Forall2_fmap_r. apply Forall_Forall2_diag. apply Forall_forall.
    intros tok _. apply strip_Trimmed.
  - unfold manual_skills. apply (filter_map_comm strip (fun s => nonempty s)).
Qed.

Example ex_manual_skills :
  manual_skills (lit " Python, SQL ,, AWS ,  ")
  = [lit "Python"; lit "SQL"; lit "AWS"].
Proof. vm_compute. reflexivity. Qed.

(* ================================================================== *)
(** ** The QR renderer *)
(* ================================================================== *)

Lemma list_courses_run (video_links : list str) : forall idx t,
  list_courses idx video_links t
  = (t ++ imap (fun i url => St_markdown_course (idx + i) url) video_links, Ret tt).
Proof.
  induction video_links as [|url rest IH]; intros idx t.
  - cbn. rewrite app_nil_r. reflexivity.
  - cbn [list_courses]. erewrite bind_ret by reflexivity.
    rewrite IH. cbn [imap]. rewrite <- app_assoc, Nat.add_0_r. cbn [app].
    do 3 f_equal. apply imap_ext. intros i x _. cbn. f_equal. lia.
Qed.





(* ================================================================== *)
(** ** Course recommendation: the pattern and its matches *)
(* ================================================================== *)

Lemma plus_k_sound {T} (p : N -> bool) (k : str -> option T) (s : str) : forall t,
  Re.plus_k p s k = Some t ->
  exists c u rest, s = c :: u ++ rest /\ p c = true
                   /\ Forall (fun x => p x = true) u /\ k rest = Some t.
Proof.
  induction s as [|c s IH]; intros t H; [discriminate|].
  cbn in H. destruct (p c) eqn:Hc; [|discriminate].
  destruct (Re.plus_k p s k) as [t'|] eqn:Hrec.
  - injection H as ->. destruct (IH _ eq_refl) as (c' & u & rest & -> & Hc' & Hu & Hk).
    exists c, (c' :: u), rest. repeat split; try assumption. constructor; assumption.
  - exists c, [], s. repeat split; try assumption. constructor.
Qed.

(** The matcher is sound for the language of the pattern: what it consumes
    is a word of the language. *)
Lemma matchk_sound {T} (r : Re.regex) : forall (k : str -> option T) s t,
  Re.matchk r s k = Some t ->
  exists u rest, s = u ++ rest /\ Re.Matches r u /\ k rest = Some t.
Proof.
  induction r as [l|p|r1 IH1 r2 IH2|r1 IH1 r2 IH2|r IH|p]; intros k s t H; cbn in H.
  - destruct (strip_prefix l s) as [s'|] eqn:Hp; [|discriminate].
    apply strip_prefix_Some in Hp. exists l, s'. repeat split; [assumption | constructor | assumption].
  - destruct s as [|c s]; [discriminate|]. destruct (p c) eqn:Hc; [|discriminate].
    exists [c], s. repeat split; [constructor; assumption | assumption].
  - apply IH1 in H. destruct H as (u1 & rest1 & -> & H1 & H).
    apply IH2 in H. destruct H as (u2 & rest2 & -> & H2 & H).
    exists (u1 ++ u2), rest2. rewrite <- app_assoc. repeat split; [constructor; assumption | assumption].
  - destruct (Re.matchk r1 s k) as [t'|] eqn:H1.
    + injection H as ->. apply IH1 in H1. destruct H1 as (u & rest & -> & Hm & Hk).
      exists u, rest. repeat split; [apply Re.M_AltL; assumption | assumption].
    + apply IH2 in H. destruct H as (u & rest & -> & Hm & Hk).
      exists u, rest. repeat split; [apply Re.M_AltR; assumption | assumption].
  - destruct (Re.matchk r s k) as [t'|] eqn:H1.
    + injection H as ->. apply IH in H1. destruct H1 as (u & rest & -> & Hm & Hk).
      exists u, rest. repeat split; [apply Re.M_OptSome; assumption | assumption].
    + exists [], s. repeat split; [apply Re.M_OptNone | assumption].
  - apply plus_k_sound in H. destruct H as (c & u & rest & -> & Hc & Hu & Hk).
    exists (c :: u), rest. repeat split; [constructor; assumption | assumption].
Qed.

Lemma match_prefix_sound (r : Re.regex) (s rest : str) :
  Re.match_prefix r s = Some rest ->
  exists u, s = u ++ rest /\ Re.Matches r u.
Proof.
  intros H. apply matchk_sound in H. destruct H as (u & rest' & -> & Hm & [= ->]).
  exists u. split; [reflexivity | assumption].
Qed.

(** Every string that [findall] returns is a word of the language and a
    piece of the text. *)
Lemma findall_from_sound (r : Re.regex) (s : str) : forall skip u,
  u ∈ Re.findall_from r skip s ->
  Re.Matches r u /\ exists a b, s = a ++ u ++ b.
Proof.
  induction s as [|c s IH]; intros skip u Hin.
  - destruct skip; cbn in Hin; [|apply elem_of_nil in Hin; contradiction].
    destruct (Re.match_prefix r []) as [rest|] eqn:Hm; [|apply elem_of_nil in Hin; contradiction].
    apply list_elem_of_singleton in Hin. subst u.
    apply match_prefix_sound in Hm. destruct Hm as (u & Hu & Hm).
    symmetry in Hu. apply app_eq_nil in Hu. destruct Hu as [-> ->].
    split; [assumption|]. exists [], []. reflexivity.
  - assert (Hskip : forall n, u ∈ Re.findall_from r n s ->
                       Re.Matches r u /\ exists a b, c :: s = a ++ u ++ b).
    { intros n Hn. apply IH in Hn. destruct Hn as (Hm & a & b & ->).
      split; [assumption|]. exists (c :: a), b. reflexivity. }
    destruct skip as [|n]; cbn [Re.findall_from] in Hin; [|eapply Hskip; exact Hin].
    destruct (Re.match_prefix r (c :: s)) as [rest|] eqn:Hm; [|eapply Hskip; exact Hin].
    apply elem_of_cons in Hin. destruct Hin as [->|Hin]; [|eapply Hskip; exact Hin].
    apply match_prefix_sound in Hm. destruct Hm as (u & Hu & Hm).
    rewrite Hu. rewrite length_app, Nat.add_sub, take_app_length.
    split; [assumption|]. exists [], rest. reflexivity.
Qed.
Lemma Matches_Lit_inv l u : Re.Matches (Re.Lit l) u -> u = l.
Proof. inversion 1; reflexivity. Qed.

Lemma Matches_Seq_inv r1 r2 u :
  Re.Matches (r1 ⋅ r2) u -> exists u1 u2, u = u1 ++ u2 /\ Re.Matches r1 u1 /\ Re.Matches r2 u2.
Proof. inversion 1; subst. eauto. Qed.

Lemma Matches_Alt_inv r1 r2 u :
  Re.Matches (Re.Alt r1 r2) u -> Re.Matches r1 u \/ Re.Matches r2 u.
Proof. inversion 1; subst; auto. Qed.

Lemma Matches_Opt_inv r u :
  Re.Matches (Re.Opt r) u -> u = [] \/ Re.Matches r u.
Proof. inversion 1; subst; auto. Qed.

Lemma Matches_Plus_inv p u :
  Re.Matches (Re.Plus p) u -> u <> [] /\ Forall (fun x => p x = true) u.
Proof. inversion 1; subst. split; [discriminate | constructor; assumption]. Qed.

(** The words of the course pattern. *)
Lemma url_re_shape isalnum_nonascii (u : str) :
  Re.Matches (url_re isalnum_nonascii) u -> UrlShape isalnum_nonascii u.
Proof.
  unfold url_re. intros H.
  apply Matches_Seq_inv in H as (h & u1 & -> & Hh & H). apply Matches_Lit_inv in Hh as ->.
  apply Matches_Seq_inv in H as (s & u2 & -> & Hs & H).
  apply Matches_Seq_inv in H as (c & u3 & -> & Hc & H). apply Matches_Lit_inv in Hc as ->.
  apply Matches_Seq_inv in H as (www & u4 & -> & Hw & H).
  apply Matches_Seq_inv in H as (host & u5 & -> & Hhost & H).
  apply Matches_Seq_inv in H as (sl & u6 & -> & Hsl & H). apply Matches_Lit_inv in Hsl as ->.
  apply Matches_Seq_inv in H as (path & id & -> & Hpath & Hid).
  apply Matches_Plus_inv in Hid as [Hne Hid].
  exists (lit "http" ++ s ++ lit "://"), www, host, path, id.
  split; [rewrite <- !app_assoc; reflexivity|].
  split.
  { apply Matches_Opt_inv in Hs as [->|Hs]; [left; reflexivity|].
    apply Matches_Lit_inv in Hs as ->. right; reflexivity. }
  split.
  { apply Matches_Opt_inv in Hw as [->|Hw]; [left; reflexivity|].
    apply Matches_Lit_inv in Hw as ->. right; reflexivity. }
  split.
  { apply Matches_Alt_inv in Hhost as [Hh|Hh]; apply Matches_Lit_inv in Hh as ->; auto. }
  split.
  { apply Matches_Alt_inv in Hpath as [Hp|Hp]; apply Matches_Lit_inv in Hp as ->; auto. }
  split; assumption.
Qed.


Lemma str_in_unfold (needle hay : str) :
  str_in needle hay
  = match strip_prefix needle hay with
    | Some _ => true
    | None => match hay with [] => false | _ :: hay' => str_in needle hay' end
    end.
Proof. destruct hay; reflexivity. Qed.

Lemma str_in_app (needle a b : str) : str_in needle (a ++ needle ++ b) = true.
Proof.
  induction a as [|c a IH]; rewrite str_in_unfold.
  - cbn [app]. rewrite (proj2 (strip_prefix_Some needle _ b) eq_refl). reflexivity.
  - destruct (strip_prefix needle ((c :: a) ++ needle ++ b)); [reflexivity | exact IH].
Qed.

(** The filter of [recommend_courses] keeps every match. *)
Lemma url_shape_is_youtube isalnum_nonascii (u : str) :
  UrlShape isalnum_nonascii u -> is_youtube u = true.
Proof.
  intros (scheme & www & host & path & id & -> & _ & _ & Hhost & _).
  unfold is_youtube. rewrite (app_assoc scheme www).
  destruct Hhost as [-> | ->]; rewrite str_in_app; [reflexivity | apply orb_true_r].
Qed.

Lemma list_of_set_NoDup (l : list str) : NoDup (list_of_set l).
Proof. unfold list_of_set. apply NoDup_elements. Qed.

Lemma elem_of_list_of_set (l : list str) (u : str) : u ∈ list_of_set l <-> u ∈ l.
Proof. unfold list_of_set. rewrite elem_of_elements, elem_of_list_to_set. reflexivity. Qed.

Lemma returned_url_matches (r : Re.regex) (response u : str) :
  u ∈ list_of_set (List.filter is_youtube (Re.findall r response)) ->
  Re.Matches r u /\ exists a b, response = a ++ u ++ b.
Proof.
  intros Hu. apply elem_of_list_of_set, list_elem_of_In, filter_In in Hu.
  destruct Hu as [Hu _]. apply list_elem_of_In in Hu.
  apply findall_from_sound in Hu. exact Hu.
Qed.

Lemma recommend_courses_text isalnum_nonascii model domain t response :
  model (calls t) (PromptCourses domain) = Text response ->
  recommend_courses isalnum_nonascii model domain t
  = (t ++ [Generate (PromptCourses domain)],
     Ret (list_of_set (List.filter is_youtube (Re.findall (url_re isalnum_nonascii) response)))).
Proof.
  intros Hreply. unfold recommend_courses, try_assign, generate_content.
  rewrite Hreply. reflexivity.
Qed.

(** C5. Given a textual reply, course recommendation returns a list without
    repetition, each element of which matches the YouTube pattern and is a
    piece of the reply; and every match found in the reply is in the list,
    so a link that the reply repeats appears exactly once. *)
Theorem recommend_courses_distinct_urls
    (isalnum_nonascii : N -> bool) (model : service) (domain : str) (t : trace)
    (response : str) :
  model (calls t) (PromptCourses domain) = Text response ->
  exists urls : list str,
    recommend_courses isalnum_nonascii model domain t
    = (t ++ [Generate (PromptCourses domain)], Ret urls)
    /\ NoDup urls
    /\ (forall u, u ∈ urls ->
          Re.Matches (url_re isalnum_nonascii) u
          /\ exists a b, response = a ++ u ++ b)
    /\ (forall u, u ∈ Re.findall (url_re isalnum_nonascii) response -> u ∈ urls).
Proof.
  intros Hreply. eexists. split; [apply recommend_courses_text; exact Hreply|].
  split; [apply list_of_set_NoDup|]. split.
  - intros u Hu. eapply returned_url_matches. exact Hu.
  - intros u Hu. apply elem_of_list_of_set, list_elem_of_In, filter_In.
    split; [apply list_elem_of_In; exact Hu|].
    apply findall_from_sound in Hu. destruct Hu as [Hu _].
    eapply url_shape_is_youtube, url_re_shape. exact Hu.
Qed.


(** The theorem on a reply that gives one link twice. *)
Lemma recommend_courses_distinct_urls_witness :
  exists urls : list str,
    recommend_courses ascii_only (fun _ _ => Text ex_courses_reply) (lit "AI") []
    = ([Generate (PromptCourses (lit "AI"))], Ret urls)
    /\ NoDup urls.
Proof.
  destruct (recommend_courses_distinct_urls ascii_only
              (fun _ _ => Text ex_courses_reply) (lit "AI") [] ex_courses_reply eq_refl)
    as (urls & Hrun & Hnodup & _).
  exists urls. split; [exact Hrun | exact Hnodup].
Defined.

Example ex_recommend_courses :
  recommend_courses ascii_only (fun _ _ => Text ex_courses_reply) (lit "AI") []
  = ([Generate (PromptCourses (lit "AI"))],
     Ret [lit "https://www.youtube.com/watch?v=abc_-1"]).
Proof. vm_compute. reflexivity. Qed.

Lemma recommend_courses_raises isalnum_nonascii model domain t :
  model (calls t) (PromptCourses domain) = Raises ->
  recommend_courses isalnum_nonascii model domain t
  = (t ++ [Generate (PromptCourses domain);
           St_warning (Msg_courses_failed ServiceError None)], Ret []).
Proof.
  intros Hreply. unfold recommend_courses, try_assign, generate_content.
  rewrite Hreply. mrun. rewrite <- app_assoc. reflexivity.
Qed.

(** C10. Every link that course recommendation returns starts with
    [http://] or [https://], continues with an optional [www.] and the host
    [youtube.com] or [youtu.be], and has [watch?v=] or [playlist?list=]
    right after the host's slash, followed by a non-empty identifier.  A
    bare short link is therefore never returned: there is a reply that
    contains [https://youtu.be/dQw4w9WgXcQ] and whose result lacks it. *)
Theorem recommend_courses_url_shape
    (isalnum_nonascii : N -> bool) (model : service) (domain : str) (t : trace) :
  (forall t' urls,
      recommend_courses isalnum_nonascii model domain t = (t', Ret urls) ->
      forall u, u ∈ urls -> UrlShape isalnum_nonascii u)
  /\ (exists response link : str,
        link = lit "https://youtu.be/dQw4w9WgXcQ"
        /\ str_in link response = true
        /\ forall (m : service) (t0 : trace),
             m (calls t0) (PromptCourses domain) = Text response ->
             exists urls,
               recommend_courses isalnum_nonascii m domain t0
               = (t0 ++ [Generate (PromptCourses domain)], Ret urls)
               /\ link ∉ urls).
Proof.
  split.
  - intros t' urls Hrun u Hu.
    destruct (model (calls t) (PromptCourses domain)) as [|response] eqn:Hreply.
    + rewrite (recommend_courses_raises _ _ _ _ Hreply) in Hrun.
      injection Hrun as _ <-. apply elem_of_nil in Hu. contradiction.
    + rewrite (recommend_courses_text _ _ _ _ _ Hreply) in Hrun.
      injection Hrun as _ <-.
      apply url_re_shape. eapply (proj1 (returned_url_matches _ _ _ Hu)).
  - exists (lit "Watch https://youtu.be/dQw4w9WgXcQ today"),
      (lit "https://youtu.be/dQw4w9WgXcQ").
    split; [reflexivity|]. split; [vm_compute; reflexivity|].
    intros m t0 Hreply. exists [].
    split; [|apply not_elem_of_nil].
    rewrite (recommend_courses_text _ _ _ _ _ Hreply). reflexivity.
Qed.

(** The first part of the theorem on a reply with a proper link. *)
Lemma recommend_courses_url_shape_witness :
  UrlShape ascii_only (lit "https://www.youtube.com/watch?v=abc_-1").
Proof.
  apply (proj1 (recommend_courses_url_shape ascii_only
                  (fun _ _ => Text ex_courses_reply) (lit "AI") [])
           [Generate (PromptCourses (lit "AI"))]
           [lit "https://www.youtube.com/watch?v=abc_-1"]).
  - vm_compute. reflexivity.
  - apply list_elem_of_singleton. reflexivity.
Defined.

(* ================================================================== *)
(** ** The script: the gate of the plan *)
(* ================================================================== *)

Lemma plan_calls_app t1 t2 : plan_calls (t1 ++ t2) = (plan_calls t1 + plan_calls t2)%nat.
Proof. unfold plan_calls. rewrite List.filter_app, length_app. reflexivity. Qed.

Lemma plan_free_ret {A} (a : A) : plan_free (mret a).
Proof. intros t t' o [= <- _]. reflexivity. Qed.

Lemma plan_free_raise {A} (e : exn) : plan_free (raise e : M A).
Proof. intros t t' o [= <- _]. reflexivity. Qed.

Lemma plan_free_emit (ev : event) : is_plan_call ev = false -> plan_free (emit ev).
Proof.
  intros Hev t t' o [= <- _]. rewrite plan_calls_app. unfold plan_calls at 2.
  cbn. rewrite Hev. cbn. lia.
Qed.

Lemma plan_free_bind {A B} (m : M A) (k : A -> M B) :
  plan_free m -> (forall a, plan_free (k a)) -> plan_free (m ≫= k).
Proof.
  intros Hm Hk t t' o H. unfold mbind, M_bind in H.
  destruct (m t) as [t1 [a|e]] eqn:Hmt.
  - apply Hk in H. apply Hm in Hmt. congruence.
  - injection H as <- _. eapply Hm. exact Hmt.
Qed.

Lemma plan_free_try_assign {A B} (m : M A) (k : A -> M B) (h : option A -> exn -> M B) :
  plan_free m -> (forall a, plan_free (k a)) -> (forall x e, plan_free (h x e)) ->
  plan_free (try_assign m k h).
Proof.
  intros Hm Hk Hh t t' o H. unfold try_assign in H.
  destruct (m t) as [t1 [a|e]] eqn:Hmt.
  - apply Hm in Hmt. destruct (k a t1) as [t2 [b|e]] eqn:Hkt.
    + injection H as <- _. apply Hk in Hkt. congruence.
    + apply Hk in Hkt. destruct (is_Exception e).
      * apply Hh in H. congruence.
      * injection H as <- _. congruence.
  - apply Hm in Hmt. destruct (is_Exception e).
    + apply Hh in H. congruence.
    + injection H as <- _. congruence.
Qed.

Lemma plan_free_generate_skills model resume_text :
  plan_free (generate_content model (PromptSkills resume_text)).
Proof.
  intros t t' o [= <- _]. rewrite plan_calls_app. cbn. lia.
Qed.

Ltac plan_free :=
  repeat first
    [ apply plan_free_ret | apply plan_free_raise
    | apply plan_free_emit; reflexivity
    | apply plan_free_generate_skills
    | apply plan_free_bind; [|intros ?]
    | apply plan_free_try_assign; [|intros ?|intros ? ?]
    | match goal with |- plan_free (if ?b then _ else _) => destruct b end
    | match goal with |- plan_free (match ?x with _ => _ end) => destruct x end ].

Lemma plan_free_parse_resume file : plan_free (parse_resume file).
Proof.
  unfold parse_resume, except_warn, st_warning. plan_free.
Qed.

Lemma plan_free_py_join sep v : plan_free (py_join sep v).
Proof. unfold py_join, py_iter. plan_free. Qed.

Lemma plan_free_extract_skills model resume_text :
  plan_free (extract_skills model resume_text).
Proof. unfold extract_skills, json_loads, st_warning. plan_free. Qed.

Lemma plan_free_main_upload s : plan_free (main_upload s).
Proof.
  unfold main_upload, st_success, st_warning, st_info, st_error.
  destruct (file_uploader s); [|apply plan_free_ret].
  apply plan_free_bind; [apply plan_free_parse_resume|]. intros resume_text.
  destruct (nonempty resume_text); [|plan_free].
  apply plan_free_bind; [plan_free|]. intros _.
  apply plan_free_bind; [plan_free|]. intros _.
  apply plan_free_bind; [apply plan_free_extract_skills|]. intros skills.
  destruct (negb (truthy skills)); [plan_free|].
  apply plan_free_bind; [apply plan_free_py_join|]. intros joined. plan_free.
Qed.

Lemma plan_free_load_api_key s : plan_free (load_api_key s).
Proof. unfold load_api_key, st_error, st_stop. plan_free. Qed.

(** With an empty skills list the gate of the plan is closed. *)
Lemma main_plan_without_skills isalnum_nonascii s skills t :
  truthy skills = false ->
  exists t', main_plan isalnum_nonascii s skills t = (t', Ret tt)
             /\ plan_calls t' = plan_calls t /\ calls t' = calls t.
Proof.
  intros Hskills. unfold main_plan. rewrite Hskills, !andb_false_r.
  destruct (_ && _).
  - eexists. split; [reflexivity|]. rewrite plan_calls_app, calls_app. cbn. lia.
  - destruct (negb _).
    + eexists. split; [reflexivity|]. rewrite plan_calls_app, calls_app. cbn. lia.
    + eexists. split; [reflexivity|]. split; reflexivity.
Qed.

(** C4, as the code has it.  In a run of the script in which the upload
    section leaves the skills list empty, no roadmap, skill-gap or course
    call is made, whatever the name, the domain and the buttons are: the
    only service calls of the run are those of the upload section (the
    skill extraction, which runs before the button is looked at). *)
Theorem main_no_plan_call_without_skills
    (isalnum_nonascii : N -> bool) (s : session) (t t0 t1 : trace)
    (api_key : str) (skills : pyval) :
  load_api_key s t = (t0, Ret api_key) ->
  main_upload s t0 = (t1, Ret skills) ->
  truthy skills = false ->
  exists t2,
    main isalnum_nonascii s t = (t2, Ret tt)
    /\ plan_calls t2 = plan_calls t
    /\ calls t2 = calls t1.
Proof.
  intros Hkey Hupload Hskills. unfold main.
  erewrite bind_ret by exact Hkey. erewrite bind_ret by exact Hupload.
  destruct (main_plan_without_skills isalnum_nonascii s skills t1 Hskills)
    as (t2 & Hrun & Hplan & Hcalls).
  exists t2. split; [exact Hrun|]. split; [|exact Hcalls].
  rewrite Hplan. apply plan_free_main_upload in Hupload.
  apply plan_free_load_api_key in Hkey. congruence.
Qed.


(** The theorem on the session whose resume gives no skills. *)
Lemma main_no_plan_call_without_skills_witness :
  exists t2,
    main ascii_only ex_session [] = (t2, Ret tt)
    /\ plan_calls t2 = plan_calls []
    /\ calls t2 = 1%nat.
Proof.
  exact (main_no_plan_call_without_skills ascii_only ex_session [] [] _
           (lit "key") (PyList []) eq_refl eq_refl eq_refl).
Defined.

(** C4 as stated fails: with the plan button pressed and an empty skills
    list, the run still calls the service once, for the skill extraction of
    the uploaded resume. *)
Lemma main_skill_extraction_before_gate :
  plan_button ex_session = true
  /\ snd (main_upload ex_session []) = Ret (PyList [])
  /\ main ascii_only ex_session []
     = ([St_success Msg_resume_parsed;
         St_text_area (lit "Python developer");
         Generate (PromptSkills (lit "Python developer"));
         St_warning (Msg_skill_extraction_failed JSONDecodeError
                       (lit "I could not find any skills."));
         St_warning Msg_enter_skills_manually],
        Ret tt)
  /\ calls (fst (main ascii_only ex_session [])) = 1%nat.
Proof. repeat split; vm_compute; reflexivity. Qed.

(** A full run: skills from the resume, and valid answers to all prompts. *)
Example ex_main_valid :
  main ascii_only ex_session_valid []
  = ([St_success Msg_resume_parsed;
      St_text_area (lit "Python developer");
      Generate (PromptSkills (lit "Python developer"));
      St_info (Msg_extracted_skills (lit "Python, SQL"));
      Generate (PromptRoadmap (lit "Asha") 25 (lit "Data Science")
                  (lit "Python, SQL") ex_profile);
      Generate (PromptGap (lit "Python, SQL") (lit "Data Science"));
      Generate (PromptCourses (lit "Data Science"));
      St_markdown_advice (PyStr (lit "# Plan"));
      St_html_roadmap (PyStr (lit "<svg/>"));
      St_subheader_courses;
      St_markdown_course 1 (lit "https://www.youtube.com/watch?v=abc_-1");
      Qr_make (lit "https://www.youtube.com/watch?v=abc_-1");
      St_image (Qr_png (lit "https://www.youtube.com/watch?v=abc_-1")) 150;
      St_download_button (Qr_png (lit "https://www.youtube.com/watch?v=abc_-1"))
        (lit "courses_qr.png") (lit "image/png");
      St_markdown_missing_header;
      St_markdown_skill (PyStr (lit "Spark"));
      St_markdown_priority_header;
      St_markdown_skill (PyStr (lit "Statistics"))],
     Ret tt).
Proof. vm_compute. reflexivity. Qed.

(* ================================================================== *)
(** ** Cleaning a reply: fences and blanks *)
(* ================================================================== *)

Lemma strip_prefix_cons (a b : N) (p s : str) :
  strip_prefix (a :: p) (b :: s) = if a =? b then strip_prefix p s else None.
Proof. reflexivity. Qed.

Lemma str_in_factor (needle : str) (hay : str) :
  str_in needle hay = true -> exists p q, hay = p ++ needle ++ q.
Proof.
  induction hay as [|c hay IH]; rewrite str_in_unfold.
  - destruct (strip_prefix needle []) as [r|] eqn:Hp; [|discriminate].
    apply strip_prefix_Some in Hp. intros _. exists [], r. exact Hp.
  - destruct (strip_prefix needle (c :: hay)) as [r|] eqn:Hp.
    + apply strip_prefix_Some in Hp. intros _. exists [], r. exact Hp.
    + intros H. destruct (IH H) as (p & q & ->). exists (c :: p), q. reflexivity.
Qed.

(** A piece of a text without the needle is without the needle. *)
Lemma str_in_piece (needle a x b : str) :
  str_in needle (a ++ x ++ b) = false -> str_in needle x = false.
Proof.
  intros H. destruct (str_in needle x) eqn:Hx; [|reflexivity].
  apply str_in_factor in Hx as (p & q & ->).
  rewrite <- H. symmetry.
  replace (a ++ (p ++ needle ++ q) ++ b) with ((a ++ p) ++ needle ++ (q ++ b))
    by (rewrite <- !app_assoc; reflexivity).
  apply str_in_app.
Qed.

Lemma sub_empty_from_skip (r : Re.regex) (p : str) : forall x,
  Re.sub_empty_from r (length p) (p ++ x) = Re.sub_empty_from r 0 x.
Proof. induction p as [|c p IH]; intros x; [reflexivity | exact (IH x)]. Qed.

Lemma match_prefix_fence (s : str) :
  Re.match_prefix fence_re s
  = match strip_prefix (lit "```json") s with
    | Some r => Some r
    | None => strip_prefix (lit "```") s
    end.
Proof.
  unfold Re.match_prefix, fence_re. cbn [Re.matchk].
  destruct (strip_prefix (lit "```json") s); [reflexivity|].
  destruct (strip_prefix (lit "```") s); reflexivity.
Qed.

(** One step of the removal of fences. *)
Lemma sub_empty_fence_cons (c : N) (s : str) :
  Re.sub_empty fence_re (c :: s)
  = match strip_prefix (lit "```json") (c :: s) with
    | Some r => Re.sub_empty fence_re r
    | None =>
        match strip_prefix (lit "```") (c :: s) with
        | Some r => Re.sub_empty fence_re r
        | None => c :: Re.sub_empty fence_re s
        end
    end.
Proof.
  unfold Re.sub_empty. cbn [Re.sub_empty_from]. rewrite match_prefix_fence.
  destruct (strip_prefix (lit "```json") (c :: s)) as [r|] eqn:H7.
  - apply strip_prefix_Some in H7. rewrite H7, length_app, Nat.add_sub.
    injection H7 as _ ->. exact (sub_empty_from_skip fence_re (lit "``json") r).
  - destruct (strip_prefix (lit "```") (c :: s)) as [r|] eqn:H3; [|reflexivity].
    apply strip_prefix_Some in H3. rewrite H3, length_app, Nat.add_sub.
    injection H3 as _ ->. exact (sub_empty_from_skip fence_re (lit "``") r).
Qed.

Lemma strip_prefix_length (p s r : str) :
  strip_prefix p s = Some r -> (length s = length p + length r)%nat.
Proof. intros H. apply strip_prefix_Some in H. subst s. apply length_app. Qed.

(** What is left starts with a backtick only if the text did. *)
Lemma sub_empty_fence_head (s : str) :
  head s <> Some 96 -> head (Re.sub_empty fence_re s) <> Some 96.
Proof.
  destruct s as [|c s]; [intros _; discriminate|]. intros Hc.
  rewrite sub_empty_fence_cons.
  assert (Hne : c <> 96) by (intros ->; apply Hc; reflexivity).
  apply N.eqb_neq in Hne.
  assert (H7 : strip_prefix (lit "```json") (c :: s) = None).
  { change (lit "```json") with (96 :: lit "``json").
    rewrite strip_prefix_cons, N.eqb_sym, Hne. reflexivity. }
  assert (H3 : strip_prefix (lit "```") (c :: s) = None).
  { change (lit "```") with (96 :: lit "``").
    rewrite strip_prefix_cons, N.eqb_sym, Hne. reflexivity. }
  rewrite H7, H3. exact Hc.
Qed.

Lemma strip_prefix_backtick_None (p x : str) :
  head x <> Some 96 -> strip_prefix (96 :: p) x = None.
Proof.
  destruct x as [|c x]; [reflexivity|]. intros Hc. rewrite strip_prefix_cons.
  destruct (96 =? c) eqn:E; [|reflexivity].
  apply N.eqb_eq in E. subst c. exfalso. apply Hc. reflexivity.
Qed.

Lemma strip_prefix_backtick_head (x : str) :
  strip_prefix [96] x = None -> head x <> Some 96.
Proof.
  destruct x as [|c x]; [discriminate|]. rewrite strip_prefix_cons. cbn [head].
  destruct (96 =? c) eqn:E; [destruct x; discriminate|].
  apply N.eqb_neq in E. congruence.
Qed.

(** What is left starts with two backticks only if the text did. *)
Lemma sub_empty_fence_two (s : str) :
  strip_prefix [96; 96] s = None ->
  strip_prefix [96; 96] (Re.sub_empty fence_re s) = None.
Proof.
  intros H2. destruct s as [|c s]; [reflexivity|].
  destruct (N.eq_dec c 96) as [->|Hc].
  - rewrite strip_prefix_cons, N.eqb_refl in H2.
    apply strip_prefix_backtick_head in H2.
    rewrite sub_empty_fence_cons.
    change (lit "```json") with (96 :: 96 :: lit "`json").
    change (lit "```") with (96 :: 96 :: [96]).
    rewrite !strip_prefix_cons, N.eqb_refl.
    rewrite !(strip_prefix_backtick_None _ s H2).
    rewrite strip_prefix_cons, N.eqb_refl.
    apply strip_prefix_backtick_None, sub_empty_fence_head, H2.
  - apply strip_prefix_backtick_None. apply sub_empty_fence_head.
    cbn. congruence.
Qed.

Lemma sub_empty_fence_clean_aux (n : nat) : forall s,
  (length s <= n)%nat -> str_in (lit "```") (Re.sub_empty fence_re s) = false.
Proof.
  induction n as [|n IH]; intros s Hn.
  - destruct s; [reflexivity | cbn in Hn; lia].
  - destruct s as [|c s]; [reflexivity|]. cbn [length] in Hn.
    rewrite sub_empty_fence_cons.
    destruct (strip_prefix (lit "```json") (c :: s)) as [r|] eqn:H7.
    { apply strip_prefix_length in H7.
      change (length (lit "```json")) with 7%nat in H7. cbn [length] in H7.
      apply IH. lia. }
    destruct (strip_prefix (lit "```") (c :: s)) as [r|] eqn:H3.
    { apply strip_prefix_length in H3.
      change (length (lit "```")) with 3%nat in H3. cbn [length] in H3.
      apply IH. lia. }
    rewrite str_in_unfold, (IH s) by lia.
    assert (Hout : strip_prefix (lit "```") (c :: Re.sub_empty fence_re s) = None);
      [|rewrite Hout; reflexivity].
    change (lit "```") with (96 :: [96; 96]) in *.
    rewrite strip_prefix_cons in *.
    destruct (96 =? c); [|reflexivity].
    apply sub_empty_fence_two. exact H3.
Qed.

Lemma sub_empty_fence_clean (s : str) :
  str_in (lit "```") (Re.sub_empty fence_re s) = false.
Proof. apply (sub_empty_fence_clean_aux (length s)). lia. Qed.

(** Text without a fence is left as it is. *)
Lemma sub_empty_fence_id_aux (s : str) :
  str_in (lit "```") s = false -> Re.sub_empty fence_re s = s.
Proof.
  induction s as [|c s IH]; [reflexivity|]. intros H.
  rewrite str_in_unfold in H.
  destruct (strip_prefix (lit "```") (c :: s)) as [r|] eqn:H3; [discriminate|].
  rewrite sub_empty_fence_cons, H3.
  destruct (strip_prefix (lit "```json") (c :: s)) as [r|] eqn:H7.
  - exfalso. apply strip_prefix_Some in H7.
    assert (H3' : strip_prefix (lit "```") (c :: s) = Some (lit "json" ++ r)).
    { apply strip_prefix_Some. rewrite H7. reflexivity. }
    congruence.
  - rewrite IH by exact H. reflexivity.
Qed.

Lemma lstrip_id (s : str) :
  (forall c, head s = Some c -> isspace c = false) -> lstrip s = s.
Proof.
  destruct s as [|c s]; [reflexivity|]. intros H. cbn [lstrip].
  rewrite (H c eq_refl). reflexivity.
Qed.

Lemma strip_id (s : str) :
  (forall c, head s = Some c -> isspace c = false) ->
  (forall c, last s = Some c -> isspace c = false) ->
  strip s = s.
Proof.
  intros Hh Hl. unfold strip, rstrip. rewrite (lstrip_id s Hh).
  rewrite lstrip_id; [apply reverse_involutive|].
  intros c. rewrite head_reverse. apply Hl.
Qed.

(** X1 ([clean_json_text], the cleaning of lines 58-60, 99-100 and
    136-137): whatever the reply, the text handed to [json.loads] holds no
    code fence (three backticks) and neither starts nor ends with white
    space. *)
Theorem clean_json_text_no_fence (response_text : str) :
  str_in (lit "```") (clean_json_text response_text) = false
  /\ (forall c, head (clean_json_text response_text) = Some c -> isspace c = false)
  /\ (forall c, last (clean_json_text response_text) = Some c -> isspace c = false).
Proof.
  unfold clean_json_text.
  destruct (strip_Trimmed (Re.sub_empty fence_re (strip response_text)))
    as (a & b & Heq & _ & _ & Hh & Hl).
  split; [|split; assumption].
  apply (str_in_piece _ a _ b). rewrite <- Heq. apply sub_empty_fence_clean.
Qed.

(** X2 ([clean_json_text]): a reply without a code fence and without white
    space at either end reaches [json.loads] unchanged. *)
Theorem clean_json_text_plain (response_text : str) :
  str_in (lit "```") response_text = false ->
  (forall c, head response_text = Some c -> isspace c = false) ->
  (forall c, last response_text = Some c -> isspace c = false) ->
  clean_json_text response_text = response_text.
Proof.
  intros Hfence Hh Hl. unfold clean_json_text.
  rewrite (strip_id _ Hh Hl), (sub_empty_fence_id_aux _ Hfence).
  apply strip_id; assumption.
Qed.

Lemma clean_json_text_plain_witness :
  clean_json_text (dq "{'career_advice': 'Learn SQL'}") = dq "{'career_advice': 'Learn SQL'}".
Proof.
  apply (clean_json_text_plain (dq "{'career_advice': 'Learn SQL'}")).
  - vm_compute. reflexivity.
  - intros c H. vm_compute in H. injection H as <-. reflexivity.
  - intros c H. vm_compute in H. injection H as <-. reflexivity.
Defined.

(* ================================================================== *)
(** ** Failures of the service and of the parse *)
(* ================================================================== *)

(** X3 ([skill_gap_analysis], lines 121-141): a failing service and a reply
    that is not JSON both give the warning and the empty dict, the warning
    carrying the reply when there is one; a reply that parses is returned as
    parsed, whatever its shape: no field and no type is checked. *)
Theorem skill_gap_analysis_result
    (model : service) (domain : str) (l : list pyval) (t : trace) :
  forallb is_str l = true ->
  let p := gap_prompt domain l in
  let run := skill_gap_analysis model domain (PyList l) t in
  (model (calls t) p = Raises ->
     run = (t ++ [Generate p; St_warning (Msg_skill_gap_failed ServiceError None)],
            Ret (PyDict [])))
  /\ (forall response, model (calls t) p = Text response ->
        Json.loads (clean_json_text response) = None ->
        run = (t ++ [Generate p;
                     St_warning (Msg_skill_gap_failed JSONDecodeError (Some response))],
               Ret (PyDict [])))
  /\ (forall response v, model (calls t) p = Text response ->
        Json.loads (clean_json_text response) = Some v ->
        run = (t ++ [Generate p], Ret v)).
Proof.
  intros Hl p run. subst run. unfold skill_gap_analysis.
  erewrite bind_ret by (apply py_join_list; exact Hl).
  unfold try_assign, generate_content. fold (gap_prompt domain l). fold p.
  split; [|split].
  - intros ->. mrun. rewrite <- app_assoc. reflexivity.
  - intros response -> Hjson. unfold json_loads. rewrite Hjson. mrun.
    rewrite <- app_assoc. reflexivity.
  - intros response v -> Hjson. unfold json_loads. rewrite Hjson. reflexivity.
Qed.

Lemma skill_gap_analysis_result_witness :
  skill_gap_analysis (fun _ _ => Text (dq "```json ['Spark', 3] ```"))
    (lit "Data Science") (PyList ex_skills) []
  = ([Generate (gap_prompt (lit "Data Science") ex_skills)],
     Ret (PyList [PyStr (lit "Spark"); PyInt 3])).
Proof.
  apply (proj2 (proj2 (skill_gap_analysis_result
                         (fun _ _ => Text (dq "```json ['Spark', 3] ```"))
                         (lit "Data Science") ex_skills [] eq_refl))
           (dq "```json ['Spark', 3] ```")).
  - reflexivity.
  - vm_compute. reflexivity.
Defined.

(** X4 ([generate_roadmap], lines 75-105): a failing service and a reply that
    is not JSON both give one warning and the pair of empty strings; the
    warning carries the reply when there is one. *)
Theorem generate_roadmap_fallback
    (model : service) (name : str) (age : Z) (domain : str) (l : list pyval)
    (psy : psychometric_profile) (t : trace) :
  forallb is_str l = true ->
  let p := roadmap_prompt name age domain l psy in
  let run := generate_roadmap model name age domain (PyList l) psy t in
  (model (calls t) p = Raises ->
     run = (t ++ [Generate p; St_warning (Msg_roadmap_failed ServiceError None)],
            Ret (PyStr [], PyStr [])))
  /\ (forall response, model (calls t) p = Text response ->
        Json.loads (clean_json_text response) = None ->
        run = (t ++ [Generate p;
                     St_warning (Msg_roadmap_failed JSONDecodeError (Some response))],
               Ret (PyStr [], PyStr []))).
Proof.
  intros Hl p run. subst run. unfold generate_roadmap.
  erewrite bind_ret by (apply py_join_list; exact Hl).
  unfold try_assign, generate_content. fold (roadmap_prompt name age domain l psy). fold p.
  split.
  - intros ->. mrun. rewrite <- app_assoc. reflexivity.
  - intros response -> Hjson. unfold json_loads. rewrite Hjson. mrun.
    rewrite <- app_assoc. reflexivity.
Qed.

Lemma generate_roadmap_fallback_witness :
  generate_roadmap (fun _ _ => Raises) (lit "Asha") 25 (lit "Data Science")
    (PyList ex_skills) ex_profile []
  = ([Generate (roadmap_prompt (lit "Asha") 25 (lit "Data Science") ex_skills ex_profile);
      St_warning (Msg_roadmap_failed ServiceError None)],
     Ret (PyStr [], PyStr [])).
Proof.
  exact (proj1 (generate_roadmap_fallback (fun _ _ => Raises) (lit "Asha") 25
                  (lit "Data Science") ex_skills ex_profile [] eq_refl)
           eq_refl).
Defined.

(** X5 ([recommend_courses], lines 146-158): a failing service gives one
    warning and no link; any reply at all gives a list of links, and no
    warning even when the reply held none. *)
Theorem recommend_courses_fallback
    (isalnum_nonascii : N -> bool) (model : service) (domain : str) (t : trace) :
  let p := PromptCourses domain in
  let run := recommend_courses isalnum_nonascii model domain t in
  (model (calls t) p = Raises ->
     run = (t ++ [Generate p; St_warning (Msg_courses_failed ServiceError None)], Ret []))
  /\ (forall response, model (calls t) p = Text response ->
        exists urls, run = (t ++ [Generate p], Ret urls)).
Proof.
  intros p run. split.
  - apply recommend_courses_raises.
  - intros response Hreply. eexists. apply recommend_courses_text. exact Hreply.
Qed.

(* ================================================================== *)
(** ** Roadmap generation: what the retries show *)
(* ================================================================== *)

Lemma generate_roadmap_added model name age domain l psy t :
  forallb is_str l = true ->
  let p := roadmap_prompt name age domain l psy in
  exists w,
    generate_roadmap model name age domain (PyList l) psy t
    = (t ++ w, Ret (roadmap_of_reply (model (calls t) p)))
    /\ calls w = 1%nat /\ List.filter is_retrying w = [].
Proof.
  intros Hl p. unfold generate_roadmap.
  erewrite bind_ret by (apply py_join_list; exact Hl).
  unfold try_assign, generate_content.
  fold (roadmap_prompt name age domain l psy). fold p.
  destruct (model (calls t) p) as [|response]; simpl roadmap_of_reply.
  - mrun. eexists. split; [rewrite <- app_assoc; reflexivity | split; reflexivity].
  - mrun. destruct (Json.loads (clean_json_text response)) as [[| | | | | |d]|].
    all: mrun; try (exists [Generate p]; repeat split; reflexivity).
    all: eexists; (split; [rewrite <- app_assoc; reflexivity | split; reflexivity]).
Qed.

Lemma retrying_messages_S total a n :
  retrying_messages total a (S n)
  = St_info (Msg_retrying (a + 1) total) :: retrying_messages total (a + 1) n.
Proof.
  unfold retrying_messages. cbn [seq List.map]. f_equal.
  - do 2 f_equal. lia.
  - rewrite <- seq_shift, List.map_map. apply List.map_ext. intros i. do 2 f_equal. lia.
Qed.

Lemma roadmap_attempts_messages model name age domain l psy retries n :
  forallb is_str l = true ->
  forall attempt t,
  exists w out failed,
    roadmap_attempts model name age domain (PyList l) psy retries attempt n t
    = (t ++ w, Ret out)
    /\ List.filter is_retrying w = retrying_messages (retries + 1) attempt failed
    /\ calls w = (failed + if truthy (fst out) then 1 else 0)%nat
    /\ (failed <= n)%nat
    /\ (truthy (fst out) = false -> failed = n).
Proof.
  intros Hl. induction n as [|n IH]; intros attempt t.
  - exists [], (PyStr [], PyStr []), 0%nat. rewrite app_nil_r.
    repeat split; reflexivity || lia.
  - destruct (generate_roadmap_added model name age domain l psy t Hl)
      as (w1 & Hrun & Hc1 & Hf1).
    cbn [roadmap_attempts]. erewrite bind_ret by exact Hrun.
    destruct (roadmap_of_reply _) as [career_advice roadmap_svg].
    destruct (truthy career_advice) eqn:Htr.
    + exists w1, (career_advice, roadmap_svg), 0%nat. split; [reflexivity|].
      cbn [fst]. rewrite Htr, Hc1, Hf1.
      split; [reflexivity|]. split; [reflexivity|]. split; [lia | discriminate].
    + erewrite bind_ret by reflexivity.
      set (info := St_info (Msg_retrying (attempt + 1) (retries + 1))).
      destruct (IH (attempt + 1)%Z ((t ++ w1) ++ [info]))
        as (w & out & failed & Hrun' & Hf & Hc & Hle & Hall).
      exists (w1 ++ info :: w), out, (S failed).
      split; [rewrite Hrun'; f_equal; rewrite <- !app_assoc; reflexivity|].
      split.
      { rewrite List.filter_app, Hf1. cbn [app List.filter is_retrying info]. fold info.
        rewrite Hf, retrying_messages_S. reflexivity. }
      split; [rewrite calls_app, Hc1; change (calls (info :: w)) with (calls w); lia|].
      split; [lia|]. intros Hout. rewrite (Hall Hout). reflexivity.
Qed.



(** No advice in three attempts: three calls and three messages. *)
Example ex_retry_exhausted :
  generate_roadmap_with_retry (fun _ _ => Text (dq "{}")) (lit "Asha") 25
    (lit "Data Science") (PyList ex_skills) ex_profile 2 []
  = (let p := roadmap_prompt (lit "Asha") 25 (lit "Data Science") ex_skills ex_profile in
     [Generate p; St_info (Msg_retrying 1 3);
      Generate p; St_info (Msg_retrying 2 3);
      Generate p; St_info (Msg_retrying 3 3)],
     Ret (PyStr [], PyStr [])).
Proof. vm_compute. reflexivity. Qed.

(* ================================================================== *)
(** ** Course recommendation: every link on a line of its own is found *)
(* ================================================================== *)

Lemma plus_k_all (p : N -> bool) (u : str) :
  u <> [] -> Forall (fun c => p c = true) u -> Re.plus_k p u Some = Some [].
Proof.
  induction u as [|c u IH]; [congruence|]. intros _ Hall.
  inversion Hall as [|? ? Hc Hu]; subst. cbn [Re.plus_k]. rewrite Hc.
  destruct u as [|c' u]; [reflexivity|].
  rewrite IH by (discriminate || assumption). reflexivity.
Qed.

Lemma findall_from_skip_all (r : Re.regex) (s : str) :
  Re.match_prefix r [] = None -> Re.findall_from r (length s) s = [].
Proof.
  intros Hempty. induction s as [|c s IH]; cbn [length Re.findall_from].
  - rewrite Hempty. reflexivity.
  - exact IH.
Qed.

Lemma strip_prefix_app (p r : str) : strip_prefix p (p ++ r) = Some r.
Proof. apply strip_prefix_Some. reflexivity. Qed.

(** Literal prefixes of the pattern against a text that starts with
    literals: the same literal is consumed, another one is refused. *)
Ltac literal_prefixes :=
  repeat match goal with
         | |- context [strip_prefix ?p ?s] =>
             first [ rewrite (strip_prefix_app p)
                   | let H := fresh in
                     assert (H : strip_prefix p s = None) by reflexivity;
                     rewrite H; clear H ]
         end.

(** The pattern accepts every link of the shape, whole. *)
Lemma url_re_matches_shape isalnum_nonascii (u : str) :
  UrlShape isalnum_nonascii u -> Re.match_prefix (url_re isalnum_nonascii) u = Some [].
Proof.
  intros (scheme & www & host & path & id & -> & Hs & Hw & Hh & Hp & Hne & Hid).
  pose proof (plus_k_all _ id Hne Hid) as Hplus.
  unfold Re.match_prefix, url_re. cbn [Re.matchk].
  destruct Hs as [-> | ->];
    [change (lit "http://") with (lit "http" ++ lit "://")
    |change (lit "https://") with (lit "http" ++ lit "s" ++ lit "://")];
    (destruct Hw as [-> | ->], Hh as [-> | ->], Hp as [-> | ->];
     rewrite <- ?app_assoc, ?app_nil_l; literal_prefixes; rewrite ?Hplus; reflexivity).
Qed.

Lemma findall_whole (r : Re.regex) (u : str) :
  Re.match_prefix r u = Some [] -> Re.match_prefix r [] = None ->
  Re.findall r u = [u].
Proof.
  intros Hu Hempty. unfold Re.findall.
  destruct u as [|c u]; [congruence|].
  cbn [Re.findall_from]. rewrite Hu. cbv zeta.
  replace (length (c :: u) - length (@nil N))%nat with (S (length u)) by (cbn; lia).
  replace (S (length u) - 1)%nat with (length u) by lia.
  rewrite findall_from_skip_all by exact Hempty.
  rewrite take_ge by (cbn; lia). reflexivity.
Qed.

Lemma plus_k_stop (p : N -> bool) (u : str) (c : N) (rest : str) :
  u <> [] -> Forall (fun x => p x = true) u -> p c = false ->
  Re.plus_k p (u ++ c :: rest) Some = Some (c :: rest).
Proof.
  induction u as [|x u IH]; [congruence|]. intros _ Hall Hc.
  inversion Hall as [|? ? Hx Hu]; subst. cbn [Re.plus_k app]. rewrite Hx.
  destruct u as [|x' u].
  - cbn [app Re.plus_k]. rewrite Hc. reflexivity.
  - rewrite IH by (discriminate || assumption). reflexivity.
Qed.

(** The pattern accepts a link of the shape up to the line feed after it. *)
Lemma url_re_matches_line isalnum_nonascii (u rest : str) :
  UrlShape isalnum_nonascii u ->
  Re.match_prefix (url_re isalnum_nonascii) (u ++ 10 :: rest) = Some (10 :: rest).
Proof.
  intros (scheme & www & host & path & id & -> & Hs & Hw & Hh & Hp & Hne & Hid).
  pose proof (plus_k_stop _ id 10 rest Hne Hid eq_refl) as Hplus.
  unfold Re.match_prefix, url_re. cbn [Re.matchk].
  destruct Hs as [-> | ->];
    [change (lit "http://") with (lit "http" ++ lit "://")
    |change (lit "https://") with (lit "http" ++ lit "s" ++ lit "://")];
    (destruct Hw as [-> | ->], Hh as [-> | ->], Hp as [-> | ->];
     rewrite <- ?app_assoc, ?app_nil_l; literal_prefixes; rewrite ?Hplus; reflexivity).
Qed.

Lemma url_shape_nonempty isalnum_nonascii (u : str) : UrlShape isalnum_nonascii u -> u <> [].
Proof.
  intros (scheme & www & host & path & id & -> & Hs & _). 
  destruct Hs as [-> | ->]; discriminate.
Qed.

Lemma findall_from_skip (r : Re.regex) (p : str) : forall x,
  Re.findall_from r (length p) (p ++ x) = Re.findall_from r 0 x.
Proof. induction p as [|c p IH]; intros x; [reflexivity | exact (IH x)]. Qed.

(** Links of the shape, one per line, are all found, in order. *)
Lemma findall_lines isalnum_nonascii (links : list str) :
  links <> [] -> Forall (UrlShape isalnum_nonascii) links ->
  Re.findall (url_re isalnum_nonascii) (join lit_nl links) = links.
Proof.
  induction links as [|u links IH]; [congruence|]. intros _ Hall.
  inversion Hall as [|? ? Hu Hrest]; subst.
  destruct links as [|u' links].
  - cbn [join]. apply findall_whole; [apply url_re_matches_shape; exact Hu | reflexivity].
  - specialize (IH ltac:(discriminate) Hrest).
    change (join lit_nl (u :: u' :: links)) with (u ++ 10 :: join lit_nl (u' :: links)).
    set (rest := join lit_nl (u' :: links)) in *.
    unfold Re.findall in *.
    pose proof (url_shape_nonempty _ u Hu) as Hne.
    destruct u as [|c u]; [congruence|].
    cbn [app Re.findall_from].
    change (c :: u ++ 10 :: rest) with ((c :: u) ++ 10 :: rest).
    rewrite (url_re_matches_line _ (c :: u) rest Hu). cbv zeta.
    replace (length ((c :: u) ++ 10%N :: rest) - length (10%N :: rest))%nat with (S (length u))
      by (rewrite length_app; cbn; lia).
    replace (S (length u) - 1)%nat with (length u) by lia.
    rewrite findall_from_skip.
    replace (take (S (length u)) ((c :: u) ++ 10 :: rest)) with (c :: u)
      by (symmetry; apply (take_app_length (c :: u))).
    f_equal.
    (* the line feed starts no link *)
    cbn [Re.findall_from].
    assert (Hnl : Re.match_prefix (url_re isalnum_nonascii) (10 :: rest) = None) by reflexivity.
    rewrite Hnl. exact IH.
Qed.

(** X7 ([recommend_courses], lines 146-158): when the reply is a list of
    links of the expected shape, one per line, the function returns exactly
    these links, each once: none is lost and none is cut short. *)
Theorem recommend_courses_one_per_line
    (isalnum_nonascii : N -> bool) (model : service) (domain : str) (t : trace)
    (links : list str) :
  links <> [] ->
  Forall (UrlShape isalnum_nonascii) links ->
  model (calls t) (PromptCourses domain) = Text (join lit_nl links) ->
  exists urls : list str,
    recommend_courses isalnum_nonascii model domain t
    = (t ++ [Generate (PromptCourses domain)], Ret urls)
    /\ NoDup urls
    /\ forall u, u ∈ urls <-> u ∈ links.
Proof.
  intros Hne Hall Hreply. eexists. split; [apply recommend_courses_text; exact Hreply|].
  split; [apply list_of_set_NoDup|].
  intros u. rewrite elem_of_list_of_set, findall_lines by assumption.
  rewrite list_elem_of_In, filter_In, <- list_elem_of_In.
  split; [intros [Hu _]; exact Hu|]. intros Hu. split; [exact Hu|].
  eapply url_shape_is_youtube. rewrite Forall_forall in Hall. apply Hall. exact Hu.
Qed.

Lemma recommend_courses_one_per_line_witness :
  exists urls : list str,
    recommend_courses ascii_only (fun _ _ => Text (join lit_nl ex_links)) (lit "AI") []
    = ([] ++ [Generate (PromptCourses (lit "AI"))], Ret urls)
    /\ NoDup urls
    /\ forall u, u ∈ urls <-> u ∈ ex_links.
Proof.
  apply (recommend_courses_one_per_line ascii_only
           (fun _ _ => Text (join lit_nl ex_links)) (lit "AI") [] ex_links).
  - discriminate.
  - repeat apply List.Forall_cons; [| |apply List.Forall_nil].
    + exists (lit "https://"), (lit "www."), (lit "youtube.com"), (lit "watch?v="),
        (lit "abc_-1").
      repeat split; auto; try discriminate; repeat constructor.
    + exists (lit "http://"), [], (lit "youtu.be"), (lit "playlist?list="), (lit "PL1").
      repeat split; auto; try discriminate; repeat constructor.
  - reflexivity.
Defined.

(* ================================================================== *)
(** ** The script: the key and the upload *)
(* ================================================================== *)

(** [parse_resume] always returns a text. *)
Lemma parse_resume_returns (file : uploaded_file) (t : trace) :
  exists t' text, parse_resume file t = (t', Ret text).
Proof.
  unfold parse_resume.
  destruct (str_eqb (file_type file) mime_pdf).
  - destruct (as_pdf file) as [|pages]; [eexists _, _; reflexivity|].
    destruct (read_pages pages []) as [text [[]|e]] eqn:Hread.
    + eexists _, _; reflexivity.
    + apply read_pages_exception in Hread. subst e. eexists _, _; reflexivity.
  - destruct (str_eqb (file_type file) mime_docx || str_eqb (file_type file) mime_doc).
    + destruct (as_docx file); eexists _, _; reflexivity.
    + eexists _, _; reflexivity.
Qed.

(** [extract_skills] returns a list of strings, unless the service failed:
    then the handler's read of [response] fails. *)
Lemma extract_skills_outcome (model : service) (resume_text : str) (t : trace) :
  (exists t' ss, extract_skills model resume_text t = (t', Ret (PyList (List.map PyStr ss))))
  \/ (model (calls t) (PromptSkills resume_text) = Raises
      /\ extract_skills model resume_text t
         = (t ++ [Generate (PromptSkills resume_text)], Raise UnboundLocalError)).
Proof.
  destruct (model (calls t) (PromptSkills resume_text)) as [|response] eqn:Hreply.
  - right. split; [reflexivity|]. apply extract_skills_service_raises. exact Hreply.
  - left. unfold extract_skills, try_assign, generate_content. rewrite Hreply.
    unfold json_loads.
    destruct (Json.loads (clean_json_text response)) as [v|].
    + destruct (is_list_of_str v) eqn:Hshape.
      * apply is_list_of_str_spec in Hshape as [ss ->].
        exists (t ++ [Generate (PromptSkills resume_text)]), ss.
        mrun. rewrite forallb_is_str_map. reflexivity.
      * eexists _, []. mrun. rewrite Hshape. reflexivity.
    + eexists _, []. mrun. reflexivity.
Qed.

(** With the gate closed, [main_plan] shows at most one message. *)
Lemma main_plan_closed isalnum_nonascii (s : session) (skills : pyval) (t : trace) :
  plan_button s && nonempty (name_input s) && nonempty (domain_of s) && truthy skills = false ->
  main_plan isalnum_nonascii s skills t
  = (t ++ (if has_file s
           then (if negb (nonempty (name_input s)) || negb (nonempty (domain_of s))
                 then [St_warning Msg_fill_in_name_domain] else [])
           else [St_info Msg_get_started]),
     Ret tt).
Proof.
  intros Hgate. unfold main_plan. rewrite Hgate.
  destruct (has_file s); cbn [andb negb].
  - destruct (negb (nonempty (name_input s)) || negb (nonempty (domain_of s)));
      [reflexivity | rewrite app_nil_r; reflexivity].
  - reflexivity.
Qed.

(** With a key in the secrets, [load_api_key] returns it and shows nothing. *)
Lemma load_api_key_found (s : session) (c : N) (key : str) (t : trace) :
  secret_gemini_api_key s = Some (c :: key) ->
  load_api_key s t = (t, Ret (c :: key)).
Proof.
  unfold secret_gemini_api_key, load_api_key.
  destruct (st_secrets s) as [|api_key]; [discriminate|]. intros ->. reflexivity.
Qed.

(** X8 ([load_api_key], lines 15-21, and [main], line 182): a run without a
    usable key ends at once, in one of two ways.  With a secrets file that
    holds no key, or an empty one, the run shows the error and stops there.
    Without a secrets file the read of the secrets raises: the error of
    [load_api_key] is not shown, [st.stop] is not reached, and the exception
    leaves [main].  In both cases no resume is parsed and the service is
    not called. *)
Theorem main_missing_key_stops isalnum_nonascii (s : session) (t : trace) :
  (st_secrets s = SecretsFile None \/ st_secrets s = SecretsFile (Some []) ->
   main isalnum_nonascii s t = (t ++ [St_error Msg_api_key_missing], Raise StopException))
  /\ (st_secrets s = NoSecretsFile ->
      main isalnum_nonascii s t = (t, Raise FileNotFoundError)).
Proof.
  unfold main, load_api_key. split.
  - intros [-> | ->]; reflexivity.
  - intros ->. reflexivity.
Qed.

(** The two ways, on a session with a resume and the plan button pressed. *)
Example ex_main_without_key :
  main ascii_only (ex_session_of None ex_service_valid (file_uploader ex_session) []) []
  = ([St_error Msg_api_key_missing], Raise StopException)
  /\ main ascii_only
       {| st_secrets := NoSecretsFile;
          gemini := ex_service_valid;
          qrcode_fits := ex_qrcode_fits;
          name_input := name_input ex_session;
          age_input := age_input ex_session;
          domain_select := domain_select ex_session;
          other_domain_input := other_domain_input ex_session;
          sliders := sliders ex_session;
          file_uploader := file_uploader ex_session;
          manual_skills_input := [];
          plan_button := true;
          explore_button := false |} []
     = ([], Raise FileNotFoundError).
Proof. split; reflexivity. Qed.

(** X9 ([main], lines 208-236 and 298-299): without an uploaded file the run
    only shows the invitation to upload one, whatever the buttons, the name,
    the domain and the skills typed by hand: the field for manual skills is
    read only after an uploaded resume, so no plan is made without one. *)
Theorem main_without_upload isalnum_nonascii (s : session) (t : trace) (c : N) (key : str) :
  secret_gemini_api_key s = Some (c :: key) ->
  file_uploader s = None ->
  main isalnum_nonascii s t = (t ++ [St_info Msg_get_started], Ret tt).
Proof.
  intros Hkey Hfile. unfold main.
  erewrite bind_ret by (apply load_api_key_found; exact Hkey).
  unfold main_upload. rewrite Hfile. erewrite bind_ret by reflexivity.
  rewrite main_plan_closed by (cbn; apply andb_false_r).
  unfold has_file. rewrite Hfile. reflexivity.
Qed.

Lemma main_without_upload_witness :
  main ascii_only
    (ex_session_of (Some (lit "key")) ex_service_valid None (lit "Python, SQL")) []
  = ([St_info Msg_get_started], Ret tt).
Proof.
  exact (main_without_upload ascii_only
           (ex_session_of (Some (lit "key")) ex_service_valid None (lit "Python, SQL")) []
           107 (lit "ey") eq_refl eq_refl).
Defined.

Lemma parse_resume_calls (file : uploaded_file) (t t1 : trace) (o : outcome str) :
  parse_resume file t = (t1, o) -> calls t1 = calls t.
Proof.
  intros Hparse. unfold parse_resume, except_warn, st_warning in Hparse.
  repeat match type of Hparse with
         | context [if ?b then _ else _] => destruct b
         | context [match ?x with _ => _ end] => destruct x
         end; mrun; injection Hparse as <- _; rewrite ?calls_app; cbn; lia.
Qed.

(** X10 ([main], lines 213-231 and 296-297): when no text comes out of the
    uploaded file, the run shows the parse error, then the reminder of name
    and domain if one of them is missing, and nothing else; the service is
    not called, and the skills typed by hand are not read. *)
Theorem main_unparsed_resume isalnum_nonascii (s : session) (t t1 : trace)
    (c : N) (key : str) (uploaded : uploaded_file) :
  secret_gemini_api_key s = Some (c :: key) ->
  file_uploader s = Some uploaded ->
  parse_resume uploaded t = (t1, Ret []) ->
  main isalnum_nonascii s t
  = (t1 ++ St_error Msg_could_not_parse
        :: (if nonempty (name_input s) && nonempty (domain_of s) then []
            else [St_warning Msg_fill_in_name_domain]),
     Ret tt)
  /\ calls (fst (main isalnum_nonascii s t)) = calls t.
Proof.
  intros Hkey Hfile Hparse.
  assert (Hmain : main isalnum_nonascii s t
    = (t1 ++ St_error Msg_could_not_parse
          :: (if nonempty (name_input s) && nonempty (domain_of s) then []
              else [St_warning Msg_fill_in_name_domain]),
       Ret tt)).
  { assert (Hup : main_upload s t = (t1 ++ [St_error Msg_could_not_parse], Ret (PyList []))).
    { unfold main_upload. rewrite Hfile. erewrite bind_ret by exact Hparse. reflexivity. }
    unfold main. erewrite bind_ret by (apply load_api_key_found; exact Hkey).
    erewrite bind_ret by exact Hup.
    rewrite main_plan_closed by (cbn; apply andb_false_r).
    unfold has_file. rewrite Hfile. rewrite <- app_assoc. cbn [app].
    destruct (nonempty (name_input s)), (nonempty (domain_of s)); reflexivity. }
  split; [exact Hmain|]. rewrite Hmain. cbn [fst].
  rewrite calls_app, (parse_resume_calls _ _ _ _ Hparse).
  destruct (nonempty (name_input s) && nonempty (domain_of s)); cbn; lia.
Qed.

Lemma main_unparsed_resume_witness :
  main ascii_only
    (ex_session_of (Some (lit "key")) ex_service_valid (Some ex_unreadable) (lit "Python")) []
  = ([St_warning (Msg_docx_parsing_failed ExtractionError); St_error Msg_could_not_parse],
     Ret tt).
Proof.
  exact (proj1 (main_unparsed_resume ascii_only
                  (ex_session_of (Some (lit "key")) ex_service_valid (Some ex_unreadable)
                     (lit "Python"))
                  [] [St_warning (Msg_docx_parsing_failed ExtractionError)]
                  107 (lit "ey") ex_unreadable eq_refl eq_refl eq_refl)).
Defined.

(** The two ways the upload section can end. *)
Lemma main_upload_cases (s : session) (t t' : trace) (o : outcome pyval) :
  main_upload s t = (t', o) ->
  (exists ss : list str, o = Ret (PyList (List.map PyStr ss)))
  \/ o = Raise UnboundLocalError.
Proof.
  unfold main_upload. intros H.
  destruct (file_uploader s) as [uploaded|]; [|injection H as _ <-; left; exists []; reflexivity].
  destruct (parse_resume_returns uploaded t) as (t0 & text & Hparse).
  erewrite bind_ret in H by exact Hparse.
  destruct (nonempty text).
  - erewrite bind_ret in H by reflexivity. erewrite bind_ret in H by reflexivity.
    match type of H with context [extract_skills ?m ?r] =>
      match type of H with (_ ≫= _) ?t0 = _ =>
        destruct (extract_skills_outcome m r t0) as [(t1 & ss & Hrun) | [_ Hrun]] end end.
    + erewrite bind_ret in H by exact Hrun.
      destruct ss as [|sk ss]; cbn [truthy nonempty negb List.map] in H.
      * erewrite bind_ret in H by reflexivity. injection H as _ <-. left. eauto.
      * erewrite bind_ret in H by (apply (py_join_list _ (List.map PyStr (sk :: ss))), forallb_is_str_map).
        erewrite bind_ret in H by reflexivity. injection H as _ <-.
        left. exists (sk :: ss). reflexivity.
    + erewrite bind_raise in H by exact Hrun. injection H as _ <-. right. reflexivity.
  - erewrite bind_ret in H by reflexivity. injection H as _ <-. left. exists []. reflexivity.
Qed.

(** X11 ([main], lines 210-231): whenever the upload section hands skills
    on to the plan button, they are a list of strings: the list that the
    service gave, the skills typed by hand, or the empty list. *)
Theorem main_upload_outcome (s : session) (t t' : trace) (skills : pyval) :
  main_upload s t = (t', Ret skills) -> ListOfStrings skills.
Proof.
  intros Hrun.
  destruct (main_upload_cases s t t' (Ret skills) Hrun) as [[ss Hss] | Hraise];
    [|discriminate].
  injection Hss as ->. exists ss. reflexivity.
Qed.

Lemma main_upload_outcome_witness :
  snd (main_upload ex_session_valid []) = Ret (PyList ex_skills)
  /\ ListOfStrings (PyList ex_skills).
Proof.
  split; [vm_compute; reflexivity|].
  apply (main_upload_outcome ex_session_valid []
           (fst (main_upload ex_session_valid [])) (PyList ex_skills)).
  vm_compute. reflexivity.
Defined.

Lemma map_PyStr_str_of (l : list pyval) :
  forallb is_str l = true -> List.map PyStr (List.map str_of l) = l.
Proof.
  intros H. destruct (forallb_is_str_inv l H) as [ss ->]. clear H.
  induction ss as [|x ss IH]; [reflexivity|]. cbn [List.map str_of]. rewrite IH. reflexivity.
Qed.

Lemma map_str_of_PyStr (ss : list str) : List.map str_of (List.map PyStr ss) = ss.
Proof. induction ss as [|x ss IH]; [reflexivity|]. cbn [List.map str_of]. rewrite IH. reflexivity. Qed.

Lemma extract_skills_text (model : service) (resume_text response : str) (t : trace) :
  model (calls t) (PromptSkills resume_text) = Text response ->
  exists w,
    extract_skills model resume_text t
    = (t ++ w, Ret (PyList (List.map PyStr (skills_of_response response)))).
Proof.
  intros Hreply. unfold extract_skills, try_assign, generate_content, skills_of_response.
  rewrite Hreply. unfold json_loads.
  destruct (Json.loads (clean_json_text response)) as [v|].
  - destruct v as [| | | | |l|]; mrun; try (eexists; rewrite <- app_assoc; reflexivity).
    destruct (forallb is_str l) eqn:Hl.
    + rewrite (map_PyStr_str_of l Hl). eexists. reflexivity.
    + eexists. rewrite <- app_assoc. reflexivity.
  - mrun. eexists. rewrite <- app_assoc. reflexivity.
Qed.

(** X12 ([main], lines 213-229): after a resume with text and an answer of
    the service, the skills typed by hand are used exactly when the answer
    held no list of skills (then the warning is shown); otherwise the skills
    of the answer are shown and used, and what was typed is ignored. *)
Theorem main_upload_manual_fallback (s : session) (uploaded : uploaded_file)
    (t t1 : trace) (resume_text response : str) :
  file_uploader s = Some uploaded ->
  parse_resume uploaded t = (t1, Ret resume_text) ->
  resume_text <> [] ->
  gemini s (calls t1) (PromptSkills resume_text) = Text response ->
  let found := skills_of_response response in
  exists t2,
    main_upload s t
    = if nonempty found
      then (t2 ++ [St_info (Msg_extracted_skills (join (lit ", ") found))],
            Ret (PyList (List.map PyStr found)))
      else (t2 ++ [St_warning Msg_enter_skills_manually],
            Ret (PyList (List.map PyStr (manual_skills (manual_skills_input s))))).
Proof.
  intros Hfile Hparse Htext Hreply found. unfold main_upload. rewrite Hfile.
  erewrite bind_ret by exact Hparse.
  destruct resume_text as [|c text]; [congruence|]. cbn [nonempty].
  erewrite bind_ret by reflexivity. erewrite bind_ret by reflexivity.
  match goal with |- exists _, (_ ≫= _) ?t0 = _ =>
    destruct (extract_skills_text (gemini s) (c :: text) response t0) as (w & Hrun) end.
  { rewrite !calls_app. cbn. rewrite !Nat.add_0_r. exact Hreply. }
  erewrite bind_ret by exact Hrun. fold found.
  destruct found as [|sk ss]; cbn [List.map truthy nonempty negb].
  - erewrite bind_ret by reflexivity. eexists. reflexivity.
  - erewrite bind_ret
      by (apply (py_join_list _ (List.map PyStr (sk :: ss))), forallb_is_str_map).
    erewrite bind_ret by reflexivity.
    rewrite map_str_of_PyStr. eexists. reflexivity.
Qed.

Lemma main_upload_manual_fallback_witness :
  exists t2,
    main_upload
      (ex_session_of (Some (lit "key")) (gemini ex_session) (file_uploader ex_session)
         (lit " Python , ,SQL,")) []
    = (t2 ++ [St_warning Msg_enter_skills_manually], Ret (PyList ex_skills)).
Proof.
  destruct (main_upload_manual_fallback
              (ex_session_of (Some (lit "key")) (gemini ex_session) (file_uploader ex_session)
                 (lit " Python , ,SQL,"))
              {| file_type := mime_docx; as_pdf := PdfOpenRaises;
                 as_docx := DocxText (lit "Python developer") |}
              [] [] (lit "Python developer") (lit "I could not find any skills.")
              eq_refl eq_refl ltac:(intros H; vm_compute in H; discriminate) eq_refl)
    as [t2 Hrun].
  exists t2. rewrite Hrun. vm_compute. reflexivity.
Defined.

(* ================================================================== *)
(** ** Manual skills: what is shown can be typed back *)
(* ================================================================== *)

Lemma split_piece (sep : N) (s x : str) :
  sep ∉ s -> split sep (s ++ sep :: x) = s :: split sep x.
Proof.
  induction s as [|c s IH]; intros Hs.
  - cbn [app split]. rewrite N.eqb_refl. reflexivity.
  - apply not_elem_of_cons in Hs as [Hc Hs].
    cbn [app split]. rewrite IH by exact Hs.
    destruct (c =? sep) eqn:E; [apply N.eqb_eq in E; congruence | reflexivity].
Qed.

Lemma split_whole (sep : N) (s : str) : sep ∉ s -> split sep s = [s].
Proof.
  induction s as [|c s IH]; intros Hs; [reflexivity|].
  apply not_elem_of_cons in Hs as [Hc Hs].
  cbn [split]. rewrite IH by exact Hs.
  destruct (c =? sep) eqn:E; [apply N.eqb_eq in E; congruence | reflexivity].
Qed.

(** Splitting at the commas what was joined with a comma and a blank: the
    pieces after the first start with the blank. *)
Lemma split_join_comma_blank (rest : list str) : forall s : str,
  Forall (fun tok => 44 ∉ tok) (s :: rest) ->
  split 44 (join (lit ", ") (s :: rest)) = s :: List.map (cons 32) rest.
Proof.
  induction rest as [|y rest IH]; intros s Hall.
  - inversion Hall; subst. cbn [join List.map]. apply split_whole. assumption.
  - inversion Hall as [|? ? Hs Hrest]; subst.
    rewrite join_cons.
    assert (Hsep : lit ", " = [44; 32]) by reflexivity.
    rewrite Hsep at 1. cbn [app].
    rewrite split_piece by exact Hs. f_equal.
    cbn [split]. change (32 =? 44) with false. cbv iota.
    rewrite (IH y Hrest). reflexivity.
Qed.

Lemma strip_blank (s : str) : strip (32 :: s) = strip s.
Proof. reflexivity. Qed.

Lemma manual_skills_pieces (l : list str) :
  Forall SkillToken l ->
  List.map strip (List.filter (fun s => nonempty (strip s)) (List.map (cons 32) l)) = l.
Proof.
  induction l as [|s l IH]; intros Hall; [reflexivity|].
  inversion Hall as [|? ? (Hne & _ & Hh & Hl) Hrest]; subst.
  cbn [List.map List.filter]. rewrite strip_blank, (strip_id s Hh Hl).
  destruct s as [|c s]; [congruence|]. cbn [nonempty List.map].
  rewrite strip_blank, (strip_id (c :: s) Hh Hl), (IH Hrest). reflexivity.
Qed.

(** X18 ([main], lines 227 and 229): skills joined with a comma and a blank,
    as the page shows the extracted ones, and typed into the field for
    manual skills are read back as the same skills, provided each is
    non-empty, holds no comma and has no white space at its ends. *)
Theorem manual_skills_join (skills : list str) :
  Forall SkillToken skills ->
  manual_skills (join (lit ", ") skills) = skills.
Proof.
  intros Hall. destruct skills as [|s rest]; [reflexivity|].
  unfold manual_skills.
  rewrite split_join_comma_blank
    by (eapply Forall_impl; [exact Hall | intros x (_ & Hx & _); exact Hx]).
  inversion Hall as [|? ? (Hne & _ & Hh & Hl) Hrest]; subst.
  cbn [List.filter]. rewrite (strip_id s Hh Hl).
  destruct s as [|c s]; [congruence|]. cbn [nonempty List.map].
  rewrite (strip_id (c :: s) Hh Hl), (manual_skills_pieces rest Hrest). reflexivity.
Qed.

Lemma manual_skills_join_witness :
  manual_skills (join (lit ", ") [lit "Python"; lit "Machine Learning"])
  = [lit "Python"; lit "Machine Learning"].
Proof.
  apply (manual_skills_join [lit "Python"; lit "Machine Learning"]).
  repeat apply List.Forall_cons; [| |apply List.Forall_nil].
  all: split; [discriminate|]; split; [apply (bool_decide_unpack _); vm_compute; exact I|];
    split; intros c H; vm_compute in H; injection H as <-; reflexivity.
Defined.

(* ================================================================== *)
(** ** The script: the skill progress tab *)
(* ================================================================== *)

(** [skill_gap_analysis] returns what [gap_of_reply] makes of the reply. *)
Lemma skill_gap_analysis_run model domain l t :
  forallb is_str l = true ->
  exists w,
    skill_gap_analysis model domain (PyList l) t
    = (t ++ w, Ret (gap_of_reply (model (calls t) (gap_prompt domain l)))).
Proof.
  intros Hl. unfold skill_gap_analysis.
  erewrite bind_ret by (apply py_join_list; exact Hl).
  unfold try_assign, generate_content. fold (gap_prompt domain l).
  destruct (model (calls t) (gap_prompt domain l)) as [|response]; cbn [gap_of_reply].
  - mrun. eexists. rewrite <- app_assoc. reflexivity.
  - unfold json_loads. destruct (Json.loads (clean_json_text response)) as [v|].
    + eexists. reflexivity.
    + mrun. eexists. rewrite <- app_assoc. reflexivity.
Qed.

(** The QR renderer returns, or the encoding raises. *)
Lemma display_courses_with_qr_run (fits : str -> bool) (video_links : list str) (t : trace) :
  exists w,
    display_courses_with_qr fits video_links t = (t ++ w, Ret tt)
    \/ display_courses_with_qr fits video_links t = (t ++ w, Raise ValueError).
Proof.
  unfold display_courses_with_qr.
  destruct video_links as [|url rest]; [eexists; left; reflexivity|].
  cbn [nonempty negb]. erewrite bind_ret by reflexivity.
  erewrite bind_ret by apply list_courses_run.
  destruct (nonempty _); [|eexists; left; mrun; rewrite <- ?app_assoc; reflexivity].
  unfold qrcode_make. destruct (fits _).
  - eexists. left. mrun. rewrite <- ?app_assoc. reflexivity.
  - eexists. right. mrun. rewrite <- ?app_assoc. reflexivity.
Qed.

Lemma nonempty_true {A} (l : list A) : l <> [] -> nonempty l = true.
Proof. destruct l; [congruence | reflexivity]. Qed.

(** The first part of the plan, on skills that are strings: it returns what
    [skill_gap_analysis] made of the reply to its call, or the encoding of
    the QR code raises. *)
Lemma main_plan_first_run isalnum_nonascii (s : session) (l : list pyval) (t : trace) :
  l <> [] -> forallb is_str l = true ->
  exists t1 k,
    main_plan_first isalnum_nonascii s (PyList l) t
    = (t1, Ret (gap_of_reply (gemini s k (gap_prompt (domain_of s) l))))
    \/ main_plan_first isalnum_nonascii s (PyList l) t = (t1, Raise ValueError).
Proof.
  intros Hne Hl. unfold main_plan_first.
  cbn [truthy]. rewrite (nonempty_true l Hne). cbn [negb].
  erewrite bind_ret by reflexivity.
  unfold generate_roadmap_with_retry.
  destruct (roadmap_attempts_messages (gemini s) (name_input s) (age_input s) (domain_of s)
              l (sliders s) 2 (Z.to_nat (2 + 1)) Hl 0%Z t)
    as (w1 & [career_advice roadmap_svg] & failed & Hretry & _).
  erewrite bind_ret by exact Hretry.
  destruct (skill_gap_analysis_run (gemini s) (domain_of s) l (t ++ w1) Hl) as (w2 & Hrun2).
  erewrite bind_ret by exact Hrun2.
  destruct (recommend_courses_returns isalnum_nonascii (gemini s) (domain_of s) ((t ++ w1) ++ w2))
    as (t3 & links & Hrun3 & _).
  erewrite bind_ret by exact Hrun3.
  destruct (truthy career_advice); (erewrite bind_ret by reflexivity);
    (destruct (truthy roadmap_svg); (erewrite bind_ret by reflexivity));
    match goal with |- context [display_courses_with_qr ?fits links ≫= _] =>
      match goal with |- exists _ _, (_ ≫= _) ?t4 = _ \/ _ =>
        destruct (display_courses_with_qr_run fits links t4) as (w4 & [Hrun4 | Hrun4]);
        [erewrite bind_ret by exact Hrun4; eexists _, _; left; reflexivity
        |erewrite bind_raise by exact Hrun4; eexists _, 0%nat; right; reflexivity]
      end end.
Qed.

(** When the first part of the plan returns, its value is what
    [skill_gap_analysis] made of the reply. *)
Lemma main_plan_first_value isalnum_nonascii (s : session) (l : list pyval)
    (t t1 : trace) (gap : pyval) (r : reply) :
  l <> [] -> forallb is_str l = true ->
  (forall k, gemini s k (gap_prompt (domain_of s) l) = r) ->
  main_plan_first isalnum_nonascii s (PyList l) t = (t1, Ret gap) ->
  gap = gap_of_reply r.
Proof.
  intros Hne Hl Hr Hrun.
  destruct (main_plan_first_run isalnum_nonascii s l t Hne Hl) as (t1' & k & [H | H]);
    rewrite H in Hrun; [|discriminate].
  injection Hrun as _ <-. rewrite Hr. reflexivity.
Qed.

Lemma gate_open (s : session) (l : list pyval) :
  plan_button s = true -> name_input s <> [] -> domain_of s <> [] -> l <> [] ->
  plan_button s && nonempty (name_input s) && nonempty (domain_of s) && truthy (PyList l) = true.
Proof.
  intros -> Hname Hdomain Hl.
  rewrite (nonempty_true _ Hname), (nonempty_true _ Hdomain).
  cbn [truthy]. rewrite (nonempty_true _ Hl). reflexivity.
Qed.

(** X13 ([main], lines 236-294, with [skill_gap_analysis]): a skill-gap call
    that fails, or whose reply is not JSON, does not stop the page.  With
    the gate open, when the calls of the plan and the first two tabs have
    returned, the "Skill Progress" tab shows the note that no analysis could
    be made and the run ends normally; only the events of the last tab
    follow the note. *)
Theorem main_plan_gap_placeholder isalnum_nonascii (s : session) (l : list pyval)
    (t t1 : trace) (gap : pyval) (r : reply) :
  plan_button s = true -> name_input s <> [] -> domain_of s <> [] ->
  l <> [] -> forallb is_str l = true ->
  (forall k, gemini s k (gap_prompt (domain_of s) l) = r) ->
  (r = Raises
   \/ exists response, r = Text response /\ Json.loads (clean_json_text response) = None) ->
  main_plan_first isalnum_nonascii s (PyList l) t = (t1, Ret gap) ->
  main_plan isalnum_nonascii s (PyList l) t
  = (t1 ++ St_info Msg_unable_gap_analysis :: explore_events s, Ret tt).
Proof.
  intros Hbutton Hname Hdomain Hne Hl Hgap Hfail Hfirst.
  pose proof (main_plan_first_value isalnum_nonascii s l t t1 gap r Hne Hl Hgap Hfirst) as ->.
  unfold main_plan. rewrite (gate_open s l Hbutton Hname Hdomain Hne).
  erewrite bind_ret by exact Hfirst.
  assert (Hr : gap_of_reply r = PyDict []).
  { destruct Hfail as [-> | (response & -> & Hjson)]; cbn [gap_of_reply];
      [reflexivity | rewrite Hjson; reflexivity]. }
  rewrite Hr. unfold main_plan_last, explore_events. cbn [truthy nonempty].
  destruct (explore_button s); mrun; rewrite <- ?app_assoc; reflexivity.
Qed.

Lemma main_plan_gap_placeholder_witness :
  let s := ex_session_of (Some (lit "key")) (ex_service_gap Raises)
             (file_uploader ex_session) [] in
  main_plan ascii_only s (PyList ex_skills) []
  = (fst (main_plan_first ascii_only s (PyList ex_skills) [])
       ++ [St_info Msg_unable_gap_analysis],
     Ret tt).
Proof.
  intros s.
  exact (main_plan_gap_placeholder ascii_only s ex_skills []
           (fst (main_plan_first ascii_only s (PyList ex_skills) [])) (PyDict []) Raises
           eq_refl
           ltac:(intros H; vm_compute in H; discriminate)
           ltac:(intros H; vm_compute in H; discriminate)
           ltac:(discriminate) eq_refl (fun _ => eq_refl) (or_introl eq_refl)
           ltac:(vm_compute; reflexivity)).
Defined.

(** X14 ([main], lines 242 and 270-274): [skill_gap_analysis] hands on
    whatever JSON value the reply held, and the tab calls [.get] on it.
    With the gate open and a reply that parses to a non-empty list or
    string, a number other than zero or [true], when the calls of the plan
    and the first two tabs have returned, the run ends with an
    [AttributeError] right after the heading of the missing skills. *)
Theorem main_plan_gap_wrong_shape isalnum_nonascii (s : session) (l : list pyval)
    (t t1 : trace) (gap : pyval) (response : str) (v : pyval) :
  plan_button s = true -> name_input s <> [] -> domain_of s <> [] ->
  l <> [] -> forallb is_str l = true ->
  (forall k, gemini s k (gap_prompt (domain_of s) l) = Text response) ->
  Json.loads (clean_json_text response) = Some v ->
  truthy v = true ->
  (forall d, v <> PyDict d) ->
  main_plan_first isalnum_nonascii s (PyList l) t = (t1, Ret gap) ->
  main_plan isalnum_nonascii s (PyList l) t
  = (t1 ++ [St_markdown_missing_header], Raise AttributeError).
Proof.
  intros Hbutton Hname Hdomain Hne Hl Hgap Hjson Htruthy Hshape Hfirst.
  pose proof (main_plan_first_value isalnum_nonascii s l t t1 gap _ Hne Hl Hgap Hfirst) as ->.
  unfold main_plan. rewrite (gate_open s l Hbutton Hname Hdomain Hne).
  erewrite bind_ret by exact Hfirst.
  cbn [gap_of_reply]. rewrite Hjson. unfold main_plan_last. rewrite Htruthy.
  unfold gap_section. mrun.
  destruct v; try reflexivity. exfalso. eapply Hshape. reflexivity.
Qed.

Lemma main_plan_gap_wrong_shape_witness :
  let s := ex_session_of (Some (lit "key")) (ex_service_gap (Text (dq "['Spark']")))
             (file_uploader ex_session) [] in
  main_plan ascii_only s (PyList ex_skills) []
  = (fst (main_plan_first ascii_only s (PyList ex_skills) [])
       ++ [St_markdown_missing_header],
     Raise AttributeError).
Proof.
  intros s.
  exact (main_plan_gap_wrong_shape ascii_only s ex_skills []
           (fst (main_plan_first ascii_only s (PyList ex_skills) []))
           (PyList [PyStr (lit "Spark")]) (dq "['Spark']") (PyList [PyStr (lit "Spark")])
           eq_refl
           ltac:(intros H; vm_compute in H; discriminate)
           ltac:(intros H; vm_compute in H; discriminate)
           ltac:(discriminate) eq_refl (fun _ => eq_refl)
           ltac:(vm_compute; reflexivity) eq_refl ltac:(discriminate)
           ltac:(vm_compute; reflexivity)).
Defined.

(* ================================================================== *)
(** ** The script: the failures that are handled stay inside *)
(* ================================================================== *)

Lemma markdown_items_run (items : list pyval) (t : trace) :
  foldr (fun skill rest => emit (St_markdown_skill skill);; rest) (mret tt) items t
  = (t ++ List.map St_markdown_skill items, Ret tt).
Proof.
  revert t. induction items as [|v items IH]; intros t.
  - cbn. rewrite app_nil_r. reflexivity.
  - cbn [foldr List.map]. erewrite bind_ret by reflexivity.
    rewrite IH, <- app_assoc. reflexivity.
Qed.

Lemma gap_section_ends (v : pyval) (key : str) (header : event) (msg : message) (t : trace) :
  exists t', gap_section v key header msg t = (t', Ret tt)
             \/ gap_section v key header msg t = (t', Raise AttributeError)
             \/ gap_section v key header msg t = (t', Raise TypeError).
Proof.
  unfold gap_section. erewrite bind_ret by reflexivity.
  destruct v as [| | | | | |d];
    try (eexists; right; left; reflexivity).
  erewrite bind_ret by reflexivity.
  destruct (truthy (dict_get key PyNone d)); [|eexists; left; reflexivity].
  unfold markdown_skills.
  destruct (dict_get key PyNone d) as [| | | |x|x|x];
    try (eexists; right; right; reflexivity).
  all: erewrite bind_ret by reflexivity; rewrite markdown_items_run; eexists; left; reflexivity.
Qed.

Lemma main_plan_last_ends (s : session) (v : pyval) (t : trace) :
  snd (main_plan_last s v t) = Ret tt
  \/ snd (main_plan_last s v t) = Raise AttributeError
  \/ snd (main_plan_last s v t) = Raise TypeError.
Proof.
  unfold main_plan_last.
  assert (Htail : forall t2,
    (if explore_button s then
       st_success Msg_searching_opportunities;; st_info Msg_demo_action
     else mret tt) t2
    = (t2 ++ explore_events s, Ret tt)).
  { intros t2. unfold explore_events. destruct (explore_button s); mrun;
      rewrite <- ?app_assoc, ?app_nil_r; reflexivity. }
  destruct (truthy v).
  - destruct (gap_section_ends v (lit "missing_skills")
                St_markdown_missing_header Msg_no_missing_skills t)
      as (t2 & [H1 | [H1 | H1]]).
    + destruct (gap_section_ends v (lit "priority_skills")
                  St_markdown_priority_header Msg_no_priority_skills t2)
        as (t3 & [H2 | [H2 | H2]]).
      * left. erewrite bind_ret by (erewrite bind_ret by exact H1; exact H2).
        rewrite Htail. reflexivity.
      * right. left.
        erewrite bind_raise by (erewrite bind_ret by exact H1; exact H2). reflexivity.
      * right. right.
        erewrite bind_raise by (erewrite bind_ret by exact H1; exact H2). reflexivity.
    + right. left. erewrite bind_raise by (erewrite bind_raise by exact H1; reflexivity).
      reflexivity.
    + right. right. erewrite bind_raise by (erewrite bind_raise by exact H1; reflexivity).
      reflexivity.
  - left. erewrite bind_ret by reflexivity. rewrite Htail. reflexivity.
Qed.

(** How [main] can end, in this model of its libraries. *)
Lemma main_ends_cases isalnum_nonascii (s : session) (t : trace) :
  ends_with [StopException; FileNotFoundError; UnboundLocalError; ValueError;
             AttributeError; TypeError]
    (snd (main isalnum_nonascii s t)).
Proof.
  assert (Hends : forall o : outcome unit,
            o = Ret tt \/ o = Raise StopException \/ o = Raise FileNotFoundError
            \/ o = Raise UnboundLocalError \/ o = Raise ValueError
            \/ o = Raise AttributeError \/ o = Raise TypeError ->
            ends_with [StopException; FileNotFoundError; UnboundLocalError; ValueError;
                       AttributeError; TypeError] o).
  { intros o [-> | [-> | [-> | [-> | [-> | [-> | ->]]]]]]; cbn; [exact I | | | | | |];
      repeat (first [apply list_elem_of_here | apply list_elem_of_further]). }
  apply Hends. unfold main, load_api_key.
  destruct (st_secrets s) as [|[[|c key]|]];
    try (right; left; reflexivity); [right; right; left; reflexivity|].
  erewrite bind_ret by reflexivity.
  destruct (main_upload s t) as [t1 o] eqn:Hup.
  destruct (main_upload_cases s t t1 o Hup) as [[ss ->] | ->].
  - erewrite bind_ret by exact Hup.
    destruct (plan_button s && nonempty (name_input s) && nonempty (domain_of s)
              && truthy (PyList (List.map PyStr ss))) eqn:Hgate.
    + unfold main_plan. rewrite Hgate.
      assert (Hne : List.map PyStr ss <> [])
        by (apply andb_prop in Hgate as [_ Hs]; destruct ss; [discriminate Hs | discriminate]).
      destruct (main_plan_first_run isalnum_nonascii s _ t1 Hne (forallb_is_str_map ss))
        as (t2 & k & [H | H]).
      * erewrite bind_ret by exact H.
        destruct (main_plan_last_ends s (gap_of_reply (gemini s k (gap_prompt (domain_of s)
                    (List.map PyStr ss)))) t2) as [E | [E | E]]; rewrite E; auto 10.
      * erewrite bind_raise by exact H. auto 10.
    + rewrite (main_plan_closed _ _ _ _ Hgate). left. reflexivity.
  - erewrite bind_raise by exact Hup. auto 10.
Qed.

(** X15 ([main], lines 178-299): no exception that the script handles ever
    leaves [main]: not the failure of a call to the service, not the error
    of [json.loads] on a reply, not the failure of the resume extraction.
    Each is caught where it arises (the failure of the service during the
    skill extraction is replaced there by the [UnboundLocalError] of the
    handler). *)
Theorem main_contains_handled_errors (isalnum_nonascii : N -> bool) (s : session) (t : trace) :
  snd (main isalnum_nonascii s t) <> Raise ServiceError
  /\ snd (main isalnum_nonascii s t) <> Raise JSONDecodeError
  /\ snd (main isalnum_nonascii s t) <> Raise ExtractionError.
Proof.
  pose proof (main_ends_cases isalnum_nonascii s t) as Hends.
  destruct (snd (main isalnum_nonascii s t)) as [[]|e]; [repeat split; discriminate|].
  cbn [ends_with] in Hends.
  repeat split; intros [= ->];
    repeat (apply elem_of_cons in Hends as [Hends | Hends]; [discriminate Hends|]);
    inversion Hends.
Qed.

(** The failures that do leave [main]: a list of missing skills that is a
    number, over which the loop of the tab fails, and a course link too long
    for a QR code. *)
Example ex_main_type_error :
  snd (main ascii_only
         (ex_session_of (Some (lit "key")) (ex_service_gap (Text (dq "{'missing_skills': 5}")))
            (file_uploader ex_session) []) [])
  = Raise TypeError.
Proof. vm_compute. reflexivity. Qed.

Example ex_main_qr_overflow :
  snd (main ascii_only
         (ex_session_of (Some (lit "key"))
            (fun k p => match p with
                        | PromptCourses _ => Text ex_long_link
                        | _ => ex_service_valid k p
                        end)
            (file_uploader ex_session) []) [])
  = Raise ValueError.
Proof. vm_compute. reflexivity. Qed.

(* ================================================================== *)
(** ** The script: how often the service is called *)
(* ================================================================== *)

(** The weight that each function of app.py can add to the trace. *)
Section Costs.
Variables ws wr wg wc wp : nat.
Local Abbreviation mu := (weight ws wr wg wc wp).

Lemma cost_app (nu : event -> nat) t1 t2 : cost nu (t1 ++ t2) = (cost nu t1 + cost nu t2)%nat.
Proof. apply sum_list_with_app. Qed.

Lemma costs_weaken {A} (nu : event -> nat) (n n' : nat) (m : M A) :
  costs_le nu n m -> (n <= n')%nat -> costs_le nu n' m.
Proof. intros H Hn t t' o Hrun. apply H in Hrun. lia. Qed.

Lemma costs_ret {A} (nu : event -> nat) (n : nat) (a : A) : costs_le nu n (mret a).
Proof. intros t t' o [= <- _]. lia. Qed.

Lemma costs_raise {A} (nu : event -> nat) (n : nat) (e : exn) : costs_le nu n (raise e : M A).
Proof. intros t t' o [= <- _]. lia. Qed.

Lemma costs_emit (nu : event -> nat) (n : nat) (ev : event) :
  (nu ev <= n)%nat -> costs_le nu n (emit ev).
Proof. intros Hn t t' o [= <- _]. rewrite cost_app. cbn. lia. Qed.

Lemma costs_generate (nu : event -> nat) (n : nat) model p :
  (nu (Generate p) <= n)%nat -> costs_le nu n (generate_content model p).
Proof. intros Hn t t' o [= <- _]. rewrite cost_app. cbn. lia. Qed.

Lemma costs_bind {A B} (nu : event -> nat) (n1 n : nat) (m : M A) (k : A -> M B) :
  costs_le nu n1 m -> (n1 <= n)%nat -> (forall a, costs_le nu (n - n1) (k a)) ->
  costs_le nu n (m ≫= k).
Proof.
  intros Hm Hn Hk t t' o H. unfold mbind, M_bind in H.
  destruct (m t) as [t1 [a|e]] eqn:Hmt.
  - apply Hk in H. apply Hm in Hmt. lia.
  - injection H as <- _. apply Hm in Hmt. lia.
Qed.

Lemma costs_try_assign {A B} (nu : event -> nat) (n1 n2 n3 n : nat)
    (m : M A) (k : A -> M B) (h : option A -> exn -> M B) :
  costs_le nu n1 m -> (forall a, costs_le nu n2 (k a)) ->
  (forall x e, costs_le nu n3 (h x e)) -> (n1 + n2 + n3 <= n)%nat ->
  costs_le nu n (try_assign m k h).
Proof.
  intros Hm Hk Hh Hn t t' o H. unfold try_assign in H.
  destruct (m t) as [t1 [a|e]] eqn:Hmt; apply Hm in Hmt.
  - destruct (k a t1) as [t2 [b|e]] eqn:Hkt; apply Hk in Hkt.
    + injection H as <- _. lia.
    + destruct (is_Exception e).
      * apply Hh in H. lia.
      * injection H as <- _. lia.
  - destruct (is_Exception e).
    + apply Hh in H. lia.
    + injection H as <- _. lia.
Qed.

(** Tail positions: the budget is whatever is left. *)
Ltac costs_tail :=
  repeat first
    [ apply costs_ret | apply costs_raise
    | apply costs_emit; cbn; lia
    | apply costs_generate; cbn; lia
    | match goal with
      | |- costs_le _ _ (emit ?ev ≫= _) =>
          apply (costs_bind _ 0); [apply costs_emit; cbn; lia | lia | intros ?]
      | |- costs_le _ _ (if ?b then _ else _) => destruct b
      | |- costs_le _ _ (match ?x with _ => _ end) => destruct x
      end ].

Lemma costs_py_iter n v : costs_le mu n (py_iter v).
Proof. unfold py_iter. costs_tail. Qed.

Lemma costs_py_join n sep v : costs_le mu n (py_join sep v).
Proof.
  unfold py_join. apply (costs_bind _ 0); [apply costs_py_iter | lia | intros items].
  costs_tail.
Qed.

Lemma costs_py_get n v k d : costs_le mu n (py_get v k d).
Proof. unfold py_get. costs_tail. Qed.

Lemma costs_json_loads n text : costs_le mu n (json_loads text).
Proof. unfold json_loads. costs_tail. Qed.

Lemma costs_parse_resume n file : costs_le mu n (parse_resume file).
Proof.
  unfold parse_resume, except_warn, st_warning. costs_tail.
Qed.

Lemma costs_extract_skills n model resume_text :
  (ws <= n)%nat -> costs_le mu n (extract_skills model resume_text).
Proof.
  intros Hn. unfold extract_skills, st_warning.
  apply (costs_try_assign _ ws 0 0); [| | |lia].
  - apply costs_generate. cbn. lia.
  - intros response. apply (costs_bind _ 0); [apply costs_json_loads | lia | intros skills].
    costs_tail.
  - intros response e. apply (costs_bind _ 0); [costs_tail | lia | intros raw]. costs_tail.
Qed.

Lemma costs_generate_roadmap n model name age domain skills psy :
  (wr <= n)%nat -> costs_le mu n (generate_roadmap model name age domain skills psy).
Proof.
  intros Hn. unfold generate_roadmap, st_warning.
  apply (costs_bind _ 0); [apply costs_py_join | lia | intros joined].
  apply (costs_try_assign _ wr 0 0); [| | |lia].
  - apply costs_generate. cbn. lia.
  - intros response. apply (costs_bind _ 0); [apply costs_json_loads | lia | intros data].
    apply (costs_bind _ 0); [apply costs_py_get | lia | intros a].
    apply (costs_bind _ 0); [apply costs_py_get | lia | intros b]. costs_tail.
  - intros response e. costs_tail.
Qed.

Lemma costs_roadmap_attempts model name age domain skills psy retries k : forall attempt n,
  (k * wr <= n)%nat ->
  costs_le mu n (roadmap_attempts model name age domain skills psy retries attempt k).
Proof.
  induction k as [|k IH]; intros attempt n Hn; cbn [roadmap_attempts].
  - apply costs_ret.
  - apply (costs_bind _ wr); [apply costs_generate_roadmap; lia | lia |].
    intros [career_advice roadmap_svg]. destruct (truthy career_advice); [apply costs_ret|].
    unfold st_info. apply (costs_bind _ 0); [apply costs_emit; cbn; lia | lia | intros _].
    apply IH. lia.
Qed.

Lemma costs_generate_roadmap_with_retry n model name age domain skills psy :
  (3 * wr <= n)%nat ->
  costs_le mu n (generate_roadmap_with_retry model name age domain skills psy 2).
Proof. intros Hn. unfold generate_roadmap_with_retry. apply costs_roadmap_attempts. cbn. lia. Qed.

Lemma costs_skill_gap_analysis n model domain skills :
  (wg <= n)%nat -> costs_le mu n (skill_gap_analysis model domain skills).
Proof.
  intros Hn. unfold skill_gap_analysis, st_warning.
  apply (costs_bind _ 0); [apply costs_py_join | lia | intros joined].
  apply (costs_try_assign _ wg 0 0); [| | |lia].
  - apply costs_generate. cbn. lia.
  - intros response. apply costs_json_loads.
  - intros response e. costs_tail.
Qed.

Lemma costs_recommend_courses n isalnum model domain :
  (wc <= n)%nat -> costs_le mu n (recommend_courses isalnum model domain).
Proof.
  intros Hn. unfold recommend_courses, st_warning.
  apply (costs_try_assign _ wc 0 0); [| | |lia].
  - apply costs_generate. cbn. lia.
  - intros response. apply costs_ret.
  - intros response e. costs_tail.
Qed.

Lemma costs_list_courses n links : forall idx, costs_le mu n (list_courses idx links).
Proof.
  induction links as [|url rest IH]; intros idx; cbn [list_courses]; [apply costs_ret|].
  apply (costs_bind _ 0); [apply costs_emit; cbn; lia | lia | intros _].
  eapply costs_weaken; [apply IH | lia].
Qed.

Lemma costs_display_courses n fits links :
  costs_le mu n (display_courses_with_qr fits links).
Proof.
  unfold display_courses_with_qr, st_info.
  destruct (negb (nonempty links)); [costs_tail|].
  apply (costs_bind _ 0); [apply costs_emit; cbn; lia | lia | intros _].
  apply (costs_bind _ 0); [apply costs_list_courses | lia | intros _].
  destruct (nonempty _); [|costs_tail].
  apply (costs_bind _ 0); [unfold qrcode_make; costs_tail | lia | intros buf].
  costs_tail.
Qed.

Lemma costs_markdown_skills n v : costs_le mu n (markdown_skills v).
Proof.
  unfold markdown_skills. apply (costs_bind _ 0); [apply costs_py_iter | lia | intros items].
  induction items as [|skill items IH]; cbn [foldr]; [apply costs_ret|].
  apply (costs_bind _ 0); [apply costs_emit; cbn; lia | lia | intros _]. 
  eapply costs_weaken; [exact IH | lia].
Qed.

Lemma costs_gap_section n v key header msg :
  mu header = 0%nat -> costs_le mu n (gap_section v key header msg).
Proof.
  intros Hh. unfold gap_section, st_info.
  apply (costs_bind _ 0); [apply costs_emit; lia | lia | intros _].
  apply (costs_bind _ 0); [apply costs_py_get | lia | intros listed].
  destruct (truthy listed); [apply costs_markdown_skills | costs_tail].
Qed.

Lemma costs_load_api_key n s : costs_le mu n (load_api_key s).
Proof. unfold load_api_key, st_error, st_stop. costs_tail. Qed.

Lemma costs_main_upload n s : (ws <= n)%nat -> costs_le mu n (main_upload s).
Proof.
  intros Hn. unfold main_upload, st_success, st_warning, st_info, st_error.
  destruct (file_uploader s); [|apply costs_ret].
  apply (costs_bind _ 0); [apply costs_parse_resume | lia | intros resume_text].
  destruct (nonempty resume_text); [|costs_tail].
  apply (costs_bind _ 0); [apply costs_emit; cbn; lia | lia | intros _].
  apply (costs_bind _ 0); [apply costs_emit; cbn; lia | lia | intros _].
  apply (costs_bind _ ws); [apply costs_extract_skills; lia | lia | intros skills].
  destruct (negb (truthy skills)); [costs_tail|].
  apply (costs_bind _ 0); [apply costs_py_join | lia | intros joined]. costs_tail.
Qed.

Lemma costs_main_plan_first n isalnum s skills :
  truthy skills = true -> (3 * wr + wg + wc <= n)%nat ->
  costs_le mu n (main_plan_first isalnum s skills).
Proof.
  intros Hs Hn. unfold main_plan_first, st_warning, st_info. rewrite Hs. cbn [negb].
  apply (costs_bind _ 0); [apply costs_ret | lia | intros _].
  apply (costs_bind _ (3 * wr)); [apply costs_generate_roadmap_with_retry; lia | lia |].
  intros [career_advice roadmap_svg].
  apply (costs_bind _ wg); [apply costs_skill_gap_analysis; lia | lia | intros gap].
  apply (costs_bind _ wc); [apply costs_recommend_courses; lia | lia | intros links].
  apply (costs_bind _ 0); [costs_tail | lia | intros _].
  apply (costs_bind _ 0); [costs_tail | lia | intros _].
  apply (costs_bind _ 0); [apply costs_display_courses | lia | intros _].
  apply costs_ret.
Qed.

Lemma costs_main_plan_last n s gap : costs_le mu n (main_plan_last s gap).
Proof.
  unfold main_plan_last, st_info, st_success.
  apply (costs_bind _ 0); [| lia | intros _; costs_tail].
  destruct (truthy gap); [|costs_tail].
  apply (costs_bind _ 0); [apply costs_gap_section; reflexivity | lia | intros _].
  apply costs_gap_section; reflexivity.
Qed.

Lemma costs_main_plan n isalnum s skills :
  (3 * wr + wg + wc <= n)%nat -> costs_le mu n (main_plan isalnum s skills).
Proof.
  intros Hn. unfold main_plan, st_warning, st_info.
  destruct (plan_button s && nonempty (name_input s) && nonempty (domain_of s) && truthy skills)
    eqn:Hgate; [|costs_tail].
  apply andb_prop in Hgate as [_ Hskills].
  apply (costs_bind _ (3 * wr + wg + wc));
    [apply costs_main_plan_first; [exact Hskills | lia] | lia | intros gap].
  apply costs_main_plan_last.
Qed.

Lemma costs_main isalnum s :
  costs_le mu (ws + 3 * wr + wg + wc) (main isalnum s).
Proof.
  unfold main.
  apply (costs_bind _ 0); [apply costs_load_api_key | lia | intros key].
  apply (costs_bind _ ws); [apply costs_main_upload; lia | lia | intros skills].
  apply costs_main_plan. lia.
Qed.

End Costs.

Lemma count_cost (p : event -> bool) (nu : event -> nat) (t : trace) :
  (forall ev, nu ev = if p ev then 1%nat else 0%nat) -> count p t = cost nu t.
Proof.
  intros Hnu. unfold count, cost.
  induction t as [|ev t IH]; [reflexivity|].
  cbn [List.filter sum_list_with]. rewrite Hnu.
  destruct (p ev); cbn [length]; lia.
Qed.

Lemma cost_zero_not_in (nu : event -> nat) (ev : event) (t : trace) :
  nu ev <> 0%nat -> cost nu t = 0%nat -> ev ∉ t.
Proof.
  intros Hev. unfold cost. induction t as [|ev' t IH]; intros Hcost.
  - apply not_elem_of_nil.
  - cbn [sum_list_with] in Hcost. apply not_elem_of_cons. split.
    + intros ->. lia.
    + apply IH. lia.
Qed.

Lemma not_in_cost_zero (nu : event -> nat) (ev : event) (t : trace) :
  (forall ev', nu ev' <> 0%nat -> ev' = ev) -> ev ∉ t -> cost nu t = 0%nat.
Proof.
  intros Hnu. unfold cost. induction t as [|ev' t IH]; intros Hnotin; [reflexivity|].
  apply not_elem_of_cons in Hnotin as [Hne Hnotin].
  cbn [sum_list_with]. rewrite (IH Hnotin).
  destruct (Nat.eq_dec (nu ev') 0%nat) as [->|Hpos]; [reflexivity|].
  exfalso. apply Hne. symmetry. apply Hnu. exact Hpos.
Qed.

Lemma weight_provide_skills ev :
  weight 0 0 0 0 1 ev <> 0%nat -> ev = St_warning Msg_provide_skills.
Proof.
  destruct ev as [[]|m|m| | | | | | | | | | | | |]; cbn; try congruence.
  destruct m; cbn; congruence.
Qed.

(** X16 ([main], lines 178-299): one run of the script calls the service at
    most six times: at most once for the skills, three times for the
    roadmap, once for the skill gap and once for the courses. *)
Theorem main_service_calls_bounded (isalnum_nonascii : N -> bool) (s : session) (t : trace) :
  let t' := fst (main isalnum_nonascii s t) in
  (count is_skills_call t' <= count is_skills_call t + 1)%nat
  /\ (count is_roadmap_call t' <= count is_roadmap_call t + 3)%nat
  /\ (count is_gap_call t' <= count is_gap_call t + 1)%nat
  /\ (count is_courses_call t' <= count is_courses_call t + 1)%nat
  /\ (calls t' <= calls t + 6)%nat.
Proof.
  intros t'. subst t'.
  destruct (main isalnum_nonascii s t) as [t' o] eqn:Hrun. cbn [fst].
  assert (Hs : forall ev, weight 1 0 0 0 0 ev = if is_skills_call ev then 1%nat else 0%nat)
    by (intros [[]|m| | | | | | | | | | | | | |]; try reflexivity; destruct m; reflexivity).
  assert (Hr : forall ev, weight 0 1 0 0 0 ev = if is_roadmap_call ev then 1%nat else 0%nat)
    by (intros [[]|m| | | | | | | | | | | | | |]; try reflexivity; destruct m; reflexivity).
  assert (Hg : forall ev, weight 0 0 1 0 0 ev = if is_gap_call ev then 1%nat else 0%nat)
    by (intros [[]|m| | | | | | | | | | | | | |]; try reflexivity; destruct m; reflexivity).
  assert (Hc : forall ev, weight 0 0 0 1 0 ev = if is_courses_call ev then 1%nat else 0%nat)
    by (intros [[]|m| | | | | | | | | | | | | |]; try reflexivity; destruct m; reflexivity).
  assert (Ha : forall ev, weight 1 1 1 1 0 ev = if is_generate ev then 1%nat else 0%nat)
    by (intros [[]|m| | | | | | | | | | | | | |]; try reflexivity; destruct m; reflexivity).
  change calls with (count is_generate).
  rewrite !(count_cost _ _ _ Hs), !(count_cost _ _ _ Hr), !(count_cost _ _ _ Hg),
    !(count_cost _ _ _ Hc), !(count_cost _ _ _ Ha).
  pose proof (costs_main 1 0 0 0 0 isalnum_nonascii s t t' o Hrun).
  pose proof (costs_main 0 1 0 0 0 isalnum_nonascii s t t' o Hrun).
  pose proof (costs_main 0 0 1 0 0 isalnum_nonascii s t t' o Hrun).
  pose proof (costs_main 0 0 0 1 0 isalnum_nonascii s t t' o Hrun).
  pose proof (costs_main 1 1 1 1 0 isalnum_nonascii s t t' o Hrun).
  lia.
Qed.

(** The bound is reached: skills found, no roadmap in three attempts. *)
Example ex_main_six_calls :
  calls (fst (main ascii_only
                (ex_session_of (Some (lit "key")) ex_service_skills_only
                   (file_uploader ex_session) []) []))
  = 6%nat.
Proof. vm_compute. reflexivity. Qed.

(** X17 ([main], lines 236-239): the warning that asks for skills behind the
    plan button is never shown: the button's own condition already requires
    the skills, so the check under it cannot succeed. *)
Theorem main_never_asks_for_skills (isalnum_nonascii : N -> bool) (s : session) (t : trace) :
  St_warning Msg_provide_skills ∉ t ->
  St_warning Msg_provide_skills ∉ fst (main isalnum_nonascii s t).
Proof.
  intros Hnotin.
  destruct (main isalnum_nonascii s t) as [t' o] eqn:Hrun. cbn [fst].
  apply (cost_zero_not_in (weight 0 0 0 0 1)); [cbn; lia|].
  pose proof (costs_main 0 0 0 0 1 isalnum_nonascii s t t' o Hrun) as Hle.
  rewrite (not_in_cost_zero _ _ t weight_provide_skills Hnotin) in Hle. lia.
Qed.

Lemma main_never_asks_for_skills_witness :
  St_warning Msg_provide_skills ∉ fst (main ascii_only ex_session_valid []).
Proof.
  apply (main_never_asks_for_skills ascii_only ex_session_valid []).
  apply not_elem_of_nil.
Defined.
